(** * Price-caching service: cache, rate limiter, price fetcher, HTTP surface

    A shallow embedding of [backend/config.js], [backend/cache.js],
    [backend/rateLimiter.js], [backend/priceService.js] and the
    [/api/prices/all] handler of [backend/server.js], with the properties
    of the specification stated and settled against it.

    Modelling conventions.
    - The two process-wide singletons ([cache], [rateLimiter]) live in one
      [World] record that every operation threads through a state and
      exception monad [M].
    - The outside world is an oracle [Env]: what the clock shows at the
      n-th call of [Date.now()] apart from the time the process has slept,
      the n-th draw of [Math.random()], the outcome of the n-th [fetch].
      Every call of [Date.now()] is a reading of its own, so two readings
      inside one method may differ; a [sleep] of [ms] milliseconds moves
      every later reading by [ms].
    - JavaScript numbers are rationals ([Q]) where they carry prices and
      integers ([Z]) where they carry milliseconds or counts; [NaN] and
      rounding of doubles are outside the model.
    - [console.log] output is not modelled.  [sleep] and [fetch] leave an
      event in [trace]. *)

From Stdlib Require Import ZArith QArith Qround String List Lia Bool.
From stdpp Require Import base option list strings gmap.

#[local] Set Warnings "-register-all".

Local Open Scope string_scope.
Local Open Scope Z_scope.

(** ** JavaScript values *)

Inductive value : Type :=
| VUndefined
| VNull
| VBool (b : bool)
| VNum (q : Q)
| VStr (s : string)
| VArr (elems : list value)
| VObj (fields : list (string * value)).

(** [ToBoolean]. *)
Definition truthy (v : value) : bool :=
  match v with
  | VUndefined | VNull => false
  | VBool b => b
  | VNum q => negb (Qeq_bool q 0)
  | VStr s => negb (String.eqb s EmptyString)
  | VArr _ | VObj _ => true
  end.

(** Own-property lookup in an object literal kept in insertion order. *)
Fixpoint obj_get (k : string) (fs : list (string * value)) : option value :=
  match fs with
  | [] => None
  | (k', v) :: rest => if String.eqb k k' then Some v else obj_get k rest
  end.

(** [o[k] = v]: overwrite in place when the key exists, append otherwise. *)
Fixpoint obj_set (k : string) (v : value) (fs : list (string * value))
  : list (string * value) :=
  match fs with
  | [] => [(k, v)]
  | (k', v') :: rest =>
      if String.eqb k k' then (k, v) :: rest else (k', v') :: obj_set k v rest
  end.

Definition obj_keys (fs : list (string * value)) : list string := map fst fs.

(** What is thrown: an [Error] object (only its [message] is ever read) or,
    in [fetchWithBackoff] when the loop body never ran, [undefined]. *)
Inductive thrown : Type :=
| Thrown (message : string)
| ThrownUndefined.

(** ** backend/config.js *)

Record Config := {
  TTL_MIN : Z;
  TTL_MAX : Z;
  REFRESH_THRESHOLD : Z;
  SCHEDULER_INTERVAL : Z;
  SEED_ON_STARTUP : bool;
  POLYGON_RATE_LIMIT : Z;
  RATE_LIMIT_WINDOW : Z;
  MAX_RETRIES : nat;
  BASE_DELAY : Z;
  POLYGON_API_KEY : string
}.

Definition CONFIG : Config := {|
  TTL_MIN := 300;
  TTL_MAX := 600;
  REFRESH_THRESHOLD := 60;
  SCHEDULER_INTERVAL := 30;
  SEED_ON_STARTUP := true;
  POLYGON_RATE_LIMIT := 5;
  RATE_LIMIT_WINDOW := 60;
  MAX_RETRIES := 5;
  BASE_DELAY := 16000;
  POLYGON_API_KEY := EmptyString
|}.

(** ** The environment *)

Inductive JsonOutcome : Type :=
| BadJson (message : string)
| Json (v : value).

Record Response := {
  ok : bool;
  status : Z;
  statusText : string;
  body : JsonOutcome
}.

Inductive FetchOutcome : Type :=
| NetworkFailure (message : string)
| Reply (r : Response).

Record Env := {
  date_now : nat -> Z;
  math_random : nat -> Q;
  upstream : nat -> string -> FetchOutcome;
  render : value -> string
}.

(** ** The state of the process *)

Record Entry := {
  e_value : value;
  expiresAt : Z;
  createdAt : Z
}.

Record Stats := {
  hits : nat;
  misses : nat;
  sets : nat
}.

Inductive Event : Type :=
| EvFetch (url : string)
| EvSleep (ms : Z).

Record World := {
  store : gmap string Entry;
  stats : Stats;
  requests : gmap string (list Z);
  clockIdx : nat;
  randIdx : nat;
  callIdx : nat;
  slept : Z;
  trace : list Event
}.

Definition with_store (f : gmap string Entry -> gmap string Entry) (w : World) : World :=
  {| store := f (store w); stats := stats w; requests := requests w;
     clockIdx := clockIdx w; randIdx := randIdx w; callIdx := callIdx w;
     slept := slept w; trace := trace w |}.

Definition with_stats (f : Stats -> Stats) (w : World) : World :=
  {| store := store w; stats := f (stats w); requests := requests w;
     clockIdx := clockIdx w; randIdx := randIdx w; callIdx := callIdx w;
     slept := slept w; trace := trace w |}.

Definition with_requests (f : gmap string (list Z) -> gmap string (list Z)) (w : World) : World :=
  {| store := store w; stats := stats w; requests := f (requests w);
     clockIdx := clockIdx w; randIdx := randIdx w; callIdx := callIdx w;
     slept := slept w; trace := trace w |}.

Definition tick_clock (w : World) : World :=
  {| store := store w; stats := stats w; requests := requests w;
     clockIdx := S (clockIdx w); randIdx := randIdx w; callIdx := callIdx w;
     slept := slept w; trace := trace w |}.

Definition tick_rand (w : World) : World :=
  {| store := store w; stats := stats w; requests := requests w;
     clockIdx := clockIdx w; randIdx := S (randIdx w); callIdx := callIdx w;
     slept := slept w; trace := trace w |}.

(** One upstream request has been issued. *)
Definition record_fetch (url : string) (w : World) : World :=
  {| store := store w; stats := stats w; requests := requests w;
     clockIdx := clockIdx w; randIdx := randIdx w; callIdx := S (callIdx w);
     slept := slept w; trace := trace w ++ [EvFetch url] |}.

(** [ms] milliseconds have been slept: every later clock reading is that
    much later. *)
Definition record_sleep (ms : Z) (w : World) : World :=
  {| store := store w; stats := stats w; requests := requests w;
     clockIdx := clockIdx w; randIdx := randIdx w; callIdx := callIdx w;
     slept := slept w + ms; trace := trace w ++ [EvSleep ms] |}.

Definition empty_world : World :=
  {| store := ∅; stats := {| hits := 0; misses := 0; sets := 0 |};
     requests := ∅; clockIdx := 0; randIdx := 0; callIdx := 0; slept := 0;
     trace := [] |}.

(** ** State and exception monad *)

Inductive Outcome (A : Type) : Type :=
| Ok (a : A)
| Throw (t : thrown).
Arguments Ok {A} a.
Arguments Throw {A} t.

Definition M (A : Type) : Type := World -> Outcome A * World.

Definition ret {A} (a : A) : M A := fun w => (Ok a, w).

Definition bind {A B} (m : M A) (k : A -> M B) : M B :=
  fun w =>
    match m w with
    | (Ok a, w') => k a w'
    | (Throw t, w') => (Throw t, w')
    end.

Definition throw {A} (t : thrown) : M A := fun w => (Throw t, w).

(** [try { body } catch (error) { handler }]: the handler starts from the
    state the body had reached when it threw. *)
Definition try_catch {A} (body : M A) (handler : thrown -> M A) : M A :=
  fun w =>
    match body w with
    | (Ok a, w') => (Ok a, w')
    | (Throw t, w') => handler t w'
    end.

Definition gets {A} (f : World -> A) : M A := fun w => (Ok (f w), w).
Definition modify (f : World -> World) : M unit := fun w => (Ok tt, f w).

Notation "'let*' x ':=' c 'in' k" := (bind c (fun x => k))
  (at level 10, x name, c at level 100, k at level 200).
Notation "c ';;;' k" := (bind c (fun _ => k))
  (at level 100, k at level 200, right associativity).

(** [error.message]: reading a property of [undefined] is a [TypeError]. *)
Definition error_message (t : thrown) : M string :=
  match t with
  | Thrown m => ret m
  | ThrownUndefined =>
      throw (Thrown "Cannot read properties of undefined (reading 'message')")
  end.

(** ** JavaScript globals *)

(** The [i]-th next reading of the clock when no sleep intervenes: what the
    environment supplies for that reading, plus the time slept so far. *)
Definition reading (env : Env) (w : World) (i : nat) : Z :=
  date_now env (i + clockIdx w) + slept w.

Definition Date_now (env : Env) : M Z :=
  fun w => (Ok (reading env w 0), tick_clock w).

Definition Math_random (env : Env) : M Q :=
  fun w => (Ok (math_random env (randIdx w)), tick_rand w).

Definition bump_sets (s : Stats) : Stats :=
  {| hits := hits s; misses := misses s; sets := S (sets s) |}.
Definition bump_hits (s : Stats) : Stats :=
  {| hits := S (hits s); misses := misses s; sets := sets s |}.
Definition bump_misses (s : Stats) : Stats :=
  {| hits := hits s; misses := S (misses s); sets := sets s |}.

(** [Math.round(x / 1000)] and [Math.ceil(x / 1000)] on integers. *)
Definition round_div1000 (x : Z) : Z := (x + 500) / 1000.
Definition ceil_div1000 (x : Z) : Z := - ((- x) / 1000).

(** [Math.min(...xs)] for a list with a first element. *)
Definition min_of (x : Z) (xs : list Z) : Z := fold_left Z.min xs x.

(** ** backend/cache.js *)

Module Cache.
Section WithEnv.
Variable env : Env.

Definition _getRandomTTL : M Z :=
  let minMs := TTL_MIN CONFIG * 1000 in
  let maxMs := TTL_MAX CONFIG * 1000 in
  let* r := Math_random env in
  let randomMs := minMs + Qfloor (r * inject_Z (maxMs - minMs + 1)) in
  ret randomMs.

Definition set (key : string) (v : value) : M unit :=
  let* ttlMs := _getRandomTTL in
  let* t := Date_now env in
  let expires := t + ttlMs in
  let* created := Date_now env in
  modify (with_store (insert key
            {| e_value := v; expiresAt := expires; createdAt := created |})) ;;;
  modify (with_stats bump_sets).

(** Returns [VNull] for "not found" and for "expired". *)
Definition get (key : string) : M value :=
  let* entry := gets (fun w => store w !! key) in
  match entry with
  | None => modify (with_stats bump_misses) ;;; ret VNull
  | Some e =>
      let* now := Date_now env in
      if now >? expiresAt e
      then modify (with_stats bump_misses) ;;; ret VNull
      else modify (with_stats bump_hits) ;;; ret (e_value e)
  end.

(** [this.store.get(key) || null]: an entry object is always truthy. *)
Definition getRaw (key : string) : M (option Entry) :=
  gets (fun w => store w !! key).

Definition has (key : string) : M bool :=
  let* entry := gets (fun w => store w !! key) in
  match entry with
  | None => ret false
  | Some e => let* now := Date_now env in ret (now <=? expiresAt e)
  end.

Definition getRemainingTTL (key : string) : M Z :=
  let* entry := gets (fun w => store w !! key) in
  match entry with
  | None => ret 0
  | Some e =>
      let* now := Date_now env in
      let remaining := expiresAt e - now in
      ret (Z.max 0 remaining)
  end.

Definition delete (key : string) : M bool :=
  let* entry := gets (fun w => store w !! key) in
  modify (with_store (base.delete key)) ;;;
  ret (bool_decide (is_Some entry)).

Definition clear : M unit :=
  modify (with_store (fun _ => ∅)).

End WithEnv.
End Cache.

(** ** backend/rateLimiter.js *)

Record Usage := {
  used : Z;
  limit : Z;
  remaining : Z;
  resetIn : Z
}.

Module RateLimiter.
Section WithEnv.
Variable env : Env.

Definition _cleanup (apiName : string) : M unit :=
  let* now := Date_now env in
  let windowMs := RATE_LIMIT_WINDOW CONFIG * 1000 in
  let* known := gets (fun w => requests w !! apiName) in
  match known with
  | None => modify (with_requests (insert apiName []))
  | Some timestamps =>
      let validTimestamps := List.filter (fun ts => now - ts <? windowMs) timestamps in
      modify (with_requests (insert apiName validTimestamps))
  end.

Definition timestamps_of (apiName : string) : M (list Z) :=
  gets (fun w => default [] (requests w !! apiName)).

Definition canMakeRequest (apiName : string) (limit : Z) : M bool :=
  _cleanup apiName ;;;
  let* timestamps := timestamps_of apiName in
  ret (Z.of_nat (List.length timestamps) <? limit).

Definition recordRequest (apiName : string) : M unit :=
  _cleanup apiName ;;;
  let* timestamps := timestamps_of apiName in
  let* now := Date_now env in
  modify (with_requests (insert apiName (timestamps ++ [now])%list)).

Definition getUsage (apiName : string) (limit : Z) : M Usage :=
  _cleanup apiName ;;;
  let* timestamps := timestamps_of apiName in
  let* now := Date_now env in
  let windowMs := RATE_LIMIT_WINDOW CONFIG * 1000 in
  let oldestTimestamp :=
    match timestamps with
    | [] => now
    | t :: rest => min_of t rest
    end in
  let resetIn := Z.max 0 (ceil_div1000 (windowMs - (now - oldestTimestamp))) in
  ret {| used := Z.of_nat (List.length timestamps);
         limit := limit;
         remaining := Z.max 0 (limit - Z.of_nat (List.length timestamps));
         resetIn := resetIn |}.

Definition reset : M unit :=
  modify (with_requests (fun _ => ∅)).

End WithEnv.
End RateLimiter.

(** ** backend/priceService.js *)

(** What [fetchAndCachePrice] resolves to.  A property the source leaves
    out of the object literal is [None] ([value], [error]) or [false]
    ([stale], which is only ever tested for truthiness). *)
Record FetchResult := {
  success : bool;
  key : string;
  fr_value : option value;
  fr_stale : bool;
  error : option string
}.

Record Results := {
  data : list (string * value);
  errors : list string;
  successes : list string;
  cached : bool;
  partial : bool;
  stale : bool
}.

(** Reading an absent property yields [undefined]. *)
Definition or_undefined (o : option value) : value := default VUndefined o.
Definition or_undefined_string (o : option string) : string := default "undefined" o.

Module PriceService.
Section WithEnv.
Variable env : Env.

Definition sleep (ms : Z) : M unit :=
  modify (record_sleep ms).

(** [await fetch(url)]: the promise rejects on a transport failure. *)
Definition fetch (url : string) : M Response :=
  fun w =>
    let w' := record_fetch url w in
    match upstream env (callIdx w) url with
    | NetworkFailure m => (Throw (Thrown m), w')
    | Reply r => (Ok r, w')
    end.

(** [await response.json()]. *)
Definition json (r : Response) : M value :=
  match body r with
  | BadJson m => throw (Thrown m)
  | Json v => ret v
  end.

(** [v.p] for the property names this file reads from parsed JSON
    ([status], [results], [c], [v], [h], [l]): only objects can own them. *)
Definition member (v : value) (p : string) : M value :=
  match v with
  | VUndefined | VNull =>
      throw (Thrown ("Cannot read properties of " +:+ render env v))
  | VObj fs => ret (or_undefined (obj_get p fs))
  | _ => ret VUndefined
  end.

(** [v?.p] for [bitcoin], [usd], [rates], [USD]. *)
Definition opt_member (v : value) (p : string) : value :=
  match v with
  | VObj fs => or_undefined (obj_get p fs)
  | _ => VUndefined
  end.

(** [v.length] of a truthy value. *)
Definition member_length (v : value) : value :=
  match v with
  | VArr l => VNum (inject_Z (Z.of_nat (List.length l)))
  | VStr s => VNum (inject_Z (Z.of_nat (String.length s)))
  | VObj fs => or_undefined (obj_get "length" fs)
  | _ => VUndefined
  end.

(** [v[0]] of a truthy value. *)
Definition member_index0 (v : value) : value :=
  match v with
  | VArr l => hd VUndefined l
  | VStr (String c _) => VStr (String c EmptyString)
  | VObj fs => or_undefined (obj_get "0" fs)
  | _ => VUndefined
  end.

Definition is_string (v : value) (s : string) : bool :=
  match v with
  | VStr s' => String.eqb s' s
  | _ => false
  end.

Definition is_zero (v : value) : bool :=
  match v with
  | VNum q => Qeq_bool q 0
  | _ => false
  end.

Fixpoint backoff_loop (fetchFn : M value) (maxRetries remaining attempt : nat)
    (lastError : thrown) : M value :=
  match remaining with
  | O => throw lastError
  | S remaining' =>
      try_catch fetchFn (fun error =>
        (if Z.of_nat attempt <? Z.of_nat maxRetries - 1
         then
           let delayMs := BASE_DELAY CONFIG * 2 ^ Z.of_nat attempt in
           sleep delayMs
         else ret tt) ;;;
        backoff_loop fetchFn maxRetries remaining' (S attempt) error)
  end.

(** [for (let attempt = 0; attempt < maxRetries; attempt++)]: [remaining]
    counts [maxRetries - attempt] down. *)
Definition fetchWithBackoff (fetchFn : M value) (maxRetries : nat) : M value :=
  backoff_loop fetchFn maxRetries maxRetries 0 ThrownUndefined.

Definition coingecko_url : string :=
  "https://api.coingecko.com/api/v3/simple/price?ids=bitcoin&vs_currencies=usd".

Definition exchangerate_url : string :=
  "https://api.exchangerate-api.com/v4/latest/EUR".

Definition polygon_url (ticker : string) : string :=
  "https://api.polygon.io/v2/aggs/ticker/" +:+ ticker +:+ "/prev?apiKey="
    +:+ POLYGON_API_KEY CONFIG.

Definition http_error (who : string) (response : Response) : thrown :=
  Thrown (who +:+ " HTTP " +:+ render env (VNum (inject_Z (status response)))
              +:+ ": " +:+ statusText response).

Definition fetchBtcPrice : M value :=
  let* response := fetch coingecko_url in
  if negb (ok response) then throw (http_error "CoinGecko" response) else
  let* data := json response in
  let price := opt_member (opt_member data "bitcoin") "usd" in
  if negb (truthy price)
  then throw (Thrown "CoinGecko: No BTC price in response")
  else ret price.

Definition fetchEurUsdRate : M value :=
  let* response := fetch exchangerate_url in
  if negb (ok response) then throw (http_error "ExchangeRate" response) else
  let* data := json response in
  let rate := opt_member (opt_member data "rates") "USD" in
  if negb (truthy rate)
  then throw (Thrown "ExchangeRate: No USD rate in response")
  else ret rate.

Definition fetchPolygonPrice (ticker : string) : M value :=
  let* response := fetch (polygon_url ticker) in
  if negb (ok response) then throw (http_error "Polygon" response) else
  let* data := json response in
  let* data_status := member data "status" in
  let* results := member data "results" in
  if negb (is_string data_status "OK") || negb (truthy results)
     || is_zero (member_length results)
  then
    throw (Thrown ("Polygon " +:+ ticker +:+ ": " +:+
             render env (if truthy data_status then data_status
                         else VStr "No results")))
  else
    let first := member_index0 results in
    let* c := member first "c" in
    let* v := member first "v" in
    let* h := member first "h" in
    let* l := member first "l" in
    ret (VObj [("price", c); ("volume", v); ("high", h); ("low", l)]).

Definition fetchAndCachePrice (key : string) : M FetchResult :=
  try_catch
    (let* value :=
       (if String.eqb key "btc" then
          fetchWithBackoff fetchBtcPrice (MAX_RETRIES CONFIG)
        else if String.eqb key "eurUsd" then
          fetchWithBackoff fetchEurUsdRate (MAX_RETRIES CONFIG)
        else
          let* allowed :=
            RateLimiter.canMakeRequest env "polygon" (POLYGON_RATE_LIMIT CONFIG) in
          if negb allowed then throw (Thrown "Polygon rate limit exceeded") else
          RateLimiter.recordRequest env "polygon" ;;;
          fetchWithBackoff (fetchPolygonPrice key) (MAX_RETRIES CONFIG)) in
     Cache.set env key value ;;;
     ret {| success := true; key := key; fr_value := Some value;
            fr_stale := false; error := None |})
    (fun error =>
       let* message := error_message error in
       let* staleEntry := Cache.getRaw key in
       match staleEntry with
       | Some entry =>
           ret {| success := false; key := key; fr_value := Some (e_value entry);
                  fr_stale := true; error := Some message |}
       | None =>
           ret {| success := false; key := key; fr_value := None;
                  fr_stale := false; error := Some message |}
       end).

Definition stocks : list string := ["MSTR"; "STRF"; "STRC"; "STRK"; "STRD"].

Definition set_data (k : string) (v : value) (r : Results) : Results :=
  {| data := obj_set k v (data r); errors := errors r; successes := successes r;
     cached := cached r; partial := partial r; stale := stale r |}.
Definition push_error (e : string) (r : Results) : Results :=
  {| data := data r; errors := (errors r ++ [e])%list; successes := successes r;
     cached := cached r; partial := partial r; stale := stale r |}.
Definition push_success (s : string) (r : Results) : Results :=
  {| data := data r; errors := errors r; successes := (successes r ++ [s])%list;
     cached := cached r; partial := partial r; stale := stale r |}.
Definition set_stale (r : Results) : Results :=
  {| data := data r; errors := errors r; successes := successes r;
     cached := cached r; partial := partial r; stale := true |}.
Definition set_partial (r : Results) : Results :=
  {| data := data r; errors := errors r; successes := successes r;
     cached := cached r; partial := true; stale := stale r |}.

Definition processBtc (btcResult : FetchResult) (results : Results) : Results :=
  if success btcResult then
    push_success "BTC" (set_data "btc" (or_undefined (fr_value btcResult)) results)
  else
    let results := push_error ("BTC: " +:+ or_undefined_string (error btcResult)) results in
    if fr_stale btcResult
    then set_stale (set_data "btc" (or_undefined (fr_value btcResult)) results)
    else set_data "btc" (VNum 100000) results.

Definition processEur (eurResult : FetchResult) (results : Results) : Results :=
  if success eurResult then
    push_success "EUR/USD" (set_data "eurUsd" (or_undefined (fr_value eurResult)) results)
  else
    let results := push_error ("EUR/USD: " +:+ or_undefined_string (error eurResult)) results in
    set_data "eurUsd"
      (if fr_stale eurResult then or_undefined (fr_value eurResult) else VNum 1.05)
      results.

Definition stock_fallback (ticker : string) : value :=
  if String.eqb ticker "MSTR" then VNull
  else VObj [("price", VNum 100); ("avg10d", VNum 100)].

(** One iteration of [for (const ticker of stocks)]. *)
Definition processTicker (ticker : string) (results : Results) : M Results :=
  let* cached := Cache.get env ticker in
  if truthy cached then
    ret (push_success ticker (set_data ticker cached results))
  else
    let* result := fetchAndCachePrice ticker in
    let results :=
      if success result then
        push_success ticker (set_data ticker (or_undefined (fr_value result)) results)
      else
        let results :=
          push_error (ticker +:+ ": " +:+ or_undefined_string (error result)) results in
        let results :=
          if fr_stale result
          then set_stale (set_data ticker (or_undefined (fr_value result)) results)
          else set_data ticker (stock_fallback ticker) results in
        set_partial results in
    let* usage := RateLimiter.getUsage env "polygon" (POLYGON_RATE_LIMIT CONFIG) in
    (if (used usage >=? POLYGON_RATE_LIMIT CONFIG - 1)
        && negb (String.eqb ticker (List.last stocks EmptyString))
     then sleep 12000
     else ret tt) ;;;
    ret results.

Fixpoint tickerLoop (tickers : list string) (results : Results) : M Results :=
  match tickers with
  | [] => ret results
  | ticker :: rest =>
      let* results := processTicker ticker results in
      tickerLoop rest results
  end.

(** [Promise.all] starts both head fetches before either finishes.  The two
    write different cache keys, neither touches the rate limiter and
    neither rejects, so what they leave in the cache and what they return
    does not depend on how they interleave: they are run one after the
    other.  (The time their backoff sleeps take then adds up instead of
    overlapping; the clock oracle is arbitrary, so no reading is excluded.) *)
Definition fetchAllPrices : M Results :=
  let results :=
    {| data := [("btc", VNull); ("eurUsd", VNum 1.05)];
       errors := []; successes := [];
       cached := false; partial := false; stale := false |} in
  let* cachedBtc := Cache.get env "btc" in
  let* cachedMSTR := Cache.get env "MSTR" in
  let* cachedEur := Cache.get env "eurUsd" in
  let* cachedSTRF := Cache.get env "STRF" in
  let* cachedSTRC := Cache.get env "STRC" in
  let* cachedSTRK := Cache.get env "STRK" in
  let* cachedSTRD := Cache.get env "STRD" in
  if truthy cachedBtc && truthy cachedMSTR && truthy cachedEur && truthy cachedSTRF
     && truthy cachedSTRC && truthy cachedSTRK && truthy cachedSTRD
  then
    ret {| data := [("btc", cachedBtc); ("MSTR", cachedMSTR); ("eurUsd", cachedEur);
                    ("STRF", cachedSTRF); ("STRC", cachedSTRC); ("STRK", cachedSTRK);
                    ("STRD", cachedSTRD)];
           errors := [];
           successes := ["BTC"; "MSTR"; "EUR/USD"; "STRF"; "STRC"; "STRK"; "STRD"];
           cached := true; partial := false; stale := false |}
  else
    let* btcResult := fetchAndCachePrice "btc" in
    let* eurResult := fetchAndCachePrice "eurUsd" in
    let results := processBtc btcResult results in
    let results := processEur eurResult results in
    tickerLoop stocks results.

End WithEnv.
End PriceService.

(** ** backend/server.js: [GET /api/prices/all] *)

Record Metadata := {
  m_cached : bool;
  m_partial : bool;
  m_stale : bool;
  degraded : bool;
  timestamp : Z;
  ttls : list (string * Z)
}.

Inductive Body : Type :=
| PricesBody (data : list (string * value)) (metadata : Metadata)
    (errors successes : list string)
| ErrorBody (error message : string) (retryAfter : Z).

Record HttpResponse := {
  statusCode : Z;
  responseBody : Body
}.

Module Server.
Section WithEnv.
Variable env : Env.

Fixpoint ttls_of (keys : list string) : M (list (string * Z)) :=
  match keys with
  | [] => ret []
  | key :: rest =>
      let* remainingMs := Cache.getRemainingTTL env key in
      let ttl := round_div1000 remainingMs in
      let* others := ttls_of rest in
      ret ((key, ttl) :: others)
  end.

(** The handler, with the price service it awaits as a parameter (the
    repository's endpoint tests replace it by canned results). *)
Definition pricesAllHandlerWith (fetchAll : M Results) (force : bool) : M HttpResponse :=
  try_catch
    ((if force then Cache.clear else ret tt) ;;;
     let* results := fetchAll in
     let* now := Date_now env in
     let* ttls := ttls_of (obj_keys (data results)) in
     let metadata :=
       {| m_cached := cached results;
          m_partial := partial results;
          m_stale := stale results;
          degraded := (3 <? List.length (errors results))%nat;
          timestamp := now;
          ttls := ttls |} in
     let statusCode :=
       if partial results && (0 <? List.length (errors results))%nat
       then 207 else 200 in
     ret {| statusCode := statusCode;
            responseBody := PricesBody (data results) metadata
                              (errors results) (successes results) |})
    (fun error =>
       let* message := error_message error in
       ret {| statusCode := 503;
              responseBody := ErrorBody "Service unavailable" message 60 |}).

Definition pricesAllHandler (force : bool) : M HttpResponse :=
  pricesAllHandlerWith (PriceService.fetchAllPrices env) force.

End WithEnv.
End Server.

(** ** backend/scheduler.js *)

(** [cache.entries()] lists the bindings of the Map in insertion order.  The
    store model does not keep that order, so the listing is an interface:
    any duplicate-free enumeration of the bindings of the store. *)
Record Enumeration := {
  enum :> gmap string Entry -> list (string * Entry);
  enum_spec : forall m k e, (k, e) ∈ enum m <-> m !! k = Some e;
  enum_nodup : forall m, base.NoDup (fst <$> enum m)
}.

Definition bindings_listing : Enumeration :=
  {| enum := map_to_list;
     enum_spec := elem_of_map_to_list;
     enum_nodup := NoDup_fst_map_to_list |}.

Module Scheduler.
Section WithEnv.
Variable env : Env.
Variable entries : Enumeration.

Definition seedCache : M unit :=
  try_catch
    (let* results := PriceService.fetchAllPrices env in
     ret tt)
    (fun error =>
       let* message := error_message error in
       ret tt).

(** The keys the loop over [entries] pushes to [toRefresh]. *)
Definition toRefresh (now thresholdMs : Z) (es : list (string * Entry)) : list string :=
  map fst
    (List.filter (fun ke => expiresAt (snd ke) - now <? thresholdMs) es).

(** [fetchAndCachePrice(key).catch(err => console.error(..., err.message))]. *)
Definition refreshOne (key : string) : M unit :=
  try_catch
    (PriceService.fetchAndCachePrice env key ;;; ret tt)
    (fun err =>
       let* message := error_message err in
       ret tt).

(** [await Promise.all(refreshPromises)].  The refreshes are started together
    and interleave at their awaits; each writes only the cache entry of its
    own key and they reach the rate limiter in the order of the list, so
    they are run one after the other in that order. *)
Fixpoint refreshAll (keys : list string) : M unit :=
  match keys with
  | [] => ret tt
  | key :: rest => refreshOne key ;;; refreshAll rest
  end.

Definition checkAndRefresh : M unit :=
  let* now := Date_now env in
  let thresholdMs := REFRESH_THRESHOLD CONFIG * 1000 in
  let* es := gets (fun w => entries (store w)) in
  if (List.length es =? 0)%nat then seedCache
  else
    let keys := toRefresh now thresholdMs es in
    if (0 <? List.length keys)%nat then refreshAll keys else ret tt.

(** The body of the [setInterval] callback of [startScheduler]. *)
Definition tick : M unit :=
  try_catch checkAndRefresh
    (fun error =>
       let* message := error_message error in
       ret tt).

End WithEnv.
End Scheduler.

(** ** Specification-side vocabulary *)

(** The ledger of an upstream, and the part of it that a cleanup at
    reading [now] keeps. *)
Definition ledger (w : World) (apiName : string) : list Z :=
  default [] (requests w !! apiName).

Definition retained (now : Z) (timestamps : list Z) : list Z :=
  List.filter (fun ts => now - ts <? RATE_LIMIT_WINDOW CONFIG * 1000) timestamps.

Definition failed {A} (o : Outcome A) : bool :=
  match o with
  | Ok _ => false
  | Throw _ => true
  end.

(** The retry schedule in the specification's words: attempt 0 starts in
    the initial state; when attempt [i] has failed and [i + 1 < n], the
    next attempt starts after one sleep of [BASE_DELAY * 2^i]; nothing else
    happens between two attempts.  [before_attempt fetchFn n j w] is the
    state in which attempt [j] starts when attempts [0 .. j-1] have failed
    (for [j = n]: the state in which the loop is left). *)
Fixpoint before_attempt (fetchFn : M value) (n j : nat) (w : World) : World :=
  match j with
  | O => w
  | S i =>
      let w1 := snd (fetchFn (before_attempt fetchFn n i w)) in
      if (S i <? n)%nat
      then record_sleep (BASE_DELAY CONFIG * 2 ^ Z.of_nat i) w1
      else w1
  end.

(** The error attempt [j - 1] raised. *)
Definition last_error (fetchFn : M value) (n j : nat) (w : World) : thrown :=
  match j with
  | O => ThrownUndefined
  | S i =>
      match fst (fetchFn (before_attempt fetchFn n i w)) with
      | Throw t => t
      | Ok _ => ThrownUndefined
      end
  end.

(** A fetch function that issues exactly one upstream request to [url] and
    touches nothing else. *)
Definition one_request (url : string) (fetchFn : M value) : Prop :=
  forall w, snd (fetchFn w) = record_fetch url w.

(** The events of [j] failed attempts under a limit of [n] attempts. *)
Definition failed_attempts_events (url : string) (n j : nat) : list Event :=
  flat_map
    (fun i => EvFetch url ::
              if (S i <? n)%nat
              then [EvSleep (BASE_DELAY CONFIG * 2 ^ Z.of_nat i)] else [])
    (seq 0 j).

Definition sleeps_of (tr : list Event) : list Z :=
  flat_map (fun ev => match ev with EvSleep ms => [ms] | EvFetch _ => [] end) tr.

Definition fetches_of (tr : list Event) : list string :=
  flat_map (fun ev => match ev with EvFetch url => [url] | EvSleep _ => [] end) tr.

(** The state changed in nothing but the event log, the call counter and
    the time slept. *)
Definition quiet (w w' : World) : Prop :=
  store w' = store w /\ stats w' = stats w /\ requests w' = requests w
  /\ clockIdx w' = clockIdx w /\ randIdx w' = randIdx w.

(** What the service relies on from an upstream adapter: one request per
    call, a truthy value on success, an [Error] object on failure. *)
Definition adapter (url : string) (fetchFn : M value) : Prop :=
  one_request url fetchFn
  /\ forall w, match fst (fetchFn w) with
               | Ok v => truthy v = true
               | Throw t => t <> ThrownUndefined
               end.

(** The upstream endpoint that serves a key. *)
Definition url_of (key : string) : string :=
  if String.eqb key "btc" then PriceService.coingecko_url
  else if String.eqb key "eurUsd" then PriceService.exchangerate_url
  else PriceService.polygon_url key.

Definition is_ticker (key : string) : bool :=
  negb (String.eqb key "btc") && negb (String.eqb key "eurUsd").

(** The two ways [fetchAndCachePrice key] can end, from state [w] to state
    [w'] with new events [l]: a fresh value written through to the cache, or
    a failure that leaves the cache as it was and reports what the cache
    holds for the key. *)
Definition fetched (key : string) (w w' : World) (r : FetchResult) (l : list Event) : Prop :=
  success r = true
  /\ exists e, fr_value r = Some (e_value e) /\ truthy (e_value e) = true
       /\ store w' = <[key := e]> (store w)
       /\ In (EvFetch (url_of key)) l.

Definition not_fetched (key : string) (w w' : World) (r : FetchResult) (l : list Event) : Prop :=
  success r = false
  /\ store w' = store w
  /\ (exists msg, error r = Some msg
        /\ (In (EvFetch (url_of key)) l
            \/ (l = [] /\ is_ticker key = true /\ msg = "Polygon rate limit exceeded")))
  /\ (fr_value r, fr_stale r)
     = match store w !! key with
       | Some e => (Some (e_value e), true)
       | None => (None, false)
       end.

(** The seven configured keys, in the order the fast path reads them. *)
Definition known_keys : list string :=
  ["btc"; "MSTR"; "eurUsd"; "STRF"; "STRC"; "STRK"; "STRD"].

(** The name under which a key appears in [errors] and [successes]. *)
Definition label_of (k : string) : string :=
  if String.eqb k "btc" then "BTC"
  else if String.eqb k "eurUsd" then "EUR/USD"
  else k.

(** The value [fetchAllPrices] substitutes for a key that has neither a
    fresh value nor a cache entry. *)
Definition fallback_of (k : string) : value :=
  if String.eqb k "btc" then VNum 100000
  else if String.eqb k "eurUsd" then VNum 1.05
  else PriceService.stock_fallback k.

(** How one key of a [fetchAllPrices] call that went from [w] to [w'] with
    new events [l] ended up in [data] and [errors]: either the cache holds
    a truthy value for it (already before the call, or fetched during it)
    and [data] carries that value; or its cache entry is what it was, the
    key is listed in [errors], and [data] carries the old entry's value or,
    without an entry, the fallback. *)
Definition key_settled (k : string) (w w' : World)
    (d : list (string * value)) (errs : list string) (l : list Event) : Prop :=
  (exists e, store w' !! k = Some e /\ truthy (e_value e) = true
     /\ obj_get k d = Some (e_value e)
     /\ (store w !! k = Some e \/ In (EvFetch (url_of k)) l))
  \/ (store w' !! k = store w !! k
      /\ (exists msg, In (label_of k +:+ ": " +:+ msg) errs
            /\ (In (EvFetch (url_of k)) l
                \/ (is_ticker k = true /\ msg = "Polygon rate limit exceeded")))
      /\ obj_get k d = Some (match store w !! k with
                             | Some e => e_value e
                             | None => fallback_of k
                             end)).

(** The value the cache holds for a key ([null] without an entry). *)
Definition cached_value (w : World) (k : string) : value :=
  match store w !! k with
  | Some e => e_value e
  | None => VNull
  end.

(** Pairs of a key and the position of its [get] in the fast path. *)
Definition indexed_keys : list (nat * string) :=
  combine (seq 0 (List.length known_keys)) known_keys.

(** Every configured key has an entry that is unexpired at the clock reading
    its [get] takes in the fast path (the i-th [get] takes the i-th reading
    from now, each key having an entry). *)
Definition unexpired (env : Env) (w : World) : bool :=
  forallb
    (fun ik : nat * string =>
       match store w !! snd ik with
       | Some e => reading env w (fst ik) <=? expiresAt e
       | None => false
       end)
    indexed_keys.

Definition all_truthy (w : World) : bool :=
  forallb (fun k => truthy (cached_value w k)) known_keys.

(** A warm cache: all seven entries present, unexpired, with truthy values. *)
Definition warm (env : Env) (w : World) : bool :=
  unexpired env w && all_truthy w.

(** The tickers the sequential tail handles before it comes to [k]. *)
Fixpoint tickers_before (k : string) (ts : list string) : list string :=
  match ts with
  | [] => []
  | t :: rest => if String.eqb t k then [] else t :: tickers_before k rest
  end.

(** The state in which a [fetchAllPrices] call that misses the fast path
    enters [fetchAndCachePrice] for key [k]: after the seven reads of the
    fast-path test; for [eurUsd] after the fetch of [btc] as well; for a
    ticker after both head fetches, the iterations of the tickers before it
    and its own read of the cache. *)
Definition entering (env : Env) (k : string) : M unit :=
  Cache.get env "btc" ;;; Cache.get env "MSTR" ;;; Cache.get env "eurUsd" ;;;
  Cache.get env "STRF" ;;; Cache.get env "STRC" ;;; Cache.get env "STRK" ;;;
  Cache.get env "STRD" ;;;
  if String.eqb k "btc" then ret tt else
  let* btcResult := PriceService.fetchAndCachePrice env "btc" in
  if String.eqb k "eurUsd" then ret tt else
  let* eurResult := PriceService.fetchAndCachePrice env "eurUsd" in
  let results :=
    PriceService.processEur eurResult
      (PriceService.processBtc btcResult
         {| data := [("btc", VNull); ("eurUsd", VNum 1.05)];
            errors := []; successes := [];
            cached := false; partial := false; stale := false |}) in
  let* results :=
    PriceService.tickerLoop env (tickers_before k PriceService.stocks) results in
  Cache.get env k ;;; ret tt.

(** The rate limiter refuses key [k] in state [w]: [k] is a market-data
    ticker and the cleanup at the next clock reading leaves
    [POLYGON_RATE_LIMIT] timestamps or more. *)
Definition refuses (env : Env) (k : string) (w : World) : bool :=
  is_ticker k
  && (POLYGON_RATE_LIMIT CONFIG
      <=? Z.of_nat (List.length (retained (reading env w 0) (ledger w "polygon")))).

(** Events that are a request for key [k], or a sleep. *)
Definition only_for (ks : list string) (ev : Event) : Prop :=
  match ev with
  | EvFetch url => exists k, In k ks /\ url = url_of k
  | EvSleep _ => True
  end.

(** A call of one of the cache's methods, and a sequence of such calls made
    one after the other. *)
Inductive CacheOp : Type :=
| OpSet (key : string) (v : value)
| OpGet (key : string)
| OpGetRaw (key : string)
| OpHas (key : string)
| OpGetRemainingTTL (key : string)
| OpDelete (key : string)
| OpClear.

Definition run_op (env : Env) (op : CacheOp) : M unit :=
  match op with
  | OpSet key v => Cache.set env key v
  | OpGet key => Cache.get env key ;;; ret tt
  | OpGetRaw key => Cache.getRaw key ;;; ret tt
  | OpHas key => Cache.has env key ;;; ret tt
  | OpGetRemainingTTL key => Cache.getRemainingTTL env key ;;; ret tt
  | OpDelete key => Cache.delete key ;;; ret tt
  | OpClear => Cache.clear
  end.

Fixpoint run_ops (env : Env) (ops : list CacheOp) : M unit :=
  match ops with
  | [] => ret tt
  | op :: rest => run_op env op ;;; run_ops env rest
  end.

Definition is_get (op : CacheOp) : bool :=
  match op with OpGet _ => true | _ => false end.

Definition is_set (op : CacheOp) : bool :=
  match op with OpSet _ _ => true | _ => false end.

(** The pairs of clock readings the [set] calls of a sequence take, in
    order: the reading for [expiresAt] and the reading for [createdAt]. *)
Fixpoint set_readings (env : Env) (ops : list CacheOp) (w : World) : list (Z * Z) :=
  match ops with
  | [] => []
  | op :: rest =>
      (match op with
       | OpSet _ _ => [(reading env w 0, reading env w 1)]
       | _ => []
       end ++ set_readings env rest (snd (run_op env op w)))%list
  end.

(** Every entry of the store lives between [TTL_MIN] less [slack] and
    [TTL_MAX], in milliseconds. *)
Definition lifetimes_within (slack : Z) (w : World) : Prop :=
  forall k e, store w !! k = Some e ->
    TTL_MIN CONFIG * 1000 - slack <= expiresAt e - createdAt e <= TTL_MAX CONFIG * 1000.

(** ** Concrete scenarios *)

(** A clock that advances one millisecond per reading, a random source that
    always draws 0, and upstreams that are unreachable. *)
Definition env_down : Env :=
  {| date_now := fun n => 1000 + Z.of_nat n;
     math_random := fun _ => 0%Q;
     upstream := fun _ _ => NetworkFailure "unreachable";
     render := fun _ => "?" |}.

(** A clock frozen at 1000 ms, as the repository's tests mock it. *)
Definition env_frozen : Env :=
  {| date_now := fun _ => 1000;
     math_random := fun _ => 0%Q;
     upstream := fun _ _ => NetworkFailure "unreachable";
     render := fun _ => "?" |}.

Definition entry_expiring_at (t : Z) (v : value) : Entry :=
  {| e_value := v; expiresAt := t; createdAt := t - 300000 |}.

(** One entry for [btc] that expires exactly at the frozen reading. *)
Definition world_boundary : World :=
  with_store (insert "btc" (entry_expiring_at 1000 (VNum 95000))) empty_world.



Definition reply_ok (v : value) : FetchOutcome :=
  Reply {| ok := true; status := 200; statusText := "OK"; body := Json v |}.

Definition quote_payload : value :=
  VObj [("status", VStr "OK");
        ("results", VArr [VObj [("c", VNum 420); ("h", VNum 425);
                                ("l", VNum 415); ("v", VNum 1000000)]])].

Definition healthy_upstream (url : string) : FetchOutcome :=
  if String.eqb url PriceService.coingecko_url
  then reply_ok (VObj [("bitcoin", VObj [("usd", VNum 100000)])])
  else if String.eqb url PriceService.exchangerate_url
  then reply_ok (VObj [("rates", VObj [("USD", VNum 1.08)])])
  else reply_ok quote_payload.

(** All upstreams healthy; the clock advances one millisecond per reading. *)
Definition env_up : Env :=
  {| date_now := fun n => 1000 + Z.of_nat n;
     math_random := fun _ => 0%Q;
     upstream := fun _ url => healthy_upstream url;
     render := fun _ => "?" |}.

(** The crypto upstream unreachable, the others healthy. *)
Definition env_btc_down : Env :=
  {| date_now := fun n => 1000 + Z.of_nat n;
     math_random := fun _ => 0%Q;
     upstream := fun _ url =>
       if String.eqb url PriceService.coingecko_url
       then NetworkFailure "unreachable" else healthy_upstream url;
     render := fun _ => "?" |}.

Definition quote (price : Q) : value :=
  VObj [("price", VNum price); ("volume", VNum 1000000);
        ("high", VNum price); ("low", VNum price)].

(** All seven keys cached until 1,000,000 ms, with the given values for
    [btc] and [STRD]. *)
Definition world_all_cached (btc strd : value) : World :=
  with_store
    (fun _ =>
       <["btc" := entry_expiring_at 1000000 btc]>
       (<["eurUsd" := entry_expiring_at 1000000 (VNum 1.05)]>
       (<["MSTR" := entry_expiring_at 1000000 (quote 420)]>
       (<["STRF" := entry_expiring_at 1000000 (quote 100)]>
       (<["STRC" := entry_expiring_at 1000000 (quote 100)]>
       (<["STRK" := entry_expiring_at 1000000 (quote 100)]>
       (<["STRD" := entry_expiring_at 1000000 strd]> ∅)))))))
    empty_world.

(** The same cache with the polygon quota used up by five requests at
    1000 ms. *)
Definition world_quota_used (btc strd : value) : World :=
  with_requests (insert "polygon" (repeat 1000 5)) (world_all_cached btc strd).

(** The market-data upstream answers only every fifth request (the last
    attempt of each key's retry loop, when the batch starts at call 0); the
    other two upstreams are healthy. *)
Definition env_flaky : Env :=
  {| date_now := fun n => 1000 + Z.of_nat n;
     math_random := fun _ => 0%Q;
     upstream := fun idx url =>
       if String.eqb url PriceService.coingecko_url
          || String.eqb url PriceService.exchangerate_url
       then healthy_upstream url
       else if (idx mod 5 =? 1)%nat then reply_ok quote_payload
       else NetworkFailure "timeout";
     render := fun _ => "?" |}.

(** A clock that stands still during each pair of readings and advances
    ten seconds from one pair to the next. *)
Definition env_between_calls : Env :=
  {| date_now := fun n => 1000 + 10000 * Z.of_nat (n / 2);
     math_random := fun _ => 0%Q;
     upstream := fun _ _ => NetworkFailure "unreachable";
     render := fun _ => "?" |}.

(** * Properties *)

(** ** Cache *)

Lemma getRandomTTL_run env w :
  Cache._getRandomTTL env w =
    (Ok (TTL_MIN CONFIG * 1000
         + Qfloor (math_random env (randIdx w)
                   * inject_Z (TTL_MAX CONFIG * 1000 - TTL_MIN CONFIG * 1000 + 1))),
     tick_rand w).
Proof. reflexivity. Qed.

(** A draw in [0, 1) gives a TTL between the two bounds, both included. *)
Lemma drawn_ttl_in_range (r : Q) :
  (0 <= r)%Q -> (r < 1)%Q ->
  let ttl := TTL_MIN CONFIG * 1000
             + Qfloor (r * inject_Z (TTL_MAX CONFIG * 1000 - TTL_MIN CONFIG * 1000 + 1)) in
  TTL_MIN CONFIG * 1000 <= ttl <= TTL_MAX CONFIG * 1000.
Proof.
  intros H0 H1. cbv zeta.
  change (TTL_MAX CONFIG * 1000 - TTL_MIN CONFIG * 1000 + 1) with 300001.
  change (TTL_MIN CONFIG * 1000) with 300000.
  change (TTL_MAX CONFIG * 1000) with 600000.
  set (c := 300001).
  assert (Hc : (0 < inject_Z c)%Q) by (unfold c; reflexivity).
  assert (Hlo : 0 <= Qfloor (r * inject_Z c)).
  { change 0 with (Qfloor 0). apply Qfloor_resp_le.
    apply Qmult_le_0_compat; [exact H0 | apply Qlt_le_weak, Hc]. }
  assert (Hhi : Qfloor (r * inject_Z c) < c).
  { rewrite Zlt_Qlt. eapply Qle_lt_trans; [apply Qfloor_le |].
    rewrite <- (Qmult_1_l (inject_Z c)) at 2.
    apply Qmult_lt_compat_r; assumption. }
  unfold c in *. lia.
Qed.

(** What [set] writes: the expiry is the first reading plus the drawn TTL,
    the creation time is the second reading. *)
Lemma set_run env key v w :
  Cache.set env key v w =
    (Ok tt,
     with_stats bump_sets
       (with_store
          (insert key
             {| e_value := v;
                expiresAt := reading env w 0
                  + (TTL_MIN CONFIG * 1000
                     + Qfloor (math_random env (randIdx w)
                               * inject_Z (TTL_MAX CONFIG * 1000 - TTL_MIN CONFIG * 1000 + 1)));
                createdAt := reading env w 1 |})
          (tick_clock (tick_clock (tick_rand w))))).
Proof. reflexivity. Qed.

(** When the two clock readings inside [set] agree, the entry's lifetime is
    the drawn TTL, hence within the bounds. *)
Lemma set_lifetime_when_clock_stands env key v w :
  (0 <= math_random env (randIdx w))%Q -> (math_random env (randIdx w) < 1)%Q ->
  reading env w 1 = reading env w 0 ->
  exists e, store (snd (Cache.set env key v w)) !! key = Some e /\
    TTL_MIN CONFIG * 1000 <= expiresAt e - createdAt e <= TTL_MAX CONFIG * 1000.
Proof.
  intros H0 H1 Hclock. rewrite set_run. eexists. split.
  - cbn [snd store with_stats with_store]. apply lookup_insert_eq.
  - cbn [expiresAt createdAt]. rewrite Hclock.
    pose proof (drawn_ttl_in_range _ H0 H1) as Hb. cbv zeta in Hb. lia.
Qed.

(** With a clock that never runs backwards the upper bound always holds. *)
Lemma set_lifetime_upper_bound env key v w :
  (0 <= math_random env (randIdx w))%Q -> (math_random env (randIdx w) < 1)%Q ->
  reading env w 0 <= reading env w 1 ->
  exists e, store (snd (Cache.set env key v w)) !! key = Some e /\
    expiresAt e - createdAt e <= TTL_MAX CONFIG * 1000.
Proof.
  intros H0 H1 Hclock. rewrite set_run. eexists. split.
  - cbn [snd store with_stats with_store]. apply lookup_insert_eq.
  - cbn [expiresAt createdAt].
    pose proof (drawn_ttl_in_range _ H0 H1) as Hb. cbv zeta in Hb. lia.
Qed.

(** C5 (evaluation at the failing input). [set] reads the clock twice, once
    for [expiresAt] and once for [createdAt].  When the clock advances by one
    millisecond between the two readings and the draw is 0, the entry written
    has [expiresAt - createdAt] = 299999 ms, below [TTL_MIN] = 300 s. *)
Theorem set_lifetime_below_min_when_clock_ticks :
  let w := snd (Cache.set env_down "btc" (VNum 95000) empty_world) in
  store w !! "btc"
    = Some {| e_value := VNum 95000; expiresAt := 301000; createdAt := 1001 |}
  /\ 301000 - 1001 < TTL_MIN CONFIG * 1000.
Proof. split; [vm_compute; reflexivity | simpl; lia]. Qed.

(** C8 (as stated, refuted). An entry whose [expiresAt] equals the reading
    is served: [get] returns its value, counts a hit and no miss. *)
Lemma get_at_expiry_is_not_a_miss :
  store world_boundary !! "btc" = Some (entry_expiring_at 1000 (VNum 95000))
  /\ reading env_frozen world_boundary 0 = 1000
  /\ fst (Cache.get env_frozen "btc" world_boundary) = Ok (VNum 95000)
  /\ fst (Cache.get env_frozen "btc" world_boundary) <> Ok VNull
  /\ misses (stats (snd (Cache.get env_frozen "btc" world_boundary))) = 0%nat
  /\ hits (stats (snd (Cache.get env_frozen "btc" world_boundary))) = 1%nat.
Proof. vm_compute. repeat split; try reflexivity. discriminate. Qed.

(** C8 (amended). For an entry whose [expiresAt] equals the current reading
    exactly, [get] returns the entry's value and increments the hit counter
    (the test is [now > expiresAt]); [getRaw] returns the entry. *)
Theorem get_at_expiry_boundary env w key e :
  store w !! key = Some e ->
  reading env w 0 = expiresAt e ->
  Cache.get env key w = (Ok (e_value e), with_stats bump_hits (tick_clock w))
  /\ Cache.getRaw key w = (Ok (Some e), w).
Proof.
  intros Hs Hnow. split.
  - unfold Cache.get, bind, gets. rewrite Hs. unfold Date_now.
    rewrite Hnow, Z.gtb_ltb, Z.ltb_irrefl. reflexivity.
  - unfold Cache.getRaw, gets. rewrite Hs. reflexivity.
Qed.

Lemma get_at_expiry_boundary_witness :
  Cache.get env_frozen "btc" world_boundary
    = (Ok (VNum 95000), with_stats bump_hits (tick_clock world_boundary))
  /\ Cache.getRaw "btc" world_boundary
    = (Ok (Some (entry_expiring_at 1000 (VNum 95000))), world_boundary).
Proof.
  apply (get_at_expiry_boundary env_frozen world_boundary "btc"
           (entry_expiring_at 1000 (VNum 95000))).
  - vm_compute. reflexivity.
  - reflexivity.
Defined.

(** ** Rate limiter *)

Lemma cleanup_run env apiName w :
  RateLimiter._cleanup env apiName w =
    (Ok tt,
     with_requests
       (insert apiName (retained (reading env w 0) (ledger w apiName)))
       (tick_clock w)).
Proof.
  unfold RateLimiter._cleanup, bind, gets, Date_now, ledger, retained.
  cbn [requests tick_clock].
  destruct (requests w !! apiName) as [timestamps|]; reflexivity.
Qed.

Lemma ledger_after_insert apiName l w :
  ledger (with_requests (insert apiName l) w) apiName = l.
Proof. unfold ledger. cbn [requests with_requests]. now rewrite lookup_insert_eq. Qed.

Lemma canMakeRequest_run env apiName lim w :
  let kept := retained (reading env w 0) (ledger w apiName) in
  RateLimiter.canMakeRequest env apiName lim w =
    (Ok (Z.of_nat (List.length kept) <? lim),
     with_requests (insert apiName kept) (tick_clock w)).
Proof.
  cbv zeta. unfold RateLimiter.canMakeRequest, bind. rewrite cleanup_run.
  unfold RateLimiter.timestamps_of, gets, ret.
  fold (ledger (with_requests
                  (insert apiName (retained (reading env w 0) (ledger w apiName)))
                  (tick_clock w)) apiName).
  now rewrite ledger_after_insert.
Qed.

Lemma recordRequest_run env apiName w :
  let kept := retained (reading env w 0) (ledger w apiName) in
  RateLimiter.recordRequest env apiName w =
    (Ok tt,
     with_requests (insert apiName (kept ++ [reading env w 1])%list)
       (tick_clock (tick_clock w))).
Proof.
  cbv zeta. unfold RateLimiter.recordRequest, bind. rewrite cleanup_run.
  unfold RateLimiter.timestamps_of, gets.
  fold (ledger (with_requests
                  (insert apiName (retained (reading env w 0) (ledger w apiName)))
                  (tick_clock w)) apiName).
  rewrite ledger_after_insert.
  unfold Date_now, modify, with_requests, tick_clock. cbn.
  now rewrite insert_insert_eq.
Qed.

(** C4. With [L - 1] timestamps retained in the window the next request is
    admitted; with [L] retained it is denied.  The statement holds in every
    state of the ledger, hence after any sequence of
    [canMakeRequest]-then-[recordRequest] pairs; each recorded request adds
    one timestamp to what the cleanup kept. *)
Theorem quota_exactly_at_limit env w apiName (L : Z) :
  let kept := retained (reading env w 0) (ledger w apiName) in
  (Z.of_nat (List.length kept) = L - 1 ->
     fst (RateLimiter.canMakeRequest env apiName L w) = Ok true)
  /\ (Z.of_nat (List.length kept) = L ->
     fst (RateLimiter.canMakeRequest env apiName L w) = Ok false)
  /\ ledger (snd (RateLimiter.canMakeRequest env apiName L w)) apiName = kept
  /\ ledger (snd (RateLimiter.recordRequest env apiName w)) apiName
     = (kept ++ [reading env w 1])%list.
Proof.
  cbv zeta. pose proof (canMakeRequest_run env apiName L w) as Hc.
  pose proof (recordRequest_run env apiName w) as Hr. cbv zeta in Hc, Hr.
  rewrite Hc, Hr. cbn [fst snd]. repeat split.
  - intros Hn. f_equal. apply Z.ltb_lt. lia.
  - intros Hn. f_equal. apply Z.ltb_ge. lia.
  - apply ledger_after_insert.
  - apply ledger_after_insert.
Qed.

(** The repository's own scenario: five check-and-record pairs at a frozen
    clock are all admitted and the sixth check is refused. *)
Example sixth_request_refused :
  let step := fun (acc : list (Outcome bool) * World) =>
    let '(oks, w) := acc in
    let '(o, w1) := RateLimiter.canMakeRequest env_frozen "polygon" 5 w in
    let '(_, w2) := RateLimiter.recordRequest env_frozen "polygon" w1 in
    ((oks ++ [o])%list, w2) in
  let '(oks, w) := Nat.iter 5 step ([], empty_world) in
  oks = [Ok true; Ok true; Ok true; Ok true; Ok true]
  /\ fst (RateLimiter.canMakeRequest env_frozen "polygon" 5 w) = Ok false.
Proof. vm_compute. split; reflexivity. Qed.

Lemma min_of_spec xs : forall x,
  In (min_of x xs) (x :: xs) /\ forall y, In y (x :: xs) -> min_of x xs <= y.
Proof.
  induction xs as [|a xs IH]; intros x.
  - cbn. split; [now left | intros y [<-|[]]; lia].
  - unfold min_of. cbn [fold_left]. fold (min_of (Z.min x a) xs).
    destruct (IH (Z.min x a)) as [Hin Hle]. split.
    + destruct Hin as [Heq|Hin].
      * rewrite <- Heq. destruct (Z.min_spec x a) as [[_ ->]|[_ ->]];
          [now left | right; now left].
      * right. now right.
    + intros y [<-|[<-|Hy]].
      * specialize (Hle (Z.min x a) (or_introl eq_refl)). lia.
      * specialize (Hle (Z.min x a) (or_introl eq_refl)). lia.
      * apply Hle. now right.
Qed.

Lemma ceil_div1000_spec x :
  x <= 1000 * ceil_div1000 x /\ 1000 * (ceil_div1000 x - 1) < x.
Proof. unfold ceil_div1000. Z.div_mod_to_equations. lia. Qed.

Lemma getUsage_run env apiName lim w :
  let kept := retained (reading env w 0) (ledger w apiName) in
  let now := reading env w 1 in
  let oldest := match kept with [] => now | t :: rest => min_of t rest end in
  RateLimiter.getUsage env apiName lim w =
    (Ok {| used := Z.of_nat (List.length kept);
           limit := lim;
           remaining := Z.max 0 (lim - Z.of_nat (List.length kept));
           resetIn := Z.max 0 (ceil_div1000
                        (RATE_LIMIT_WINDOW CONFIG * 1000 - (now - oldest))) |},
     with_requests (insert apiName kept) (tick_clock (tick_clock w))).
Proof.
  cbv zeta. unfold RateLimiter.getUsage, bind. rewrite cleanup_run.
  unfold RateLimiter.timestamps_of, gets.
  fold (ledger (with_requests
                  (insert apiName (retained (reading env w 0) (ledger w apiName)))
                  (tick_clock w)) apiName).
  rewrite ledger_after_insert. reflexivity.
Qed.

(** C7 (as stated, refuted). With no timestamp retained, [resetIn] is the
    whole window (60 s), not 0: the oldest timestamp defaults to [now]. *)
Lemma usage_of_empty_ledger_resets_in_a_full_window :
  fst (RateLimiter.getUsage env_frozen "polygon" 5 empty_world)
    = Ok {| used := 0; limit := 5; remaining := 5; resetIn := 60 |}
  /\ ledger (snd (RateLimiter.getUsage env_frozen "polygon" 5 empty_world)) "polygon" = [].
Proof. vm_compute. split; reflexivity. Qed.

(** C7 (amended). [getUsage] returns [used] equal to the number of
    timestamps retained by the cleanup, [remaining = max(0, limit - used)],
    and [resetIn] equal to the least whole number of seconds, counted from
    the reading taken after the cleanup, after which the oldest retained
    timestamp is no longer inside the window; when no timestamp is retained
    [resetIn] is the window length [RATE_LIMIT_WINDOW]. *)
Theorem getUsage_spec env w apiName (lim : Z) :
  let kept := retained (reading env w 0) (ledger w apiName) in
  let now := reading env w 1 in
  let windowMs := RATE_LIMIT_WINDOW CONFIG * 1000 in
  exists u w',
    RateLimiter.getUsage env apiName lim w = (Ok u, w')
    /\ ledger w' apiName = kept
    /\ used u = Z.of_nat (List.length kept)
    /\ limit u = lim
    /\ remaining u = Z.max 0 (lim - used u)
    /\ (kept = [] -> resetIn u = RATE_LIMIT_WINDOW CONFIG)
    /\ (forall oldest,
          In oldest kept -> (forall ts, In ts kept -> oldest <= ts) ->
          0 <= resetIn u
          /\ windowMs <= (now + 1000 * resetIn u) - oldest
          /\ forall s, 0 <= s < resetIn u -> (now + 1000 * s) - oldest < windowMs).
Proof.
  cbv zeta. pose proof (getUsage_run env apiName lim w) as Hrun. cbv zeta in Hrun.
  do 2 eexists. split; [exact Hrun|]. cbn [used limit remaining resetIn].
  split; [apply ledger_after_insert|]. repeat split; try reflexivity.
  - intros ->. rewrite Z.sub_diag, Z.sub_0_r. reflexivity.
  - destruct (retained _ _) as [|t rest]; [contradiction|]. lia.
  - destruct (retained (reading env w 0) (ledger w apiName)) as [|t rest] eqn:Hk;
      [contradiction|].
    destruct (min_of_spec rest t) as [Hin Hmin].
    assert (oldest = min_of t rest) as ->.
    { apply Z.le_antisymm; [apply H0, Hin | apply Hmin, H]. }
    pose proof (ceil_div1000_spec
      (RATE_LIMIT_WINDOW CONFIG * 1000 - (reading env w 1 - min_of t rest))).
    lia.
  - destruct (retained (reading env w 0) (ledger w apiName)) as [|t rest] eqn:Hk;
      [contradiction|].
    destruct (min_of_spec rest t) as [Hin Hmin].
    assert (oldest = min_of t rest) as ->.
    { apply Z.le_antisymm; [apply H0, Hin | apply Hmin, H]. }
    intros s Hs.
    pose proof (ceil_div1000_spec
      (RATE_LIMIT_WINDOW CONFIG * 1000 - (reading env w 1 - min_of t rest))).
    lia.
Qed.

(** ** Exponential backoff *)

Lemma backoff_loop_step fetchFn n rem a lastError w t :
  (a + S rem = n)%nat ->
  fst (fetchFn (before_attempt fetchFn n a w)) = Throw t ->
  PriceService.backoff_loop fetchFn n (S rem) a lastError (before_attempt fetchFn n a w)
  = PriceService.backoff_loop fetchFn n rem (S a) t (before_attempt fetchFn n (S a) w).
Proof.
  intros Hn Hf. cbn [PriceService.backoff_loop before_attempt].
  unfold try_catch at 1.
  destruct (fetchFn (before_attempt fetchFn n a w)) as [o w1] eqn:E.
  cbn [fst snd] in *. subst o. unfold bind at 1.
  destruct (Z.of_nat a <? Z.of_nat n - 1) eqn:Hz.
  - assert ((S a <? n)%nat = true) as -> by (apply Nat.ltb_lt; apply Z.ltb_lt in Hz; lia).
    reflexivity.
  - assert ((S a <? n)%nat = false) as -> by (apply Nat.ltb_ge; apply Z.ltb_ge in Hz; lia).
    reflexivity.
Qed.

Lemma backoff_loop_after_failures fetchFn n w : forall j,
  (j <= n)%nat ->
  (forall i, (i < j)%nat -> failed (fst (fetchFn (before_attempt fetchFn n i w))) = true) ->
  PriceService.fetchWithBackoff fetchFn n w
  = PriceService.backoff_loop fetchFn n (n - j) j (last_error fetchFn n j w)
      (before_attempt fetchFn n j w).
Proof.
  induction j as [|j IH]; intros Hj Hfail.
  - unfold PriceService.fetchWithBackoff. now rewrite Nat.sub_0_r.
  - rewrite IH by (try lia; intros i Hi; apply Hfail; lia).
    specialize (Hfail j (Nat.lt_succ_diag_r j)).
    destruct (fst (fetchFn (before_attempt fetchFn n j w))) as [v|t] eqn:E;
      [discriminate|].
    replace (n - j)%nat with (S (n - S j)) by lia.
    rewrite (backoff_loop_step fetchFn n (n - S j) j _ w t) by (try lia; exact E).
    unfold last_error. now rewrite E.
Qed.

Lemma one_request_before_attempt url fetchFn n w :
  one_request url fetchFn -> forall j,
  trace (before_attempt fetchFn n j w)
    = (trace w ++ failed_attempts_events url n j)%list
  /\ callIdx (before_attempt fetchFn n j w) = (callIdx w + j)%nat
  /\ store (before_attempt fetchFn n j w) = store w
  /\ requests (before_attempt fetchFn n j w) = requests w.
Proof.
  intros Hone. unfold failed_attempts_events.
  induction j as [|j (IHt & IHc & IHs & IHr)].
  - cbn. rewrite app_nil_r. repeat split; lia.
  - cbn [before_attempt]. cbv zeta.
    rewrite seq_S, flat_map_app. cbn [flat_map Nat.add].
    destruct (S j <? n)%nat; rewrite Hone; cbn [record_fetch record_sleep trace callIdx store requests];
      rewrite IHt, IHc, IHs, IHr, ?app_nil_r, <- ?app_assoc; cbn [app];
      repeat split; try lia; reflexivity.
Qed.

Lemma backoff_loop_calls url fetchFn n :
  one_request url fetchFn ->
  forall rem a lastError w,
    (callIdx w <= callIdx (snd (PriceService.backoff_loop fetchFn n rem a lastError w))
     <= callIdx w + rem)%nat.
Proof.
  intros Hone. induction rem as [|rem IH]; intros a lastError w.
  - cbn. lia.
  - cbn [PriceService.backoff_loop]. unfold try_catch.
    specialize (Hone w). destruct (fetchFn w) as [[v|t] w1]; cbn [snd] in *; subst w1.
    + cbn. lia.
    + unfold bind.
      destruct (Z.of_nat a <? Z.of_nat n - 1); unfold PriceService.sleep, modify, ret.
      * specialize (IH (S a) t (record_sleep (BASE_DELAY CONFIG * 2 ^ Z.of_nat a)
                                  (record_fetch url w))).
        cbn [record_sleep record_fetch callIdx] in IH. lia.
      * specialize (IH (S a) t (record_fetch url w)).
        cbn [record_fetch callIdx] in IH. lia.
Qed.

(** C3 (as stated, refuted). Under the reference configuration, five failed
    attempts are separated by four sleeps of 16, 32, 64 and 128 s; the fifth
    failure raises at once and no 256 s delay is ever slept. *)
Lemma reference_backoff_has_four_delays :
  let run := PriceService.fetchWithBackoff (PriceService.fetchBtcPrice env_down)
               (MAX_RETRIES CONFIG) empty_world in
  fst run = Throw (Thrown "unreachable")
  /\ sleeps_of (trace (snd run)) = [16000; 32000; 64000; 128000]
  /\ sleeps_of (trace (snd run)) <> [16000; 32000; 64000; 128000; 256000]
  /\ List.length (fetches_of (trace (snd run))) = 5%nat.
Proof. vm_compute. repeat split; try reflexivity. discriminate. Qed.

(** C3 (amended). For every fetch function and every pattern of failures,
    [fetchWithBackoff] runs attempt 0 immediately, sleeps exactly
    [BASE_DELAY * 2^k] before retrying after a failed attempt [k] with
    [k + 1 < maxRetries], returns the value of the first attempt that
    succeeds, makes at most [maxRetries] attempts, and after [maxRetries]
    consecutive failures raises the last error without a further sleep;
    under the reference configuration the successive delays are
    16, 32, 64 and 128 s. *)
Theorem backoff_schedule (fetchFn : M value) (n : nat) (w : World) :
  before_attempt fetchFn n 0 w = w
  /\ (forall j v,
        (j < n)%nat ->
        (forall i, (i < j)%nat ->
           failed (fst (fetchFn (before_attempt fetchFn n i w))) = true) ->
        fst (fetchFn (before_attempt fetchFn n j w)) = Ok v ->
        PriceService.fetchWithBackoff fetchFn n w
        = (Ok v, snd (fetchFn (before_attempt fetchFn n j w))))
  /\ (forall t,
        (0 < n)%nat ->
        (forall i, (i < n)%nat ->
           failed (fst (fetchFn (before_attempt fetchFn n i w))) = true) ->
        fst (fetchFn (before_attempt fetchFn n (n - 1) w)) = Throw t ->
        PriceService.fetchWithBackoff fetchFn n w
        = (Throw t, snd (fetchFn (before_attempt fetchFn n (n - 1) w))))
  /\ (forall url j,
        one_request url fetchFn ->
        trace (before_attempt fetchFn n j w)
          = (trace w ++ failed_attempts_events url n j)%list
        /\ callIdx (before_attempt fetchFn n j w) = (callIdx w + j)%nat)
  /\ (forall url,
        one_request url fetchFn ->
        (callIdx (snd (PriceService.fetchWithBackoff fetchFn n w)) <= callIdx w + n)%nat)
  /\ sleeps_of (failed_attempts_events EmptyString (MAX_RETRIES CONFIG) (MAX_RETRIES CONFIG))
     = [16000; 32000; 64000; 128000].
Proof.
  split; [reflexivity|]. split; [|split; [|split; [|split]]].
  - intros j v Hj Hfail Hok.
    rewrite (backoff_loop_after_failures fetchFn n w j) by (try lia; exact Hfail).
    replace (n - j)%nat with (S (n - S j)) by lia.
    cbn [PriceService.backoff_loop]. unfold try_catch.
    destruct (fetchFn (before_attempt fetchFn n j w)) as [o w1].
    cbn [fst snd] in *. now subst o.
  - intros t Hn Hfail Hlast.
    rewrite (backoff_loop_after_failures fetchFn n w n) by (try lia; exact Hfail).
    rewrite Nat.sub_diag. cbn [PriceService.backoff_loop]. unfold throw.
    destruct n as [|m]; [lia|].
    replace (S m - 1)%nat with m in * by lia.
    unfold last_error. rewrite Hlast. cbn [before_attempt].
    now rewrite Nat.ltb_irrefl.
  - intros url j Hone.
    destruct (one_request_before_attempt url fetchFn n w Hone j) as (Ht & Hc & _).
    now split.
  - intros url Hone. unfold PriceService.fetchWithBackoff.
    apply (backoff_loop_calls url fetchFn n Hone n 0%nat ThrownUndefined w).
  - vm_compute. reflexivity.
Qed.

(** ** Upstream adapters *)

Lemma quiet_refl w : quiet w w.
Proof. repeat split. Qed.

Lemma quiet_trans w1 w2 w3 : quiet w1 w2 -> quiet w2 w3 -> quiet w1 w3.
Proof. unfold quiet. intuition congruence. Qed.

Lemma quiet_record_fetch url w : quiet w (record_fetch url w).
Proof. repeat split. Qed.

Lemma quiet_record_sleep ms w : quiet w (record_sleep ms w).
Proof. repeat split. Qed.

Lemma fetch_run env url w :
  snd (PriceService.fetch env url w) = record_fetch url w
  /\ match fst (PriceService.fetch env url w) with
     | Ok _ => True
     | Throw t => t <> ThrownUndefined
     end.
Proof.
  unfold PriceService.fetch. destruct (upstream env (callIdx w) url); cbn; split;
    try reflexivity; try exact I; discriminate.
Qed.

Ltac adapter_head env url w :=
  unfold bind at 1;
  let Hw := fresh "Hw" in let Ht := fresh "Ht" in
  pose proof (fetch_run env url w) as [Hw Ht];
  let r := fresh "r" in let t := fresh "t" in let w1 := fresh "w1" in
  destruct (PriceService.fetch env url w) as [[r|t] w1];
  cbn [fst snd] in *; subst w1; [|first [reflexivity | exact Ht]];
  unfold PriceService.json, PriceService.http_error, bind, ret, throw;
  destruct (ok r); cbn [negb fst snd]; [|first [reflexivity | discriminate]];
  destruct (body r) as [?|data]; cbn [fst snd]; [first [reflexivity | discriminate]|].

Lemma fetchBtcPrice_adapter env :
  adapter PriceService.coingecko_url (PriceService.fetchBtcPrice env).
Proof.
  split; intros w; unfold PriceService.fetchBtcPrice;
    adapter_head env PriceService.coingecko_url w;
    destruct (truthy _) eqn:Hv; cbn [negb fst snd];
    first [reflexivity | exact Hv | discriminate].
Qed.

Lemma fetchEurUsdRate_adapter env :
  adapter PriceService.exchangerate_url (PriceService.fetchEurUsdRate env).
Proof.
  split; intros w; unfold PriceService.fetchEurUsdRate;
    adapter_head env PriceService.exchangerate_url w;
    destruct (truthy _) eqn:Hv; cbn [negb fst snd];
    first [reflexivity | exact Hv | discriminate].
Qed.

Lemma member_run env v p w :
  snd (PriceService.member env v p w) = w
  /\ match fst (PriceService.member env v p w) with
     | Ok _ => True
     | Throw t => t <> ThrownUndefined
     end.
Proof. destruct v; cbn; split; try reflexivity; try exact I; discriminate. Qed.

Ltac member_step env v p w :=
  let Hw := fresh "Hw" in let Ht := fresh "Ht" in
  pose proof (member_run env v p w) as [Hw Ht];
  let x := fresh "x" in let t := fresh "t" in let w1 := fresh "w1" in
  destruct (PriceService.member env v p w) as [[x|t] w1];
  cbn [fst snd] in *; subst w1; [|first [reflexivity | exact Ht]].

Lemma fetchPolygonPrice_adapter env ticker :
  adapter (PriceService.polygon_url ticker) (PriceService.fetchPolygonPrice env ticker).
Proof.
  split; intros w; unfold PriceService.fetchPolygonPrice;
    adapter_head env (PriceService.polygon_url ticker) w;
    set (w1 := record_fetch _ w);
    member_step env data "status" w1;
    member_step env data "results" w1;
    destruct (_ || _); cbn [fst snd]; try first [reflexivity | discriminate];
    set (first := PriceService.member_index0 _);
    member_step env first "c" w1;
    member_step env first "v" w1;
    member_step env first "h" w1;
    member_step env first "l" w1;
    reflexivity.
Qed.

(** ** What the retry loop leaves behind *)

Lemma backoff_loop_facts url fetchFn n :
  adapter url fetchFn ->
  forall rem a lastError w,
  exists o w' l,
    PriceService.backoff_loop fetchFn n rem a lastError w = (o, w')
    /\ quiet w w' /\ trace w' = (trace w ++ l)%list
    /\ ((0 < rem)%nat -> In (EvFetch url) l)
    /\ match o with
       | Ok v => truthy v = true
       | Throw t => (t = lastError /\ rem = 0%nat) \/ t <> ThrownUndefined
       end.
Proof.
  intros [Hone Hres]. induction rem as [|rem IH]; intros a lastError w.
  - exists (Throw lastError), w, []. cbn. rewrite app_nil_r.
    split; [reflexivity|]. split; [apply quiet_refl|].
    split; [reflexivity|]. split; [lia | now left].
  - cbn [PriceService.backoff_loop]. unfold try_catch.
    specialize (Hone w). specialize (Hres w).
    destruct (fetchFn w) as [[v|t] w1]; cbn [fst snd] in *; subst w1.
    + exists (Ok v), (record_fetch url w), [EvFetch url].
      split; [reflexivity|]. split; [apply quiet_record_fetch|].
      split; [reflexivity|]. split; [intros _; now left | exact Hres].
    + unfold bind at 1.
      set (w2 := snd ((if Z.of_nat a <? Z.of_nat n - 1
                       then PriceService.sleep (BASE_DELAY CONFIG * 2 ^ Z.of_nat a)
                       else ret tt) (record_fetch url w))).
      assert (Hw2 : (if Z.of_nat a <? Z.of_nat n - 1
                     then PriceService.sleep (BASE_DELAY CONFIG * 2 ^ Z.of_nat a)
                     else ret tt) (record_fetch url w) = (Ok tt, w2)).
      { subst w2. destruct (Z.of_nat a <? Z.of_nat n - 1); reflexivity. }
      rewrite Hw2.
      assert (Hq : quiet w w2 /\ exists l1, trace w2 = (trace w ++ EvFetch url :: l1)%list).
      { subst w2. destruct (Z.of_nat a <? Z.of_nat n - 1); cbn.
        - split; [repeat split|]. eexists. now rewrite <- app_assoc.
        - split; [repeat split|]. now exists []. }
      destruct Hq as [Hq [l1 Hl1]].
      destruct (IH (S a) t w2) as (o & w' & l & Hrun & Hq' & Htr & _ & Ho).
      exists o, w', (EvFetch url :: l1 ++ l)%list. rewrite Hrun.
      split; [reflexivity|]. split; [apply (quiet_trans _ _ _ Hq Hq')|].
      split; [rewrite Htr, Hl1, <- app_assoc; reflexivity|].
      split; [intros _; now left|].
      destruct o as [v|t']; [exact Ho|]. right.
      destruct Ho as [[-> _]|Ho]; assumption.
Qed.

Lemma fetchWithBackoff_facts url fetchFn n w :
  adapter url fetchFn -> (0 < n)%nat ->
  exists o w' l,
    PriceService.fetchWithBackoff fetchFn n w = (o, w')
    /\ quiet w w' /\ trace w' = (trace w ++ l)%list
    /\ In (EvFetch url) l
    /\ match o with
       | Ok v => truthy v = true
       | Throw t => t <> ThrownUndefined
       end.
Proof.
  intros Had Hn. unfold PriceService.fetchWithBackoff.
  destruct (backoff_loop_facts url fetchFn n Had n 0%nat ThrownUndefined w)
    as (o & w' & l & Hrun & Hq & Htr & Hin & Ho).
  exists o, w', l. repeat (split; [first [assumption | now apply Hin]|]).
  destruct o as [v|t]; [exact Ho|]. destruct Ho as [[_ ->]|Ho]; [lia | exact Ho].
Qed.

(** ** One key: [fetchAndCachePrice] *)

Lemma fetch_value_facts env key w :
  exists o w1 l,
    (if String.eqb key "btc" then
       PriceService.fetchWithBackoff (PriceService.fetchBtcPrice env) (MAX_RETRIES CONFIG)
     else if String.eqb key "eurUsd" then
       PriceService.fetchWithBackoff (PriceService.fetchEurUsdRate env) (MAX_RETRIES CONFIG)
     else
       let* allowed :=
         RateLimiter.canMakeRequest env "polygon" (POLYGON_RATE_LIMIT CONFIG) in
       if negb allowed then throw (Thrown "Polygon rate limit exceeded") else
       RateLimiter.recordRequest env "polygon" ;;;
       PriceService.fetchWithBackoff (PriceService.fetchPolygonPrice env key)
         (MAX_RETRIES CONFIG)) w = (o, w1)
    /\ store w1 = store w /\ stats w1 = stats w /\ randIdx w1 = randIdx w
    /\ trace w1 = (trace w ++ l)%list
    /\ match o with
       | Ok v => truthy v = true /\ In (EvFetch (url_of key)) l
       | Throw t =>
           exists msg, t = Thrown msg
             /\ (In (EvFetch (url_of key)) l
                 \/ (l = [] /\ is_ticker key = true
                     /\ msg = "Polygon rate limit exceeded"))
       end.
Proof.
  assert (Hn : (0 < MAX_RETRIES CONFIG)%nat) by (cbn; lia).
  assert (Hfin : forall url fetchFn w0 l0,
            adapter url fetchFn -> url = url_of key ->
            store w0 = store w -> stats w0 = stats w -> randIdx w0 = randIdx w ->
            trace w0 = (trace w ++ l0)%list ->
            exists o w1 l,
              PriceService.fetchWithBackoff fetchFn (MAX_RETRIES CONFIG) w0 = (o, w1)
              /\ store w1 = store w /\ stats w1 = stats w /\ randIdx w1 = randIdx w
              /\ trace w1 = (trace w ++ l)%list
              /\ match o with
                 | Ok v => truthy v = true /\ In (EvFetch (url_of key)) l
                 | Throw t =>
                     exists msg, t = Thrown msg
                       /\ (In (EvFetch (url_of key)) l
                           \/ (l = [] /\ is_ticker key = true
                               /\ msg = "Polygon rate limit exceeded"))
                 end).
  { intros url fetchFn w0 l0 Had -> Hs Hst Hr Ht.
    destruct (fetchWithBackoff_facts _ fetchFn _ w0 Had Hn)
      as (o & w1 & l & Hrun & (Hq1 & Hq2 & Hq3 & Hq4 & Hq5) & Htr & Hin & Ho).
    exists o, w1, (l0 ++ l)%list. rewrite Hrun.
    split; [reflexivity|]. split; [congruence|]. split; [congruence|].
    split; [congruence|]. split; [rewrite Htr, Ht, app_assoc; reflexivity|].
    destruct o as [v|t].
    - split; [exact Ho|]. apply in_or_app. now right.
    - destruct t as [msg|]; [|contradiction]. exists msg. split; [reflexivity|].
      left. apply in_or_app. now right. }
  destruct (String.eqb key "btc") eqn:Hbtc.
  - apply (Hfin _ _ w [] (fetchBtcPrice_adapter env)); try reflexivity.
    + unfold url_of. now rewrite Hbtc.
    + now rewrite app_nil_r.
  - destruct (String.eqb key "eurUsd") eqn:Heur.
    + apply (Hfin _ _ w [] (fetchEurUsdRate_adapter env)); try reflexivity.
      * unfold url_of. now rewrite Hbtc, Heur.
      * now rewrite app_nil_r.
    + unfold bind at 1.
      pose proof (canMakeRequest_run env "polygon" (POLYGON_RATE_LIMIT CONFIG) w) as Hc.
      cbv zeta in Hc. rewrite Hc. clear Hc.
      destruct (Z.of_nat _ <? POLYGON_RATE_LIMIT CONFIG); cbn [negb].
      * unfold bind at 1.
        match goal with |- context [RateLimiter.recordRequest env "polygon" ?w0] =>
          pose proof (recordRequest_run env "polygon" w0) as Hr; cbv zeta in Hr;
          rewrite Hr; clear Hr end.
        apply (Hfin _ _ _ [] (fetchPolygonPrice_adapter env key)); try reflexivity.
        -- unfold url_of. now rewrite Hbtc, Heur.
        -- cbn. now rewrite app_nil_r.
      * eexists _, _, []. split; [reflexivity|]. cbn. rewrite app_nil_r.
        repeat (split; [reflexivity|]). eexists. split; [reflexivity|]. right.
        unfold is_ticker. rewrite Hbtc, Heur. repeat split.
Qed.

Lemma fetchAndCachePrice_spec env k w :
  exists r w' l,
    PriceService.fetchAndCachePrice env k w = (Ok r, w')
    /\ key r = k
    /\ trace w' = (trace w ++ l)%list
    /\ (fetched k w w' r l \/ not_fetched k w w' r l).
Proof.
  unfold PriceService.fetchAndCachePrice, try_catch. unfold bind at 1.
  destruct (fetch_value_facts env k w) as (o & w1 & l & Hrun & Hs & Hst & Hr & Htr & Ho).
  rewrite Hrun. destruct o as [v|t].
  - destruct Ho as [Hv Hin]. unfold bind at 1. rewrite set_run. cbn [ret].
    eexists _, _, l. split; [reflexivity|]. cbn [key trace with_stats with_store tick_clock tick_rand].
    split; [reflexivity|]. split; [exact Htr|]. left. split; [reflexivity|].
    eexists {| e_value := v; expiresAt := _; createdAt := _ |}.
    cbn [fr_value store with_stats with_store tick_clock tick_rand e_value].
    split; [reflexivity|]. split; [exact Hv|]. split; [now rewrite Hs | exact Hin].
  - destruct Ho as (msg & -> & Hwhy). cbn [error_message]. unfold bind, ret at 1.
    unfold Cache.getRaw, gets. rewrite Hs.
    destruct (store w !! k) as [e|] eqn:He;
      (eexists _, _, l; split; [reflexivity|]; cbn [key];
       split; [reflexivity|]; split; [exact Htr|]; right;
       split; [reflexivity|]; split; [exact Hs|]; split;
       [exists msg; split; [reflexivity | exact Hwhy] | rewrite He; reflexivity]).
Qed.

(** ** One ticker of the sequential tail *)

Lemma obj_get_set_eq k v d : obj_get k (obj_set k v d) = Some v.
Proof.
  induction d as [|[k' v'] d IH]; cbn.
  - now rewrite String.eqb_refl.
  - destruct (String.eqb k k') eqn:E; cbn; rewrite ?String.eqb_refl, ?E; auto.
Qed.

Lemma obj_get_set_ne k k' v d : k <> k' -> obj_get k' (obj_set k v d) = obj_get k' d.
Proof.
  intros Hne. induction d as [|[k0 v0] d IH]; cbn.
  - apply String.eqb_neq in Hne. rewrite String.eqb_sym in Hne. now rewrite Hne.
  - destruct (String.eqb k k0) eqn:E; cbn.
    + apply String.eqb_eq in E. subst k0.
      assert (String.eqb k' k = false) as -> by (apply String.eqb_neq; congruence).
      reflexivity.
    + destruct (String.eqb k' k0); auto.
Qed.

Lemma get_facts env k w :
  exists v w',
    Cache.get env k w = (Ok v, w')
    /\ store w' = store w /\ requests w' = requests w /\ trace w' = trace w
    /\ callIdx w' = callIdx w /\ randIdx w' = randIdx w
    /\ sets (stats w') = sets (stats w)
    /\ (truthy v = true -> exists e, store w !! k = Some e /\ e_value e = v).
Proof.
  unfold Cache.get, bind, gets. destruct (store w !! k) as [e|] eqn:He.
  - unfold Date_now. destruct (_ >? _); cbn.
    + eexists _, _. split; [reflexivity|]. repeat (split; [reflexivity|]). discriminate.
    + eexists _, _. split; [reflexivity|]. repeat (split; [reflexivity|]).
      intros _. now exists e.
  - cbn. eexists _, _. split; [reflexivity|]. repeat (split; [reflexivity|]). discriminate.
Qed.

Lemma ticker_names k : is_ticker k = true ->
  label_of k = k /\ fallback_of k = PriceService.stock_fallback k.
Proof.
  unfold is_ticker, label_of, fallback_of. intros H.
  apply andb_true_iff in H as [H1 H2].
  apply negb_true_iff in H1, H2. now rewrite H1, H2.
Qed.

Lemma usage_then_sleep env t (results : Results) w :
  exists w' l,
    (let* usage := RateLimiter.getUsage env "polygon" (POLYGON_RATE_LIMIT CONFIG) in
     (if (used usage >=? POLYGON_RATE_LIMIT CONFIG - 1)
         && negb (String.eqb t (List.last PriceService.stocks EmptyString))
      then PriceService.sleep 12000
      else ret tt) ;;;
     ret results) w = (Ok results, w')
    /\ store w' = store w /\ trace w' = (trace w ++ l)%list
    /\ forall ev, In ev l -> ev = EvSleep 12000.
Proof.
  unfold bind at 1.
  pose proof (getUsage_run env "polygon" (POLYGON_RATE_LIMIT CONFIG) w) as Hu.
  cbv zeta in Hu. rewrite Hu. clear Hu. cbv beta iota. cbn [used].
  destruct (_ && _); unfold bind, PriceService.sleep, modify, ret.
  - eexists _, [EvSleep 12000]. split; [reflexivity|]. cbn. repeat split.
    intros ev [<-|[]]. reflexivity.
  - eexists _, []. split; [reflexivity|]. cbn. rewrite app_nil_r. repeat split.
    intros ev [].
Qed.

Lemma processTicker_spec env t r w :
  is_ticker t = true ->
  exists r1 w1 l1,
    PriceService.processTicker env t r w = (Ok r1, w1)
    /\ trace w1 = (trace w ++ l1)%list
    /\ cached r1 = cached r
    /\ (exists es, errors r1 = (errors r ++ es)%list)
    /\ (forall k, k <> t ->
          store w1 !! k = store w !! k /\ obj_get k (data r1) = obj_get k (data r))
    /\ key_settled t w w1 (data r1) (errors r1) l1.
Proof.
  intros Htick. destruct (ticker_names t Htick) as [Hlabel Hfb].
  unfold key_settled, PriceService.processTicker. unfold bind at 1.
  destruct (get_facts env t w) as (v & w0 & Hget & Hs0 & _ & Ht0 & _ & _ & _ & Hv).
  rewrite Hget. destruct (truthy v) eqn:Htv.
  - destruct (Hv eq_refl) as (e & He & <-).
    exists (PriceService.push_success t (PriceService.set_data t (e_value e) r)), w0, [].
    split; [reflexivity|]. split; [now rewrite Ht0, app_nil_r|].
    split; [reflexivity|]. split; [exists []; cbn; now rewrite app_nil_r|].
    split.
    + intros k Hk. split; [now rewrite Hs0|]. cbn. apply obj_get_set_ne. congruence.
    + left. exists e. rewrite Hs0. split; [exact He|]. split; [exact Htv|].
      split; [cbn; apply obj_get_set_eq | now left].
  - unfold bind at 1.
    destruct (fetchAndCachePrice_spec env t w0) as (r2 & w2 & l2 & Hrun & _ & Ht2 & Hcase).
    rewrite Hrun.
    match goal with |- context [bind _ (fun usage => _ ;;; ret ?res) w2] =>
      destruct (usage_then_sleep env t res w2) as (w3 & l3 & Hfin & Hs3 & Ht3 & Hl3);
      set (results := res) in *
    end.
    exists results, w3, (l2 ++ l3)%list. split; [exact Hfin|].
    split; [now rewrite Ht3, Ht2, Ht0, app_assoc|].
    destruct Hcase as [(Hsucc & e & Hval & Htruthy & Hstore & Hin)
                      |(Hsucc & Hstore & (msg & Herr & Hwhy) & Hstale)];
      subst results; rewrite Hsucc.
    + rewrite Hval. cbn [or_undefined default].
      split; [reflexivity|]. split; [exists []; cbn; now rewrite app_nil_r|].
      split.
      * intros k Hk. split.
        -- rewrite Hs3, Hstore, Hs0. apply lookup_insert_ne. congruence.
        -- cbn. apply obj_get_set_ne. congruence.
      * left. exists e. split; [rewrite Hs3, Hstore; apply lookup_insert_eq|].
        split; [exact Htruthy|]. split; [cbn; apply obj_get_set_eq|].
        right. apply in_or_app. now left.
    + rewrite Herr. cbn [or_undefined_string default]. rewrite Hs0 in Hstale.
      assert (Hframe : forall k, k <> t -> store w3 !! k = store w !! k).
      { intros k _. now rewrite Hs3, Hstore, Hs0. }
      assert (Hlisted : In (EvFetch (url_of t)) (l2 ++ l3)
                        \/ (is_ticker t = true /\ msg = "Polygon rate limit exceeded")).
      { destruct Hwhy as [Hin|(_ & _ & ->)]; [left; apply in_or_app; now left | now right]. }
      destruct (store w !! t) as [e|] eqn:He; injection Hstale as Hval Hst;
        rewrite Hval, Hst; cbn [or_undefined default].
      * split; [reflexivity|]. split; [eexists; reflexivity|]. split.
        -- intros k Hk. split; [now apply Hframe|]. cbn. apply obj_get_set_ne. congruence.
        -- right. split; [now rewrite Hs3, Hstore, Hs0|]. split.
           ++ exists msg. split; [|exact Hlisted]. cbn. rewrite Hlabel.
              apply in_or_app. right. now left.
           ++ cbn. apply obj_get_set_eq.
      * split; [reflexivity|]. split; [eexists; reflexivity|]. split.
        -- intros k Hk. split; [now apply Hframe|]. cbn. apply obj_get_set_ne. congruence.
        -- right. split; [now rewrite Hs3, Hstore, Hs0|]. split.
           ++ exists msg. split; [|exact Hlisted]. cbn. rewrite Hlabel.
              apply in_or_app. right. now left.
           ++ cbn. rewrite Hfb. apply obj_get_set_eq.
Qed.

(** ** The sequential tail *)

Lemma key_settled_later k w w1 w' d1 d' errs1 es l1 l2 :
  key_settled k w w1 d1 errs1 l1 ->
  store w' !! k = store w1 !! k ->
  obj_get k d' = obj_get k d1 ->
  key_settled k w w' d' (errs1 ++ es) (l1 ++ l2).
Proof.
  unfold key_settled. intros [(e & He & Ht & Hd & Hwhy)|(Hs & (msg & Hin & Hwhy) & Hd)] Hs' Hd'.
  - left. exists e. rewrite Hs', Hd'. repeat (split; [assumption|]).
    destruct Hwhy as [?|?]; [now left | right; apply in_or_app; now left].
  - right. rewrite Hs', Hd'. split; [exact Hs|]. split; [|exact Hd].
    exists msg. split; [apply in_or_app; now left|].
    destruct Hwhy as [?|?]; [left; apply in_or_app; now left | now right].
Qed.

Lemma key_settled_earlier k w w1 w' d errs l1 l2 :
  key_settled k w1 w' d errs l2 ->
  store w1 !! k = store w !! k ->
  key_settled k w w' d errs (l1 ++ l2).
Proof.
  unfold key_settled. intros [(e & He & Ht & Hd & Hwhy)|(Hs & (msg & Hin & Hwhy) & Hd)] Hs1.
  - left. exists e. repeat (split; [assumption|]). rewrite <- Hs1.
    destruct Hwhy as [?|?]; [now left | right; apply in_or_app; now right].
  - right. rewrite <- Hs1. split; [exact Hs|]. split; [|exact Hd].
    exists msg. split; [exact Hin|].
    destruct Hwhy as [?|?]; [left; apply in_or_app; now right | now right].
Qed.

Lemma tickerLoop_spec env : forall ts r w,
  List.NoDup ts -> (forall t, In t ts -> is_ticker t = true) ->
  exists r' w' l,
    PriceService.tickerLoop env ts r w = (Ok r', w')
    /\ trace w' = (trace w ++ l)%list
    /\ cached r' = cached r
    /\ (exists es, errors r' = (errors r ++ es)%list)
    /\ (forall k, ~ In k ts ->
          store w' !! k = store w !! k /\ obj_get k (data r') = obj_get k (data r))
    /\ forall t, In t ts -> key_settled t w w' (data r') (errors r') l.
Proof.
  induction ts as [|t ts IH]; intros r w Hnd Htick.
  - exists r, w, []. cbn. rewrite app_nil_r. split; [reflexivity|].
    split; [reflexivity|]. split; [reflexivity|].
    split; [exists []; now rewrite app_nil_r|]. split; [auto | intros t []].
  - apply List.NoDup_cons_iff in Hnd as [Hnotin Hnd].
    cbn [PriceService.tickerLoop]. unfold bind at 1.
    destruct (processTicker_spec env t r w (Htick t (or_introl eq_refl)))
      as (r1 & w1 & l1 & Hrun & Ht1 & Hc1 & (es1 & He1) & Hframe1 & Hset1).
    rewrite Hrun.
    destruct (IH r1 w1 Hnd (fun t' Hin => Htick t' (or_intror Hin)))
      as (r' & w' & l2 & Hrun' & Ht' & Hc' & (es2 & He') & Hframe' & Hset').
    exists r', w', (l1 ++ l2)%list. split; [exact Hrun'|].
    split; [now rewrite Ht', Ht1, app_assoc|]. split; [congruence|].
    split; [exists (es1 ++ es2)%list; now rewrite He', He1, app_assoc|].
    split.
    + intros k Hk. assert (k <> t) by (intros ->; apply Hk; now left).
      assert (~ In k ts) by (intros Hin; apply Hk; now right).
      destruct (Hframe1 k) as [? ?]; [assumption|].
      destruct (Hframe' k) as [? ?]; [assumption|]. split; congruence.
    + intros t' [<-|Hin].
      * destruct (Hframe' t Hnotin) as [Hs Hd]. rewrite He'.
        now apply (key_settled_later t w w1 w' (data r1)).
      * assert (t' <> t) by (intros ->; contradiction).
        destruct (Hframe1 t') as [Hs _]; [assumption|].
        apply key_settled_earlier with (w1 := w1); [now apply Hset' | exact Hs].
Qed.

(** ** The parallel head *)

Ltac head_step_tac env k w :=
  let fr := fresh "fr" in let w1 := fresh "w1" in let l1 := fresh "l1" in
  let Hrun := fresh "Hrun" in let Ht1 := fresh "Ht1" in
  let e := fresh "e" in let msg := fresh "msg" in
  let Hsucc := fresh "Hsucc" in let Hval := fresh "Hval" in
  let Htruthy := fresh "Htruthy" in let Hstore := fresh "Hstore" in
  let Hin := fresh "Hin" in let Herr := fresh "Herr" in
  let Hwhy := fresh "Hwhy" in let Hstale := fresh "Hstale" in
  let Hst := fresh "Hst" in let He := fresh "He" in
  destruct (fetchAndCachePrice_spec env k w)
    as (fr & w1 & l1 & Hrun & _ & Ht1
        & [(Hsucc & e & Hval & Htruthy & Hstore & Hin)
          |(Hsucc & Hstore & (msg & Herr & Hwhy) & Hstale)]);
  exists fr, w1, l1; (split; [exact Hrun|]); (split; [exact Ht1|]);
  unfold key_settled, PriceService.processBtc, PriceService.processEur;
  rewrite Hsucc;
  [ rewrite Hval; cbn [or_undefined default];
    split; [reflexivity|]; split; [exists []; cbn; now rewrite app_nil_r|];
    split;
    [ intros k' Hk'; split;
      [ rewrite Hstore; apply lookup_insert_ne; congruence
      | cbn; apply obj_get_set_ne; congruence ]
    | left; exists e; split; [rewrite Hstore; apply lookup_insert_eq|];
      split; [exact Htruthy|]; split; [cbn; apply obj_get_set_eq | now right] ]
  | rewrite Herr; cbn [or_undefined_string default];
    assert (Hlisted : In (EvFetch (url_of k)) l1
                      \/ (is_ticker k = true /\ msg = "Polygon rate limit exceeded"))
      by (destruct Hwhy as [?|(_ & ? & ?)]; [now left | now right]);
    destruct (store w !! k) as [e|] eqn:He; injection Hstale as Hval Hst;
    rewrite Hval, Hst; cbn [or_undefined default];
    (split; [reflexivity|]); (split; [eexists; reflexivity|]);
    (split;
     [ intros k' Hk'; split;
       [ now rewrite Hstore | cbn; apply obj_get_set_ne; congruence ]
     | right; split; [now rewrite Hstore|]; split;
       [ exists msg; split; [cbn; apply in_or_app; right; now left | exact Hlisted]
       | cbn; apply obj_get_set_eq ] ]) ].

Lemma btc_step env r w :
  exists fr w1 l1,
    PriceService.fetchAndCachePrice env "btc" w = (Ok fr, w1)
    /\ trace w1 = (trace w ++ l1)%list
    /\ cached (PriceService.processBtc fr r) = cached r
    /\ (exists es, errors (PriceService.processBtc fr r) = (errors r ++ es)%list)
    /\ (forall k, k <> "btc" ->
          store w1 !! k = store w !! k
          /\ obj_get k (data (PriceService.processBtc fr r)) = obj_get k (data r))
    /\ key_settled "btc" w w1 (data (PriceService.processBtc fr r))
         (errors (PriceService.processBtc fr r)) l1.
Proof. head_step_tac env "btc" w. Qed.

Lemma eur_step env r w :
  exists fr w1 l1,
    PriceService.fetchAndCachePrice env "eurUsd" w = (Ok fr, w1)
    /\ trace w1 = (trace w ++ l1)%list
    /\ cached (PriceService.processEur fr r) = cached r
    /\ (exists es, errors (PriceService.processEur fr r) = (errors r ++ es)%list)
    /\ (forall k, k <> "eurUsd" ->
          store w1 !! k = store w !! k
          /\ obj_get k (data (PriceService.processEur fr r)) = obj_get k (data r))
    /\ key_settled "eurUsd" w w1 (data (PriceService.processEur fr r))
         (errors (PriceService.processEur fr r)) l1.
Proof. head_step_tac env "eurUsd" w. Qed.

(** ** The whole batch: [fetchAllPrices] *)

Ltac get_step env k Hs Ht Hv :=
  unfold bind at 1;
  let v := fresh "v" in let w' := fresh "w" in let Hget := fresh "Hget" in
  match goal with |- context [Cache.get env k ?w0] =>
    destruct (get_facts env k w0) as (v & w' & Hget & Hs & _ & Ht & _ & _ & _ & Hv);
    rewrite Hget; clear Hget
  end.

Lemma stocks_are_tickers t : In t PriceService.stocks -> is_ticker t = true.
Proof. cbn. intros [<-|[<-|[<-|[<-|[<-|[]]]]]]; reflexivity. Qed.

Lemma stocks_distinct : List.NoDup PriceService.stocks.
Proof.
  unfold PriceService.stocks.
  repeat (apply List.NoDup_cons; [cbn; intuition discriminate|]). apply List.NoDup_nil.
Qed.

Lemma fetchAllPrices_spec env w :
  exists r w' l,
    PriceService.fetchAllPrices env w = (Ok r, w')
    /\ trace w' = (trace w ++ l)%list
    /\ (forall k, In k known_keys -> key_settled k w w' (data r) (errors r) l)
    /\ (cached r = true ->
          l = [] /\ errors r = [] /\ store w' = store w
          /\ forall k, In k known_keys ->
               exists e, store w !! k = Some e /\ truthy (e_value e) = true).
Proof.
  unfold PriceService.fetchAllPrices.
  get_step env "btc" Hs1 Ht1 Hv1. get_step env "MSTR" Hs2 Ht2 Hv2.
  get_step env "eurUsd" Hs3 Ht3 Hv3. get_step env "STRF" Hs4 Ht4 Hv4.
  get_step env "STRC" Hs5 Ht5 Hv5. get_step env "STRK" Hs6 Ht6 Hv6.
  get_step env "STRD" Hs7 Ht7 Hv7.
  assert (HsS : store w6 = store w) by congruence.
  assert (HtS : trace w6 = trace w) by congruence.
  rewrite Hs6, Hs5, Hs4, Hs3, Hs2, Hs1 in Hv7. rewrite Hs5, Hs4, Hs3, Hs2, Hs1 in Hv6.
  rewrite Hs4, Hs3, Hs2, Hs1 in Hv5. rewrite Hs3, Hs2, Hs1 in Hv4.
  rewrite Hs2, Hs1 in Hv3. rewrite Hs1 in Hv2.
  clear Hs1 Hs2 Hs3 Hs4 Hs5 Hs6 Hs7 Ht1 Ht2 Ht3 Ht4 Ht5 Ht6 Ht7.
  destruct (truthy v && truthy v0 && truthy v1 && truthy v2 && truthy v3
            && truthy v4 && truthy v5) eqn:Hall.
  - repeat (apply andb_true_iff in Hall as [Hall ?]).
    destruct (Hv1 Hall) as (e1 & He1 & <-). destruct (Hv2 H4) as (e2 & He2 & <-).
    destruct (Hv3 H3) as (e3 & He3 & <-). destruct (Hv4 H2) as (e4 & He4 & <-).
    destruct (Hv5 H1) as (e5 & He5 & <-). destruct (Hv6 H0) as (e6 & He6 & <-).
    destruct (Hv7 H) as (e7 & He7 & <-).
    eexists _, w6, []. split; [reflexivity|]. split; [now rewrite HtS, app_nil_r|].
    assert (Hwarm : forall k, In k known_keys ->
              exists e, store w !! k = Some e /\ truthy (e_value e) = true
                        /\ obj_get k [("btc", e_value e1); ("MSTR", e_value e2);
                                      ("eurUsd", e_value e3); ("STRF", e_value e4);
                                      ("STRC", e_value e5); ("STRK", e_value e6);
                                      ("STRD", e_value e7)] = Some (e_value e)).
    { intros k [<-|[<-|[<-|[<-|[<-|[<-|[<-|[]]]]]]]]; eexists; (split; [eassumption|]);
        (split; [assumption | reflexivity]). }
    cbn [data errors cached]. split.
    + intros k Hk. destruct (Hwarm k Hk) as (e & He & Ht & Hd). left. exists e.
      rewrite HsS. repeat (split; [assumption|]). now left.
    + intros _. repeat (split; [first [reflexivity | assumption]|]).
      intros k Hk. destruct (Hwarm k Hk) as (e & He & Ht & _). now exists e.
  - clear Hv1 Hv2 Hv3 Hv4 Hv5 Hv6 Hv7 Hall.
    set (r0 := {| data := [("btc", VNull); ("eurUsd", VNum 1.05)];
                  errors := []; successes := [];
                  cached := false; partial := false; stale := false |}).
    unfold bind at 1.
    destruct (btc_step env r0 w6)
      as (fb & wb & lb & Hb & Htb & Hcb & (esb & Heb) & Hfb & Hsetb).
    rewrite Hb. unfold bind at 1.
    destruct (eur_step env (PriceService.processBtc fb r0) wb)
      as (fe & we & le & He & Hte & Hce & (ese & Hee) & Hfe & Hsete).
    rewrite He. cbv zeta.
    set (r2 := PriceService.processEur fe (PriceService.processBtc fb r0)) in *.
    set (r1 := PriceService.processBtc fb r0) in *.
    destruct (tickerLoop_spec env PriceService.stocks r2 we stocks_distinct
                stocks_are_tickers)
      as (r' & w' & lt & Hrun & Htt & Hct & (est & Het) & Hft & Hsett).
    exists r', w', (lb ++ le ++ lt)%list. split; [exact Hrun|].
    split; [rewrite Htt, Hte, Htb, HtS, <- !app_assoc; reflexivity|].
    assert (Hnb : ~ In "btc" PriceService.stocks) by (cbn; intuition discriminate).
    assert (Hne : ~ In "eurUsd" PriceService.stocks) by (cbn; intuition discriminate).
    split.
    + assert (Hhead : forall k, k = "btc" \/ k = "eurUsd" \/ In k PriceService.stocks ->
                key_settled k w6 w' (data r') (errors r') (lb ++ le ++ lt)).
      { intros k [->|[->|Hk]].
        - destruct (Hfe "btc") as [Hs1 Hd1]; [discriminate|].
          destruct (Hft "btc" Hnb) as [Hs2 Hd2].
          rewrite Het, Hee, <- app_assoc.
          apply (key_settled_later "btc" w6 wb w' (data r1)); [exact Hsetb| |]; congruence.
        - destruct (Hfb "eurUsd") as [Hs1 _]; [discriminate|].
          destruct (Hft "eurUsd" Hne) as [Hs2 Hd2].
          apply key_settled_earlier with (w1 := wb); [|exact Hs1].
          rewrite Het.
          apply (key_settled_later "eurUsd" wb we w' (data r2)); [exact Hsete| |]; congruence.
        - assert (k <> "btc") by (intros ->; contradiction).
          assert (k <> "eurUsd") by (intros ->; contradiction).
          destruct (Hfb k) as [Hs1 _]; [assumption|].
          destruct (Hfe k) as [Hs2 _]; [assumption|].
          rewrite app_assoc.
          apply key_settled_earlier with (w1 := we); [now apply Hsett | congruence]. }
      intros k Hk.
      assert (Hk' : k = "btc" \/ k = "eurUsd" \/ In k PriceService.stocks).
      { cbn in Hk |- *. intuition. }
      specialize (Hhead k Hk'). unfold key_settled in *. now rewrite <- HsS.
    + assert (cached r' = false) as -> by (rewrite Hct, Hce, Hcb; reflexivity).
      discriminate.
Qed.

(** ** Warm cache *)

Lemma get_fresh env k e w :
  store w !! k = Some e ->
  reading env w 0 <= expiresAt e ->
  Cache.get env k w = (Ok (e_value e), with_stats bump_hits (tick_clock w)).
Proof.
  intros Hs Hnow. unfold Cache.get, bind, gets. rewrite Hs. unfold Date_now.
  assert ((reading env w 0 >? expiresAt e) = false) as ->
    by (rewrite Z.gtb_ltb; apply Z.ltb_ge; lia).
  reflexivity.
Qed.

Lemma unexpired_entry env w i k :
  unexpired env w = true -> In (i, k) indexed_keys ->
  exists e, store w !! k = Some e /\ reading env w i <= expiresAt e.
Proof.
  unfold unexpired. rewrite forallb_forall. intros H Hin.
  specialize (H (i, k) Hin). cbn [fst snd] in H.
  destruct (store w !! k) as [e|]; [|discriminate].
  exists e. split; [reflexivity | now apply Z.leb_le].
Qed.

Lemma all_truthy_entry w k :
  all_truthy w = true -> In k known_keys -> truthy (cached_value w k) = true.
Proof. unfold all_truthy. rewrite forallb_forall. auto. Qed.

Ltac warm_get env Hu Ha i k :=
  let e := fresh "e" in let He := fresh "He" in let Hle := fresh "Hle" in
  let Ht := fresh "Ht" in
  destruct (unexpired_entry env _ i k Hu) as (e & He & Hle);
    [cbn; tauto|];
  pose proof (all_truthy_entry _ k Ha) as Ht;
  unfold cached_value in Ht; rewrite He in Ht;
  specialize (Ht ltac:(cbn; tauto));
  unfold bind at 1;
  rewrite (get_fresh env k e) by (cbn; first [exact He | exact Hle]);
  unfold cached_value; rewrite He.

Lemma fast_path_run env w :
  warm env w = true ->
  exists w',
    PriceService.fetchAllPrices env w =
      (Ok {| data := map (fun k => (k, cached_value w k)) known_keys;
             errors := [];
             successes := ["BTC"; "MSTR"; "EUR/USD"; "STRF"; "STRC"; "STRK"; "STRD"];
             cached := true; partial := false; stale := false |}, w')
    /\ store w' = store w /\ requests w' = requests w
    /\ trace w' = trace w /\ callIdx w' = callIdx w
    /\ sets (stats w') = sets (stats w).
Proof.
  unfold warm. intros H. apply andb_true_iff in H as [Hu Ha].
  unfold PriceService.fetchAllPrices. cbn [map known_keys].
  warm_get env Hu Ha 0%nat "btc". warm_get env Hu Ha 1%nat "MSTR".
  warm_get env Hu Ha 2%nat "eurUsd". warm_get env Hu Ha 3%nat "STRF".
  warm_get env Hu Ha 4%nat "STRC". warm_get env Hu Ha 5%nat "STRK".
  warm_get env Hu Ha 6%nat "STRD".
  rewrite Ht, Ht0, Ht1, Ht2, Ht3, Ht4, Ht5. cbn [andb].
  eexists. split; [reflexivity|]. repeat split.
Qed.
Lemma fetchAllPrices_total env w :
  exists r w', PriceService.fetchAllPrices env w = (Ok r, w').
Proof. destruct (fetchAllPrices_spec env w) as (r & w' & _ & H & _). eauto. Qed.

Lemma after_successful_batch env w0 r1 w :
  PriceService.fetchAllPrices env w0 = (Ok r1, w) ->
  errors r1 = [] -> all_truthy w = true.
Proof.
  intros Hrun Herr.
  destruct (fetchAllPrices_spec env w0) as (r & w' & l & Hrun' & _ & Hset & _).
  rewrite Hrun in Hrun'. injection Hrun' as <- <-.
  unfold all_truthy. apply forallb_forall. intros k Hk.
  destruct (Hset k Hk) as [(e & He & Ht & _)|(_ & (msg & Hin & _) & _)].
  - unfold cached_value. now rewrite He.
  - rewrite Herr in Hin. destruct Hin.
Qed.

(** C1 (as stated, refuted). All seven keys hold unexpired entries, but the
    value cached for [btc] is 0: the fast path is not taken, two upstream
    calls are made and two cache entries are written. *)
Lemma falsy_value_defeats_fast_path :
  let w := world_all_cached (VNum 0) (quote 100) in
  let run := PriceService.fetchAllPrices env_up w in
  unexpired env_up w = true
  /\ (exists r, fst run = Ok r /\ cached r = false)
  /\ fetches_of (trace (snd run))
     = [PriceService.coingecko_url; PriceService.exchangerate_url]
  /\ sets (stats (snd run)) = 2%nat.
Proof.
  cbv zeta. split; [vm_compute; reflexivity|]. split.
  - eexists. split; [vm_compute; reflexivity | reflexivity].
  - split; vm_compute; reflexivity.
Qed.

(** C1 (amended). For every cache state in which all seven configured keys
    hold non-expired entries whose values are truthy, [fetchAllPrices]
    returns those cached values in [data] with [cached = true],
    [partial = false], [stale = false], an empty [errors] list and all seven
    keys in [successes], making no upstream call and no cache write; hence a
    second call after a call that ended without errors makes zero upstream
    calls whenever the seven entries are still unexpired when it reads them. *)
Theorem warm_cache_fast_path env w :
  (warm env w = true ->
   exists w',
     PriceService.fetchAllPrices env w =
       (Ok {| data := map (fun k => (k, cached_value w k)) known_keys;
              errors := [];
              successes := ["BTC"; "MSTR"; "EUR/USD"; "STRF"; "STRC"; "STRK"; "STRD"];
              cached := true; partial := false; stale := false |}, w')
     /\ store w' = store w /\ requests w' = requests w
     /\ trace w' = trace w /\ callIdx w' = callIdx w
     /\ sets (stats w') = sets (stats w))
  /\ (forall w0 r1,
        PriceService.fetchAllPrices env w0 = (Ok r1, w) ->
        errors r1 = [] ->
        unexpired env w = true ->
        exists r2 w2,
          PriceService.fetchAllPrices env w = (Ok r2, w2)
          /\ cached r2 = true
          /\ data r2 = map (fun k => (k, cached_value w k)) known_keys
          /\ store w2 = store w
          /\ trace w2 = trace w /\ callIdx w2 = callIdx w).
Proof.
  split; [apply fast_path_run|].
  intros w0 r1 Hrun Herr Hfresh.
  assert (Hwarm : warm env w = true).
  { unfold warm. rewrite Hfresh. apply (after_successful_batch env w0 r1 w Hrun Herr). }
  destruct (fast_path_run env w Hwarm) as (w2 & Hrun2 & Hs & _ & Ht & Hc & _).
  eexists _, w2. split; [exact Hrun2|]. repeat split; assumption.
Qed.

(** The repository's integration scenario: a cold start with healthy
    upstreams, then a second call served from the cache without any
    upstream call. *)
Example second_call_served_from_cache :
  let first := PriceService.fetchAllPrices env_up empty_world in
  let second := PriceService.fetchAllPrices env_up (snd first) in
  (exists r1, fst first = Ok r1 /\ errors r1 = [] /\ cached r1 = false)
  /\ warm env_up (snd first) = true
  /\ (exists r2, fst second = Ok r2 /\ cached r2 = true)
  /\ trace (snd second) = trace (snd first)
  /\ callIdx (snd second) = callIdx (snd first).
Proof.
  cbv zeta. split; [|split; [|split; [|split]]].
  - eexists. split; [vm_compute; reflexivity | split; reflexivity].
  - vm_compute. reflexivity.
  - eexists. split; [vm_compute; reflexivity | reflexivity].
  - vm_compute. reflexivity.
  - vm_compute. reflexivity.
Qed.
(** A batch can end without errors and still outlive its own entries: with
    a market-data upstream that answers only the last attempt of each retry
    loop, the first call sleeps 1200 s in backoff, so the entries it wrote
    first (TTL 300 s here) have expired when it returns, and the call that
    follows immediately goes upstream again. *)
Example slow_batch_outlives_its_entries :
  let first := PriceService.fetchAllPrices env_flaky empty_world in
  let second := PriceService.fetchAllPrices env_flaky (snd first) in
  (exists r1, fst first = Ok r1 /\ errors r1 = [] /\ partial r1 = false)
  /\ slept (snd first) = 1200000
  /\ unexpired env_flaky (snd first) = false
  /\ (exists r2, fst second = Ok r2 /\ cached r2 = false)
  /\ callIdx (snd first) = 27%nat
  /\ callIdx (snd second) = 52%nat.
Proof.
  cbv zeta. split; [|split; [|split; [|split; [|split]]]].
  - eexists. split; [vm_compute; reflexivity | split; reflexivity].
  - vm_compute. reflexivity.
  - vm_compute. reflexivity.
  - eexists. split; [vm_compute; reflexivity | reflexivity].
  - vm_compute. reflexivity.
  - vm_compute. reflexivity.
Qed.

(** ** Truthiness, not freshness *)

(** C10 (as stated, refuted). [STRD] holds an unexpired entry whose value
    is 0 while the polygon quota is used up: the fast path is skipped, but
    no upstream request is made for [STRD]; the rate limiter refuses it and
    the cached 0 is served as a stale value. *)
Lemma falsy_ticker_not_refetched_when_quota_used :
  let w := world_quota_used (VNum 95000) (VNum 0) in
  let run := PriceService.fetchAllPrices env_up w in
  unexpired env_up w = true
  /\ cached_value w "STRD" = VNum 0
  /\ (exists r, fst run = Ok r /\ cached r = false
        /\ errors r = ["STRD: Polygon rate limit exceeded"]
        /\ obj_get "STRD" (data r) = Some (VNum 0))
  /\ fetches_of (trace (snd run))
     = [PriceService.coingecko_url; PriceService.exchangerate_url]
  /\ ~ In (PriceService.polygon_url "STRD") (fetches_of (trace (snd run))).
Proof.
  cbv zeta. split; [vm_compute; reflexivity|]. split; [vm_compute; reflexivity|].
  split; [|split].
  - eexists. split; [vm_compute; reflexivity|]. repeat split.
  - vm_compute. reflexivity.
  - vm_compute. intros [H|[H|[]]]; discriminate.
Qed.

(** ** What a batch asks of the upstreams, key by key *)

Lemma backoff_loop_events url fetchFn n :
  one_request url fetchFn ->
  forall rem a lastError w,
  exists l,
    trace (snd (PriceService.backoff_loop fetchFn n rem a lastError w))
      = (trace w ++ l)%list
    /\ List.Forall (fun ev => ev = EvFetch url \/ exists ms, ev = EvSleep ms) l.
Proof.
  intros Hone. induction rem as [|rem IH]; intros a lastError w.
  - exists []. cbn. rewrite app_nil_r. split; [reflexivity | constructor].
  - cbn [PriceService.backoff_loop]. unfold try_catch.
    specialize (Hone w). destruct (fetchFn w) as [[v|t] w1]; cbn [snd] in *; subst w1.
    + exists [EvFetch url]. split; [reflexivity|]. constructor; [now left | constructor].
    + unfold bind.
      destruct (Z.of_nat a <? Z.of_nat n - 1); unfold PriceService.sleep, modify, ret.
      * destruct (IH (S a) t (record_sleep (BASE_DELAY CONFIG * 2 ^ Z.of_nat a)
                                (record_fetch url w))) as (l & Htr & Hall).
        exists (EvFetch url :: EvSleep (BASE_DELAY CONFIG * 2 ^ Z.of_nat a) :: l).
        split; [rewrite Htr; cbn; now rewrite <- !app_assoc|].
        constructor; [now left|]. constructor; [right; eauto | exact Hall].
      * destruct (IH (S a) t (record_fetch url w)) as (l & Htr & Hall).
        exists (EvFetch url :: l).
        split; [rewrite Htr; cbn; now rewrite <- !app_assoc|].
        constructor; [now left | exact Hall].
Qed.

Lemma fetchWithBackoff_events url fetchFn w :
  adapter url fetchFn ->
  exists o w' l,
    PriceService.fetchWithBackoff fetchFn (MAX_RETRIES CONFIG) w = (o, w')
    /\ trace w' = (trace w ++ l)%list
    /\ In (EvFetch url) l
    /\ List.Forall (fun ev => ev = EvFetch url \/ exists ms, ev = EvSleep ms) l
    /\ match o with Ok _ => True | Throw t => t <> ThrownUndefined end.
Proof.
  intros Had. assert (Hn : (0 < MAX_RETRIES CONFIG)%nat) by (cbn; lia).
  destruct (fetchWithBackoff_facts url fetchFn _ w Had Hn)
    as (o & w' & l & Hrun & _ & Htr & Hin & Ho).
  destruct Had as [Hone _].
  destruct (backoff_loop_events url fetchFn (MAX_RETRIES CONFIG) Hone
              (MAX_RETRIES CONFIG) 0%nat ThrownUndefined w) as (l' & Htr' & Hall).
  unfold PriceService.fetchWithBackoff in Hrun. rewrite Hrun in Htr'. cbn [snd] in Htr'.
  rewrite Htr in Htr'. apply app_inv_head in Htr'. subst l'.
  exists o, w', l. repeat (split; [assumption|]). destruct o; [exact I | exact Ho].
Qed.

Lemma only_for_one k l :
  List.Forall (fun ev => ev = EvFetch (url_of k) \/ exists ms, ev = EvSleep ms) l ->
  List.Forall (only_for [k]) l.
Proof.
  apply List.Forall_impl. intros ev [->|[ms ->]]; cbn; [|exact I].
  exists k. split; [now left | reflexivity].
Qed.

Lemma only_for_more ks ks' l :
  (forall k, In k ks -> In k ks') ->
  List.Forall (only_for ks) l -> List.Forall (only_for ks') l.
Proof.
  intros Hsub. apply List.Forall_impl. intros [url|ms]; cbn; [|tauto].
  intros (k & Hin & ->). exists k. split; [now apply Hsub | reflexivity].
Qed.

Lemma only_for_not_in ks k l :
  (forall k', In k' ks -> url_of k' <> url_of k) ->
  List.Forall (only_for ks) l -> ~ In (EvFetch (url_of k)) l.
Proof.
  intros Hne Hall Hin. rewrite List.Forall_forall in Hall.
  specialize (Hall _ Hin). cbn in Hall. destruct Hall as (k' & Hk' & Heq).
  now apply (Hne k' Hk').
Qed.

(** One key: the events of [fetchAndCachePrice] are requests to the key's
    own endpoint and sleeps, none at all when the limiter refuses and at
    least one request otherwise. *)
Lemma fetchAndCachePrice_events env k w :
  exists r w' l,
    PriceService.fetchAndCachePrice env k w = (Ok r, w')
    /\ trace w' = (trace w ++ l)%list
    /\ List.Forall (only_for [k]) l
    /\ (if refuses env k w
        then l = [] /\ success r = false /\ error r = Some "Polygon rate limit exceeded"
        else In (EvFetch (url_of k)) l).
Proof.
  assert (Htail : forall (o : Outcome value) w1 l,
            trace w1 = (trace w ++ l)%list ->
            match o with Ok _ => True | Throw t => t <> ThrownUndefined end ->
            exists r w',
              match o with
              | Ok value =>
                  (Cache.set env k value ;;;
                   ret {| success := true; key := k; fr_value := Some value;
                          fr_stale := false; error := None |}) w1
              | Throw t =>
                  (let* message := error_message t in
                   let* staleEntry := Cache.getRaw k in
                   match staleEntry with
                   | Some entry =>
                       ret {| success := false; key := k;
                              fr_value := Some (e_value entry);
                              fr_stale := true; error := Some message |}
                   | None =>
                       ret {| success := false; key := k; fr_value := None;
                              fr_stale := false; error := Some message |}
                   end) w1
              end = (Ok r, w')
              /\ trace w' = (trace w ++ l)%list
              /\ match o with
                 | Ok _ => True
                 | Throw t => success r = false
                              /\ forall m, t = Thrown m -> error r = Some m
                 end).
  { intros [v|[m|]] w1 l Htr Ho; [| |contradiction].
    - unfold bind at 1. rewrite set_run. eexists _, _. split; [reflexivity|].
      cbn. split; [exact Htr | exact I].
    - cbn [error_message]. unfold bind, ret at 1. unfold Cache.getRaw, gets.
      destruct (store w1 !! k);
        (eexists _, _; split; [reflexivity|]; split; [exact Htr|]; cbn;
         split; [reflexivity|]; intros m' [= <-]; reflexivity). }
  unfold PriceService.fetchAndCachePrice, try_catch. unfold bind at 1.
  unfold refuses, is_ticker.
  assert (Hhead : forall url fetchFn,
            adapter url fetchFn -> url = url_of k ->
            exists o w1 l,
              PriceService.fetchWithBackoff fetchFn (MAX_RETRIES CONFIG) w = (o, w1)
              /\ trace w1 = (trace w ++ l)%list
              /\ List.Forall (only_for [k]) l
              /\ In (EvFetch (url_of k)) l
              /\ match o with Ok _ => True | Throw t => t <> ThrownUndefined end).
  { intros url fetchFn Had ->.
    destruct (fetchWithBackoff_events _ fetchFn w Had) as (o & w1 & l & Hrun & Htr & Hin & Hall & Ho).
    exists o, w1, l. repeat (split; [first [assumption | now apply only_for_one]|]).
    exact Ho. }
  destruct (String.eqb k "btc") eqn:Hbtc; [|destruct (String.eqb k "eurUsd") eqn:Heur].
  - destruct (Hhead _ _ (fetchBtcPrice_adapter env)) as (o & w1 & l & -> & Htr & Hall & Hin & Ho).
    { unfold url_of. now rewrite Hbtc. }
    destruct (Htail o w1 l Htr Ho) as (r & w' & Hrun & Htr' & _).
    exists r, w', l. cbn [negb andb]. destruct o; (split; [exact Hrun|]); tauto.
  - destruct (Hhead _ _ (fetchEurUsdRate_adapter env)) as (o & w1 & l & -> & Htr & Hall & Hin & Ho).
    { unfold url_of. now rewrite Hbtc, Heur. }
    destruct (Htail o w1 l Htr Ho) as (r & w' & Hrun & Htr' & _).
    exists r, w', l. cbn [negb andb]. destruct o; (split; [exact Hrun|]); tauto.
  - cbn [negb andb]. unfold bind at 1.
    pose proof (canMakeRequest_run env "polygon" (POLYGON_RATE_LIMIT CONFIG) w) as Hc.
    cbv zeta in Hc. rewrite Hc. clear Hc.
    destruct (Z.of_nat _ <? POLYGON_RATE_LIMIT CONFIG) eqn:Hlt; cbn [negb].
    + assert ((POLYGON_RATE_LIMIT CONFIG
               <=? Z.of_nat (List.length (retained (reading env w 0) (ledger w "polygon"))))
              = false) as -> by (apply Z.leb_gt; now apply Z.ltb_lt).
      unfold bind at 1.
      match goal with |- context [RateLimiter.recordRequest env "polygon" ?w0] =>
        pose proof (recordRequest_run env "polygon" w0) as Hr; cbv zeta in Hr;
        rewrite Hr; clear Hr end.
      match goal with |- context [PriceService.fetchWithBackoff _ _ ?w0] =>
        destruct (fetchWithBackoff_events _ _ w0 (fetchPolygonPrice_adapter env k))
          as (o & w1 & l & -> & Htr & Hin & Hall & Ho)
      end.
      cbn [trace with_requests tick_clock] in Htr.
      destruct (Htail o w1 l Htr Ho) as (r & w' & Hrun & Htr' & _).
      assert (Hurl : PriceService.polygon_url k = url_of k)
        by (unfold url_of; now rewrite Hbtc, Heur).
      rewrite Hurl in *.
      exists r, w', l. destruct o; (split; [exact Hrun|]);
        (split; [exact Htr'|]); (split; [now apply only_for_one | exact Hin]).
    + assert ((POLYGON_RATE_LIMIT CONFIG
               <=? Z.of_nat (List.length (retained (reading env w 0) (ledger w "polygon"))))
              = true) as -> by (apply Z.leb_le; now apply Z.ltb_ge).
      match goal with |- context [throw ?t ?w0] =>
        destruct (Htail (Throw t) w0 []) as (r & w' & Hrun & Htr' & Hs & Hm)
      end.
      { cbn. now rewrite app_nil_r. }
      { discriminate. }
      exists r, w', []. unfold throw. split; [exact Hrun|]. split; [exact Htr'|].
      split; [constructor|]. split; [reflexivity|]. split; [exact Hs|]. now apply Hm.
Qed.

Lemma processTicker_events env t r w :
  exists r1 w1 l,
    PriceService.processTicker env t r w = (Ok r1, w1)
    /\ trace w1 = (trace w ++ l)%list
    /\ List.Forall (only_for [t]) l.
Proof.
  unfold PriceService.processTicker. unfold bind at 1.
  destruct (get_facts env t w) as (v & w0 & Hget & _ & _ & Ht0 & _).
  rewrite Hget. destruct (truthy v).
  - eexists _, w0, []. split; [reflexivity|]. rewrite app_nil_r.
    split; [exact Ht0 | constructor].
  - unfold bind at 1.
    destruct (fetchAndCachePrice_events env t w0) as (r2 & w2 & l2 & Hrun & Ht2 & Hall & _).
    rewrite Hrun.
    match goal with |- context [bind _ (fun usage => _ ;;; ret ?res) w2] =>
      destruct (usage_then_sleep env t res w2) as (w3 & l3 & Hfin & _ & Ht3 & Hl3)
    end.
    eexists _, w3, (l2 ++ l3)%list. split; [exact Hfin|].
    split; [now rewrite Ht3, Ht2, Ht0, app_assoc|].
    apply List.Forall_app. split; [exact Hall|].
    apply List.Forall_forall. intros ev Hev. rewrite (Hl3 ev Hev). exact I.
Qed.

Lemma tickerLoop_events env : forall ts r w,
  exists r' w' l,
    PriceService.tickerLoop env ts r w = (Ok r', w')
    /\ trace w' = (trace w ++ l)%list
    /\ List.Forall (only_for ts) l.
Proof.
  induction ts as [|t ts IH]; intros r w.
  - exists r, w, []. split; [reflexivity|]. rewrite app_nil_r.
    split; [reflexivity | constructor].
  - cbn [PriceService.tickerLoop]. unfold bind at 1.
    destruct (processTicker_events env t r w) as (r1 & w1 & l1 & -> & Ht1 & Hall1).
    destruct (IH r1 w1) as (r' & w' & l & Hrun & Ht & Hall).
    exists r', w', (l1 ++ l)%list. split; [exact Hrun|].
    split; [now rewrite Ht, Ht1, app_assoc|].
    apply List.Forall_app. split.
    + apply (only_for_more [t]); [|exact Hall1]. intros k [<-|[]]. now left.
    + apply (only_for_more ts); [|exact Hall]. intros k Hk. now right.
Qed.

Lemma tickerLoop_app env : forall pre post r w,
  PriceService.tickerLoop env (pre ++ post) r w
  = match PriceService.tickerLoop env pre r w with
    | (Ok r1, w1) => PriceService.tickerLoop env post r1 w1
    | (Throw t, w1) => (Throw t, w1)
    end.
Proof.
  induction pre as [|t pre IH]; intros post r w; [reflexivity|].
  cbn [app PriceService.tickerLoop]. unfold bind.
  destruct (PriceService.processTicker env t r w) as [[r1|th] w1]; [apply IH | reflexivity].
Qed.

Lemma tickers_before_split k : forall ts,
  In k ts ->
  exists post, ts = (tickers_before k ts ++ k :: post)%list
               /\ ~ In k (tickers_before k ts).
Proof.
  induction ts as [|t ts IH]; intros Hin; [contradiction|].
  cbn [tickers_before]. destruct (String.eqb t k) eqn:Heq.
  - apply String.eqb_eq in Heq. subst t. exists ts. split; [reflexivity | intros []].
  - apply String.eqb_neq in Heq. destruct Hin as [->|Hin]; [contradiction|].
    destruct (IH Hin) as (post & Hsplit & Hnot). exists post. split.
    + cbn. now rewrite <- Hsplit.
    + intros [->|H]; [now apply Heq | contradiction].
Qed.

Lemma url_of_distinct k k' :
  In k known_keys -> In k' known_keys -> url_of k = url_of k' -> k = k'.
Proof.
  intros Hk Hk' Heq. cbn in Hk, Hk'.
  repeat match goal with H : _ \/ _ |- _ => destruct H as [<-|H] end;
    first [reflexivity | contradiction | (vm_compute in Heq; discriminate Heq)].
Qed.

Lemma falsy_read k e v (w w0 : World) :
  store w0 = store w -> store w !! k = Some e -> truthy (e_value e) = false ->
  (truthy v = true -> exists e', store w0 !! k = Some e' /\ e_value e' = v) ->
  truthy v = false.
Proof.
  intros Hs He Hfalsy Hv. destruct (truthy v) eqn:Htv; [|reflexivity].
  destruct (Hv eq_refl) as (e' & He' & <-). rewrite Hs, He in He'.
  injection He' as <-. congruence.
Qed.

(** A ticker whose cache entry holds a falsy value, in the sequential
    tail: the loop handles the tickers before it, reads the cache, and
    enters [fetchAndCachePrice] in the state that read leaves. *)
Lemma tickerLoop_through env pre t post r w e :
  List.NoDup pre -> ~ In t pre ->
  (forall t', In t' pre -> is_ticker t' = true) ->
  store w !! t = Some e -> truthy (e_value e) = false ->
  exists r3 w3 r' w' l1 l2 l3,
    PriceService.tickerLoop env pre r w = (Ok r3, w3)
    /\ PriceService.tickerLoop env (pre ++ t :: post) r w = (Ok r', w')
    /\ trace (snd (Cache.get env t w3)) = (trace w ++ l1)%list
    /\ trace (snd (PriceService.fetchAndCachePrice env t (snd (Cache.get env t w3))))
       = (trace (snd (Cache.get env t w3)) ++ l2)%list
    /\ trace w' = (trace w ++ l1 ++ l2 ++ l3)%list
    /\ List.Forall (only_for pre) l1
    /\ List.Forall (only_for post) l3.
Proof.
  intros Hnd Hnot Htick He Hfalsy.
  destruct (tickerLoop_spec env pre r w Hnd Htick)
    as (r3 & w3 & lpre & Hpre & Htpre & _ & _ & Hframe & _).
  destruct (tickerLoop_events env pre r w) as (r3' & w3' & lpre' & Hpre' & Htpre' & Hallpre).
  rewrite Hpre in Hpre'. injection Hpre' as <- <-.
  rewrite Htpre in Htpre'. apply app_inv_head in Htpre'. subst lpre'.
  destruct (Hframe t Hnot) as [Hs3 _].
  rewrite tickerLoop_app, Hpre. cbn [PriceService.tickerLoop].
  unfold bind at 1. unfold PriceService.processTicker. unfold bind at 1.
  destruct (get_facts env t w3) as (v & w4 & Hget & Hs4 & _ & Ht4 & _ & _ & _ & Hv).
  rewrite Hget. cbn [snd].
  assert (Htv : truthy v = false).
  { destruct (truthy v) eqn:Htv; [|reflexivity].
    destruct (Hv eq_refl) as (e' & He' & <-). rewrite Hs3, He in He'.
    injection He' as <-. congruence. }
  rewrite Htv. unfold bind at 1.
  destruct (fetchAndCachePrice_events env t w4) as (r2 & w5 & l2 & Hrun & Ht5 & _ & _).
  rewrite Hrun. cbn [snd].
  match goal with |- context [bind _ (fun usage => _ ;;; ret ?res) w5] =>
    destruct (usage_then_sleep env t res w5) as (w6 & ls & Hfin & _ & Ht6 & Hls);
    set (results := res) in *
  end.
  rewrite Hfin.
  destruct (tickerLoop_events env post results w6) as (r' & w' & lpost & Hpost & Htpost & Hallpost).
  exists r3, w3, r', w', lpre, l2, (ls ++ lpost)%list.
  rewrite Hget. cbn [snd]. rewrite Hrun. cbn [snd].
  split; [reflexivity|]. split; [exact Hpost|].
  split; [now rewrite Ht4, Htpre|]. split; [exact Ht5|].
  split; [rewrite Htpost, Ht6, Ht5, Ht4, Htpre, <- !app_assoc; reflexivity|].
  split; [exact Hallpre|]. apply List.Forall_app. split; [|exact Hallpost].
  apply List.Forall_forall. intros ev Hev. rewrite (Hls ev Hev). exact I.
Qed.

Lemma head_fetch env k0 w :
  exists r w' l,
    PriceService.fetchAndCachePrice env k0 w = (Ok r, w')
    /\ trace w' = (trace w ++ l)%list
    /\ List.Forall (only_for [k0]) l
    /\ forall k, k <> k0 -> store w' !! k = store w !! k.
Proof.
  destruct (fetchAndCachePrice_events env k0 w) as (r & w' & l & Hrun & Htr & Hall & _).
  exists r, w', l. repeat (split; [assumption|]).
  destruct (fetchAndCachePrice_spec env k0 w) as (r0 & w0 & l0 & Hrun0 & _ & _ & Hcase).
  rewrite Hrun in Hrun0. injection Hrun0 as <- <-.
  intros k Hne.
  destruct Hcase as [(_ & e & _ & _ & -> & _)|(_ & -> & _)]; [|reflexivity].
  apply lookup_insert_ne. congruence.
Qed.

Lemma stocks_are_known t : In t PriceService.stocks -> In t known_keys.
Proof. cbn. intuition. Qed.

(** The batch that misses the fast path, cut at the point where it enters
    [fetchAndCachePrice] for a key whose entry holds a falsy value. *)
Lemma batch_through env w k e :
  In k known_keys -> store w !! k = Some e -> truthy (e_value e) = false ->
  exists r w' l1 l2 l3,
    PriceService.fetchAllPrices env w = (Ok r, w')
    /\ trace (snd (entering env k w)) = (trace w ++ l1)%list
    /\ trace (snd (PriceService.fetchAndCachePrice env k (snd (entering env k w))))
       = (trace (snd (entering env k w)) ++ l2)%list
    /\ trace w' = (trace w ++ l1 ++ l2 ++ l3)%list
    /\ ~ In (EvFetch (url_of k)) l1
    /\ ~ In (EvFetch (url_of k)) l3.
Proof.
  intros Hk He Hfalsy.
  destruct (get_facts env "btc" w) as (v1 & w1 & Hg1 & Hs1 & _ & Ht1 & _ & _ & _ & Hv1).
  destruct (get_facts env "MSTR" w1) as (v2 & w2 & Hg2 & Hs2 & _ & Ht2 & _ & _ & _ & Hv2).
  destruct (get_facts env "eurUsd" w2) as (v3 & w3 & Hg3 & Hs3 & _ & Ht3 & _ & _ & _ & Hv3).
  destruct (get_facts env "STRF" w3) as (v4 & w4 & Hg4 & Hs4 & _ & Ht4 & _ & _ & _ & Hv4).
  destruct (get_facts env "STRC" w4) as (v5 & w5 & Hg5 & Hs5 & _ & Ht5 & _ & _ & _ & Hv5).
  destruct (get_facts env "STRK" w5) as (v6 & w6 & Hg6 & Hs6 & _ & Ht6 & _ & _ & _ & Hv6).
  destruct (get_facts env "STRD" w6) as (v7 & w7 & Hg7 & Hs7 & _ & Ht7 & _ & _ & _ & Hv7).
  assert (HsS : store w7 = store w) by congruence.
  assert (HtS : trace w7 = trace w) by congruence.
  assert (Hmiss : truthy v1 && truthy v2 && truthy v3 && truthy v4 && truthy v5
                  && truthy v6 && truthy v7 = false).
  { cbn in Hk.
    destruct Hk as [<-|[<-|[<-|[<-|[<-|[<-|[<-|[]]]]]]]].
    - rewrite (falsy_read "btc" e v1 w w); auto.
    - rewrite (falsy_read "MSTR" e v2 w w1); auto. now rewrite andb_false_r.
    - rewrite (falsy_read "eurUsd" e v3 w w2); [|congruence|auto..].
      now rewrite !andb_false_r.
    - rewrite (falsy_read "STRF" e v4 w w3); [|congruence|auto..].
      now rewrite !andb_false_r.
    - rewrite (falsy_read "STRC" e v5 w w4); [|congruence|auto..].
      now rewrite !andb_false_r.
    - rewrite (falsy_read "STRK" e v6 w w5); [|congruence|auto..].
      now rewrite !andb_false_r.
    - rewrite (falsy_read "STRD" e v7 w w6); [|congruence|auto..].
      now rewrite !andb_false_r. }
  set (r0 := {| data := [("btc", VNull); ("eurUsd", VNum 1.05)];
                errors := []; successes := [];
                cached := false; partial := false; stale := false |}).
  assert (Hall : PriceService.fetchAllPrices env w
                 = (let* btcResult := PriceService.fetchAndCachePrice env "btc" in
                    let* eurResult := PriceService.fetchAndCachePrice env "eurUsd" in
                    PriceService.tickerLoop env PriceService.stocks
                      (PriceService.processEur eurResult
                         (PriceService.processBtc btcResult r0))) w7).
  { unfold PriceService.fetchAllPrices.
    unfold bind at 1. rewrite Hg1. unfold bind at 1. rewrite Hg2.
    unfold bind at 1. rewrite Hg3. unfold bind at 1. rewrite Hg4.
    unfold bind at 1. rewrite Hg5. unfold bind at 1. rewrite Hg6.
    unfold bind at 1. rewrite Hg7. rewrite Hmiss. reflexivity. }
  assert (Hent : entering env k w
                 = (if String.eqb k "btc" then ret tt else
                    let* btcResult := PriceService.fetchAndCachePrice env "btc" in
                    if String.eqb k "eurUsd" then ret tt else
                    let* eurResult := PriceService.fetchAndCachePrice env "eurUsd" in
                    let* results :=
                      PriceService.tickerLoop env
                        (tickers_before k PriceService.stocks)
                        (PriceService.processEur eurResult
                           (PriceService.processBtc btcResult r0)) in
                    Cache.get env k ;;; ret tt) w7).
  { unfold entering.
    unfold bind at 1. rewrite Hg1. unfold bind at 1. rewrite Hg2.
    unfold bind at 1. rewrite Hg3. unfold bind at 1. rewrite Hg4.
    unfold bind at 1. rewrite Hg5. unfold bind at 1. rewrite Hg6.
    unfold bind at 1. rewrite Hg7. reflexivity. }
  rewrite Hall, Hent. clear Hall Hent Hmiss Hg1 Hg2 Hg3 Hg4 Hg5 Hg6 Hg7
    Hv1 Hv2 Hv3 Hv4 Hv5 Hv6 Hv7 Hs1 Hs2 Hs3 Hs4 Hs5 Hs6 Hs7 Ht1 Ht2 Ht3 Ht4 Ht5 Ht6 Ht7.
  rewrite <- HtS. rewrite <- HsS in He. clear HtS HsS.
  assert (Hdistinct : forall ks, (forall k', In k' ks -> In k' known_keys /\ k' <> k) ->
            forall l, List.Forall (only_for ks) l -> ~ In (EvFetch (url_of k)) l).
  { intros ks Hks l. apply only_for_not_in. intros k' Hk' Heq.
    destruct (Hks k' Hk') as [Hknown Hne]. apply Hne.
    now apply url_of_distinct. }
  destruct (head_fetch env "btc" w7) as (fb & wb & lb & Hb & Htb & Hallb & Hfb).
  destruct (head_fetch env "eurUsd" wb) as (fe & we & le & Hee & Hte & Halle & Hfe).
  assert (Hcases : k = "btc" \/ k = "eurUsd" \/ In k PriceService.stocks)
    by (cbn in Hk |- *; intuition).
  assert (Hslow : forall r' w',
            PriceService.tickerLoop env PriceService.stocks
              (PriceService.processEur fe (PriceService.processBtc fb r0)) we = (Ok r', w') ->
            (let* btcResult := PriceService.fetchAndCachePrice env "btc" in
             let* eurResult := PriceService.fetchAndCachePrice env "eurUsd" in
             PriceService.tickerLoop env PriceService.stocks
               (PriceService.processEur eurResult
                  (PriceService.processBtc btcResult r0))) w7 = (Ok r', w')).
  { intros r' w' Hrun. unfold bind. rewrite Hb. cbv beta iota. rewrite Hee.
    cbv beta iota. exact Hrun. }
  destruct Hcases as [->|[->|Hstock]].
  - (* the crypto key *)
    destruct (tickerLoop_events env PriceService.stocks
                (PriceService.processEur fe (PriceService.processBtc fb r0)) we)
      as (r' & w' & lt & Hrun & Htt & Hallt).
    rewrite (Hslow r' w' Hrun).
    change (String.eqb "btc" "btc") with true. cbv iota. unfold ret. cbn [snd].
    rewrite Hb. cbn [snd].
    exists r', w', [], lb, (le ++ lt)%list. split; [reflexivity|].
    split; [now rewrite app_nil_r|]. split; [exact Htb|].
    split; [rewrite Htt, Hte, Htb, <- !app_assoc; reflexivity|].
    split; [intros []|].
    apply (Hdistinct ("eurUsd" :: PriceService.stocks)).
    + intros k' [<-|Hk']; [split; [cbn; tauto | discriminate]|].
      split; [now apply stocks_are_known|].
      intros ->. pose proof (stocks_are_tickers _ Hk'). discriminate.
    + apply List.Forall_app. split.
      * apply (only_for_more ["eurUsd"]); [|exact Halle]. intros k' [<-|[]]. now left.
      * apply (only_for_more PriceService.stocks); [|exact Hallt]. intros k' ?. now right.
  - (* the FX key *)
    destruct (tickerLoop_events env PriceService.stocks
                (PriceService.processEur fe (PriceService.processBtc fb r0)) we)
      as (r' & w' & lt & Hrun & Htt & Hallt).
    rewrite (Hslow r' w' Hrun).
    assert (Hwk : (if String.eqb "eurUsd" "btc" then ret tt else
                   let* btcResult := PriceService.fetchAndCachePrice env "btc" in
                   if String.eqb "eurUsd" "eurUsd" then ret tt else
                   let* eurResult := PriceService.fetchAndCachePrice env "eurUsd" in
                   let* results :=
                     PriceService.tickerLoop env
                       (tickers_before "eurUsd" PriceService.stocks)
                       (PriceService.processEur eurResult
                          (PriceService.processBtc btcResult r0)) in
                   Cache.get env "eurUsd" ;;; ret tt) w7 = (Ok tt, wb)).
    { change (String.eqb "eurUsd" "btc") with false.
      change (String.eqb "eurUsd" "eurUsd") with true. cbv iota.
      unfold bind. now rewrite Hb. }
    rewrite Hwk. cbn [snd]. rewrite Hee. cbn [snd].
    exists r', w', lb, le, lt. split; [reflexivity|].
    split; [exact Htb|]. split; [exact Hte|].
    split; [rewrite Htt, Hte, Htb, <- !app_assoc; reflexivity|].
    split.
    + apply (Hdistinct ["btc"]); [|exact Hallb].
      intros k' [<-|[]]. split; [cbn; tauto | discriminate].
    + apply (Hdistinct PriceService.stocks); [|exact Hallt].
      intros k' Hk'. split; [now apply stocks_are_known|].
      intros ->. pose proof (stocks_are_tickers _ Hk'). discriminate.
  - (* a ticker *)
    pose proof (stocks_are_tickers k Hstock) as Htick.
    assert (String.eqb k "btc" = false /\ String.eqb k "eurUsd" = false) as [Hnb Hne].
    { unfold is_ticker in Htick. apply andb_true_iff in Htick as [H1 H2].
      split; [now apply negb_true_iff in H1 | now apply negb_true_iff in H2]. }
    rewrite Hnb, Hne.
    destruct (tickers_before_split k PriceService.stocks Hstock) as (post & Hsplit & Hnot).
    set (pre := tickers_before k PriceService.stocks) in *.
    pose proof stocks_distinct as Hnd. rewrite Hsplit in Hnd.
    assert (Hndpre : List.NoDup pre) by (now apply List.NoDup_app_remove_r in Hnd).
    assert (Hnotpost : ~ In k post).
    { apply List.NoDup_remove_2 in Hnd. intros H. apply Hnd, in_or_app. now right. }
    assert (Hpre : forall t, In t pre -> In t PriceService.stocks)
      by (intros t Ht; rewrite Hsplit; apply in_or_app; now left).
    assert (Hpost : forall t, In t post -> In t PriceService.stocks)
      by (intros t Ht; rewrite Hsplit; apply in_or_app; right; now right).
    assert (Hek : store we !! k = Some e).
    { rewrite Hfe, Hfb; [exact He| |].
      - apply String.eqb_neq, Hnb.
      - apply String.eqb_neq, Hne. }
    destruct (tickerLoop_through env pre k post
                (PriceService.processEur fe (PriceService.processBtc fb r0)) we e
                Hndpre Hnot (fun t Ht => stocks_are_tickers t (Hpre t Ht)) Hek Hfalsy)
      as (rp & wp & r' & w' & l1 & l2 & l3 & Hrun3 & Hrun & Ht1 & Ht2 & Ht' & Hall1 & Hall3).
    rewrite <- Hsplit in Hrun. rewrite (Hslow r' w' Hrun).
    assert (Hwk : (let* btcResult := PriceService.fetchAndCachePrice env "btc" in
                   let* eurResult := PriceService.fetchAndCachePrice env "eurUsd" in
                   let* results :=
                     PriceService.tickerLoop env pre
                       (PriceService.processEur eurResult
                          (PriceService.processBtc btcResult r0)) in
                   Cache.get env k ;;; ret tt) w7
                  = (Ok tt, snd (Cache.get env k wp))).
    { unfold bind. rewrite Hb. cbv beta iota. rewrite Hee. cbv beta iota.
      rewrite Hrun3. cbv beta iota.
      destruct (get_facts env k wp) as (v & wq & -> & _). reflexivity. }
    rewrite Hwk. cbn [snd].
    exists r', w', (lb ++ le ++ l1)%list, l2, l3. split; [reflexivity|].
    split; [rewrite Ht1, Hte, Htb, <- !app_assoc; reflexivity|].
    split; [exact Ht2|].
    split; [rewrite Ht', Hte, Htb, <- !app_assoc; reflexivity|].
    split.
    + apply (Hdistinct ("btc" :: "eurUsd" :: pre)).
      * intros k' [<-|[<-|Hk']].
        -- split; [cbn; tauto|]. intros <-. discriminate.
        -- split; [cbn; tauto|]. intros <-. discriminate.
        -- split; [apply stocks_are_known, Hpre, Hk'|]. intros ->. contradiction.
      * apply List.Forall_app. split.
        { apply (only_for_more ["btc"]); [|exact Hallb]. intros k' [<-|[]]. now left. }
        apply List.Forall_app. split.
        { apply (only_for_more ["eurUsd"]); [|exact Halle].
          intros k' [<-|[]]. right. now left. }
        apply (only_for_more pre); [|exact Hall1]. intros k' ?. right. now right.
    + apply (Hdistinct post); [|exact Hall3].
      intros k' Hk'. split; [apply stocks_are_known, Hpost, Hk'|]. intros ->. contradiction.
Qed.

(** C10 (amended). [fetchAllPrices] decides whether a key is cached by the
    truthiness of what [get] returns: when the cache holds, for one of the
    seven keys, an entry whose value is falsy, expired or not, the fast path
    is skipped and the batch runs [fetchAndCachePrice] for that key: its
    events [l] are the events [l1] up to the state [wk] in which that call
    is entered, the events [l2] of the call itself, and the events [l3] of
    the rest of the batch, and neither [l1] nor [l3] holds a request for the
    key.  If the rate limiter does not refuse the key in [wk] (it never
    refuses [btc] or [eurUsd]), the call dispatches an upstream request for
    it.  If the limiter refuses (the key is a market-data ticker and the
    cleanup leaves [POLYGON_RATE_LIMIT] timestamps or more), the call has no
    event at all, so no request for the key is made in the whole batch; the
    key is listed in [errors] with the rate-limit message and [data] carries
    the falsy value the cache held. *)
Theorem falsy_entry_is_treated_as_absent env w k e :
  In k known_keys ->
  store w !! k = Some e ->
  truthy (e_value e) = false ->
  let wk := snd (entering env k w) in
  exists r w' l1 l2 l3,
    PriceService.fetchAllPrices env w = (Ok r, w')
    /\ cached r = false
    /\ trace wk = (trace w ++ l1)%list
    /\ trace (snd (PriceService.fetchAndCachePrice env k wk)) = (trace wk ++ l2)%list
    /\ trace w' = (trace w ++ l1 ++ l2 ++ l3)%list
    /\ ~ In (EvFetch (url_of k)) l1
    /\ ~ In (EvFetch (url_of k)) l3
    /\ (if refuses env k wk
        then l2 = []
             /\ In (k +:+ ": Polygon rate limit exceeded") (errors r)
             /\ obj_get k (data r) = Some (e_value e)
        else In (EvFetch (url_of k)) l2).
Proof.
  intros Hk He Hfalsy. cbv zeta.
  destruct (batch_through env w k e Hk He Hfalsy)
    as (r & w' & l1 & l2 & l3 & Hrun & Ht1 & Ht2 & Ht' & Hn1 & Hn3).
  destruct (fetchAllPrices_spec env w) as (r0 & w0 & l & Hrun0 & Htr & Hset & Hfast).
  rewrite Hrun in Hrun0. injection Hrun0 as <- <-.
  rewrite Ht' in Htr. apply app_inv_head in Htr. subst l.
  exists r, w', l1, l2, l3. split; [exact Hrun|]. split.
  { destruct (cached r); [|reflexivity].
    destruct (Hfast eq_refl) as (_ & _ & _ & Hall).
    destruct (Hall k Hk) as (e' & He' & Ht). congruence. }
  repeat (split; [assumption|]).
  destruct (fetchAndCachePrice_events env k (snd (entering env k w)))
    as (fr & wf & l2' & Hf & Htf & _ & Href).
  rewrite Hf in Ht2. cbn [snd] in Ht2. rewrite Htf in Ht2.
  apply app_inv_head in Ht2. subst l2'.
  destruct (refuses env k (snd (entering env k w))) eqn:Hrefuses; [|exact Href].
  destruct Href as (-> & _ & _). split; [reflexivity|].
  assert (Htick : is_ticker k = true).
  { unfold refuses in Hrefuses. now apply andb_true_iff in Hrefuses as [? _]. }
  assert (Hnone : ~ In (EvFetch (url_of k)) (l1 ++ [] ++ l3)).
  { intros Hin. apply in_app_or in Hin as [?|Hin]; [contradiction|].
    cbn in Hin. contradiction. }
  destruct (Hset k Hk) as [(e' & _ & Ht & _ & [He'|Hin])
                          |(_ & (msg & Hin & [Hfetch|[_ ->]]) & Hd)];
    [congruence | contradiction | contradiction |].
  destruct (ticker_names k Htick) as [Hlabel _]. rewrite Hlabel in Hin.
  split; [exact Hin|]. now rewrite He in Hd.
Qed.

Lemma falsy_entry_is_treated_as_absent_witness :
  exists r w' l1 l2 l3,
    PriceService.fetchAllPrices env_up (world_quota_used (VNum 95000) (VNum 0)) = (Ok r, w')
    /\ cached r = false
    /\ trace (snd (entering env_up "STRD" (world_quota_used (VNum 95000) (VNum 0))))
       = (trace (world_quota_used (VNum 95000) (VNum 0)) ++ l1)%list
    /\ trace (snd (PriceService.fetchAndCachePrice env_up "STRD"
                     (snd (entering env_up "STRD" (world_quota_used (VNum 95000) (VNum 0))))))
       = (trace (snd (entering env_up "STRD" (world_quota_used (VNum 95000) (VNum 0))))
          ++ l2)%list
    /\ trace w' = (trace (world_quota_used (VNum 95000) (VNum 0)) ++ l1 ++ l2 ++ l3)%list
    /\ ~ In (EvFetch (url_of "STRD")) l1
    /\ ~ In (EvFetch (url_of "STRD")) l3
    /\ (if refuses env_up "STRD"
             (snd (entering env_up "STRD" (world_quota_used (VNum 95000) (VNum 0))))
        then l2 = []
             /\ In ("STRD" +:+ ": Polygon rate limit exceeded") (errors r)
             /\ obj_get "STRD" (data r)
                = Some (e_value (entry_expiring_at 1000000 (VNum 0)))
        else In (EvFetch (url_of "STRD")) l2).
Proof.
  apply (falsy_entry_is_treated_as_absent env_up
           (world_quota_used (VNum 95000) (VNum 0)) "STRD"
           (entry_expiring_at 1000000 (VNum 0))).
  - simpl. do 6 right. left. reflexivity.
  - vm_compute. reflexivity.
  - reflexivity.
Defined.

(** In the scenario above the limiter does refuse, and for the crypto key
    it never does. *)
Example limiter_refuses_in_the_scenario :
  refuses env_up "STRD"
    (snd (entering env_up "STRD" (world_quota_used (VNum 95000) (VNum 0)))) = true
  /\ refuses env_up "btc"
       (snd (entering env_up "btc" (world_all_cached (VNum 0) (quote 100)))) = false.
Proof. vm_compute. split; reflexivity. Qed.

(** ** Fallbacks *)

(** C6 (as stated, refuted). With every upstream unreachable and an empty
    cache, the market-data key [MSTR] receives [null], not a structured
    fallback; the four preferred tickers receive one. *)
Lemma mstr_fallback_is_null :
  let run := PriceService.fetchAllPrices env_down empty_world in
  exists r, fst run = Ok r
    /\ store (snd run) !! "MSTR" = None
    /\ obj_get "MSTR" (data r) = Some VNull
    /\ In "MSTR: unreachable" (errors r)
    /\ obj_get "STRF" (data r)
       = Some (VObj [("price", VNum 100); ("avg10d", VNum 100)]).
Proof.
  cbv zeta. eexists. split; [vm_compute; reflexivity|].
  split; [vm_compute; reflexivity|]. split; [reflexivity|].
  split; [cbn; tauto | reflexivity].
Qed.

(** C6 (amended). [fetchAllPrices] always returns, and every one of the seven
    keys is then present in [data].  A key that ends with neither a fresh
    fetch result nor a cache entry (the cache holds nothing for it when the
    call returns) carries its declared fallback and is listed in [errors]:
    100000 for [btc], 1.05 for [eurUsd], [null] for [MSTR], and the
    structured [{price: 100, avg10d: 100}] for [STRF], [STRC], [STRK] and
    [STRD]. *)
Theorem fallback_for_keys_without_value env w :
  exists r w',
    PriceService.fetchAllPrices env w = (Ok r, w')
    /\ (forall k, In k known_keys ->
          is_Some (obj_get k (data r))
          /\ (store w' !! k = None ->
              obj_get k (data r) = Some (fallback_of k)
              /\ exists msg, In (label_of k +:+ ": " +:+ msg) (errors r)))
    /\ fallback_of "btc" = VNum 100000
    /\ fallback_of "eurUsd" = VNum 1.05
    /\ fallback_of "MSTR" = VNull
    /\ (forall k, In k ["STRF"; "STRC"; "STRK"; "STRD"] ->
          fallback_of k = VObj [("price", VNum 100); ("avg10d", VNum 100)]).
Proof.
  destruct (fetchAllPrices_spec env w) as (r & w' & l & Hrun & _ & Hset & _).
  exists r, w'. split; [exact Hrun|]. split; [|repeat split].
  - intros k Hk.
    destruct (Hset k Hk) as [(e & He & _ & Hd & _)|(Hs & (msg & Hin & _) & Hd)].
    + split; [rewrite Hd; eauto|]. congruence.
    + split; [rewrite Hd; eauto|]. intros Hnone. rewrite Hnone in Hs.
      rewrite <- Hs in Hd. split; [exact Hd | now exists msg].
  - intros k [<-|[<-|[<-|[<-|[]]]]]; reflexivity.
Qed.
(** ** The [/api/prices/all] handler *)

Lemma getRemainingTTL_total env k w :
  exists ms w', Cache.getRemainingTTL env k w = (Ok ms, w').
Proof.
  unfold Cache.getRemainingTTL, bind, gets. destruct (store w !! k); cbn; eauto.
Qed.

Lemma ttls_of_total env : forall keys w,
  exists l w', Server.ttls_of env keys w = (Ok l, w').
Proof.
  induction keys as [|k keys IH]; intros w; cbn [Server.ttls_of].
  - unfold ret. eauto.
  - unfold bind at 1. destruct (getRemainingTTL_total env k w) as (ms & w1 & ->).
    unfold bind at 1. destruct (IH w1) as (l & w2 & ->). unfold ret. eauto.
Qed.

(** What the handler answers, by the outcome of the price service it
    awaits (after the optional cache clear). *)
Lemma handler_run env (fetchAll : M Results) (force : bool) w :
  let w0 := if force then with_store (fun _ => ∅) w else w in
  match fetchAll w0 with
  | (Ok r, _) =>
      exists md w',
        Server.pricesAllHandlerWith env fetchAll force w =
          (Ok {| statusCode :=
                   if partial r && (0 <? List.length (errors r))%nat then 207 else 200;
                 responseBody := PricesBody (data r) md (errors r) (successes r) |}, w')
        /\ m_cached md = cached r /\ m_partial md = partial r /\ m_stale md = stale r
        /\ degraded md = (3 <? List.length (errors r))%nat
  | (Throw (Thrown message), w1) =>
      Server.pricesAllHandlerWith env fetchAll force w =
        (Ok {| statusCode := 503;
               responseBody := ErrorBody "Service unavailable" message 60 |}, w1)
  | (Throw ThrownUndefined, _) =>
      exists t, fst (Server.pricesAllHandlerWith env fetchAll force w) = Throw t
  end.
Proof.
  cbv zeta.
  assert (Hclear : (if force then Cache.clear else ret tt) w
                   = (Ok tt, if force then with_store (fun _ => ∅) w else w))
    by (destruct force; reflexivity).
  destruct (fetchAll (if force then with_store (fun _ => ∅) w else w))
    as [[r|[message|]] w1] eqn:Hrun;
    unfold Server.pricesAllHandlerWith, try_catch; unfold bind at 1;
    rewrite Hclear; unfold bind at 1; rewrite Hrun.
  - unfold bind at 1. unfold Date_now at 1. unfold bind at 1.
    destruct (ttls_of_total env (obj_keys (data r)) (tick_clock w1)) as (l & w2 & ->).
    unfold ret. eexists _, w2. split; [reflexivity|]. repeat split.
  - reflexivity.
  - cbn. eauto.
Qed.

(** C9. [fetchAndCachePrice] never throws: for every key, every state and
    every behaviour of the upstreams it returns a result that names the key;
    a successful result carries the truthy value it has just written to
    the cache; a failed result carries an error message, leaves the cache as
    it was and carries the cached value with [stale = true] exactly when the
    cache has an entry for the key.  Consequently [fetchAllPrices] never
    throws and the handler of [/api/prices/all] answers 200 or 207, never
    503, whatever the upstreams do. *)
Theorem fetchAndCachePrice_never_throws env k w :
  (exists r w',
     PriceService.fetchAndCachePrice env k w = (Ok r, w')
     /\ key r = k
     /\ (if success r
         then exists e, store w' !! k = Some e /\ fr_value r = Some (e_value e)
                        /\ truthy (e_value e) = true
         else (exists msg, error r = Some msg)
              /\ store w' = store w
              /\ match store w !! k with
                 | Some e => fr_value r = Some (e_value e) /\ fr_stale r = true
                 | None => fr_value r = None /\ fr_stale r = false
                 end))
  /\ (exists r w', PriceService.fetchAllPrices env w = (Ok r, w'))
  /\ (forall force, exists resp w',
        Server.pricesAllHandler env force w = (Ok resp, w')
        /\ (statusCode resp = 200 \/ statusCode resp = 207)).
Proof.
  split; [|split].
  - destruct (fetchAndCachePrice_spec env k w)
      as (r & w' & l & Hrun & Hkey & _
          & [(Hsucc & e & Hval & Ht & Hstore & _)
            |(Hsucc & Hstore & (msg & Herr & _) & Hstale)]);
      exists r, w'; (split; [exact Hrun|]); (split; [exact Hkey|]); rewrite Hsucc.
    + exists e. rewrite Hstore. split; [apply lookup_insert_eq | now split].
    + split; [now exists msg|]. split; [exact Hstore|].
      destruct (store w !! k); injection Hstale as -> ->; now split.
  - apply fetchAllPrices_total.
  - intros force. unfold Server.pricesAllHandler.
    pose proof (handler_run env (PriceService.fetchAllPrices env) force w) as H.
    cbv zeta in H.
    destruct (fetchAllPrices_total env
                (if force then with_store (fun _ => ∅) w else w)) as (r & w1 & Hrun).
    rewrite Hrun in H. destruct H as (md & w' & Hresp & _).
    eexists _, w'. split; [exact Hresp|]. cbn [statusCode].
    destruct (_ && _); [now right | now left].
Qed.

(** C2 (as stated, refuted). With the crypto upstream unreachable and the
    others healthy, the response lists an error for [BTC] and is sent with
    status 200: [partial] is only set by the market-data keys. *)
Lemma error_listed_yet_status_200 :
  exists md w',
    Server.pricesAllHandler env_btc_down false empty_world =
      (Ok {| statusCode := 200;
             responseBody :=
               PricesBody
                 [("btc", VNum 100000); ("eurUsd", VNum 1.08);
                  ("MSTR", VObj [("price", VNum 420); ("volume", VNum 1000000);
                                 ("high", VNum 425); ("low", VNum 415)]);
                  ("STRF", VObj [("price", VNum 420); ("volume", VNum 1000000);
                                 ("high", VNum 425); ("low", VNum 415)]);
                  ("STRC", VObj [("price", VNum 420); ("volume", VNum 1000000);
                                 ("high", VNum 425); ("low", VNum 415)]);
                  ("STRK", VObj [("price", VNum 420); ("volume", VNum 1000000);
                                 ("high", VNum 425); ("low", VNum 415)]);
                  ("STRD", VObj [("price", VNum 420); ("volume", VNum 1000000);
                                 ("high", VNum 425); ("low", VNum 415)])]
                 md
                 ["BTC: unreachable"]
                 ["EUR/USD"; "MSTR"; "STRF"; "STRC"; "STRK"; "STRD"] |}, w')
    /\ m_partial md = false.
Proof. eexists _, _. split; [vm_compute; reflexivity | reflexivity]. Qed.

(** C2 (amended). The handler sets status 207 exactly when the result of
    the price service has [partial = true] and a non-empty [errors] list, and
    200 for every other result, in particular when there are no errors, but
    also when [errors] is non-empty and [partial] is false; it answers 503
    with body [{error, message, retryAfter}] exactly when the awaited price
    service raises an error. *)
Theorem handler_status env (fetchAll : M Results) (force : bool) w :
  let w0 := if force then with_store (fun _ => ∅) w else w in
  match fetchAll w0 with
  | (Ok r, _) =>
      exists resp w',
        Server.pricesAllHandlerWith env fetchAll force w = (Ok resp, w')
        /\ (exists md, responseBody resp
                       = PricesBody (data r) md (errors r) (successes r))
        /\ (statusCode resp = 207 <-> partial r = true /\ errors r <> [])
        /\ (statusCode resp = 200 <-> partial r = false \/ errors r = [])
        /\ (statusCode resp = 200 \/ statusCode resp = 207)
  | (Throw (Thrown message), _) =>
      exists w',
        Server.pricesAllHandlerWith env fetchAll force w =
          (Ok {| statusCode := 503;
                 responseBody := ErrorBody "Service unavailable" message 60 |}, w')
  | (Throw ThrownUndefined, _) =>
      exists t, fst (Server.pricesAllHandlerWith env fetchAll force w) = Throw t
  end.
Proof.
  cbv zeta. pose proof (handler_run env fetchAll force w) as H. cbv zeta in H.
  destruct (fetchAll _) as [[r|[message|]] w1].
  - destruct H as (md & w' & Hresp & _). eexists _, w'. split; [exact Hresp|].
    cbn [statusCode responseBody]. split; [now exists md|].
    destruct (partial r), (errors r) as [|err errs]; cbn;
      repeat split; try tauto; try discriminate; try lia;
      intuition (try discriminate; try lia).
  - now exists w1.
  - exact H.
Qed.

(** The repository's endpoint scenarios: a price service that rejects gives
    503 with the advertised retry delay; a partial result gives 207. *)
Example handler_answers_503_when_service_rejects :
  fst (Server.pricesAllHandlerWith env_frozen
         (throw (Thrown "All external APIs failed")) false empty_world)
  = Ok {| statusCode := 503;
          responseBody :=
            ErrorBody "Service unavailable" "All external APIs failed" 60 |}.
Proof. reflexivity. Qed.

Example handler_answers_207_on_partial_result :
  let canned :=
    {| data := [("btc", VNum 100000); ("mstr", VNull); ("eurUsd", VNum 1.05)];
       errors := ["MSTR: 429 Too Many Requests"];
       successes := ["BTC"; "EUR/USD"];
       cached := false; partial := true; stale := false |} in
  exists resp, fst (Server.pricesAllHandlerWith env_frozen (ret canned) false empty_world)
               = Ok resp
    /\ statusCode resp = 207.
Proof. cbv zeta. eexists. split; [vm_compute; reflexivity | reflexivity]. Qed.

(** * Further properties *)

(** ** Cache: round trips and edge behaviour *)

Lemma has_run env k w :
  Cache.has env k w =
    match store w !! k with
    | None => (Ok false, w)
    | Some e => (Ok (reading env w 0 <=? expiresAt e), tick_clock w)
    end.
Proof. unfold Cache.has, bind, gets. destruct (store w !! k); reflexivity. Qed.

Lemma getRemainingTTL_run env k w :
  Cache.getRemainingTTL env k w =
    match store w !! k with
    | None => (Ok 0, w)
    | Some e => (Ok (Z.max 0 (expiresAt e - reading env w 0)), tick_clock w)
    end.
Proof. unfold Cache.getRemainingTTL, bind, gets. destruct (store w !! k); reflexivity. Qed.

Lemma get_run env k w :
  Cache.get env k w =
    match store w !! k with
    | None => (Ok VNull, with_stats bump_misses w)
    | Some e =>
        if reading env w 0 >? expiresAt e
        then (Ok VNull, with_stats bump_misses (tick_clock w))
        else (Ok (e_value e), with_stats bump_hits (tick_clock w))
    end.
Proof.
  unfold Cache.get, bind, gets. destruct (store w !! k) as [e|]; [|reflexivity].
  unfold Date_now. destruct (_ >? _); reflexivity.
Qed.

(** X1. A value written by [set] is what [get] returns, counted as a hit,
    as long as the clock reading [get] takes is no later than [TTL_MIN]
    after the reading [set] took for the expiry. *)
Theorem set_then_get env w k v :
  (0 <= math_random env (randIdx w))%Q -> (math_random env (randIdx w) < 1)%Q ->
  reading env w 2 <= reading env w 0 + TTL_MIN CONFIG * 1000 ->
  let w1 := snd (Cache.set env k v w) in
  fst (Cache.get env k w1) = Ok v
  /\ hits (stats (snd (Cache.get env k w1))) = S (hits (stats w))
  /\ misses (stats (snd (Cache.get env k w1))) = misses (stats w)
  /\ sets (stats (snd (Cache.get env k w1))) = S (sets (stats w)).
Proof.
  intros H0 H1 Hclock. cbv zeta. rewrite set_run. cbn [snd].
  pose proof (drawn_ttl_in_range _ H0 H1) as Hb. cbv zeta in Hb.
  rewrite get_run. cbn [store with_stats with_store]. rewrite lookup_insert_eq.
  cbn [expiresAt e_value]. unfold reading in *.
  cbn [clockIdx slept with_stats with_store tick_clock tick_rand Nat.add] in *.
  match goal with |- context [?a >? ?b] =>
    assert ((a >? b) = false) as -> by (rewrite Z.gtb_ltb; apply Z.ltb_ge; lia) end.
  cbn. repeat split.
Qed.

Lemma set_then_get_witness :
  fst (Cache.get env_down "btc" (snd (Cache.set env_down "btc" (VNum 95000) empty_world)))
    = Ok (VNum 95000)
  /\ hits (stats (snd (Cache.get env_down "btc"
             (snd (Cache.set env_down "btc" (VNum 95000) empty_world))))) = 1%nat
  /\ misses (stats (snd (Cache.get env_down "btc"
             (snd (Cache.set env_down "btc" (VNum 95000) empty_world))))) = 0%nat
  /\ sets (stats (snd (Cache.get env_down "btc"
             (snd (Cache.set env_down "btc" (VNum 95000) empty_world))))) = 1%nat.
Proof.
  apply (set_then_get env_down empty_world "btc" (VNum 95000)).
  - vm_compute. discriminate.
  - vm_compute. reflexivity.
  - vm_compute. discriminate.
Defined.


(** X3. Reads never change the store: [get], [has], [getRaw] and
    [getRemainingTTL] leave every entry in place.  In particular a [get]
    that misses because the entry has expired returns [null], counts a miss
    and does not evict: [getRaw] still returns the entry afterwards. *)
Theorem reads_leave_store_alone env w k :
  store (snd (Cache.get env k w)) = store w
  /\ store (snd (Cache.has env k w)) = store w
  /\ store (snd (Cache.getRaw k w)) = store w
  /\ store (snd (Cache.getRemainingTTL env k w)) = store w
  /\ (forall e, store w !! k = Some e -> expiresAt e < reading env w 0 ->
        fst (Cache.get env k w) = Ok VNull
        /\ misses (stats (snd (Cache.get env k w))) = S (misses (stats w))
        /\ hits (stats (snd (Cache.get env k w))) = hits (stats w)
        /\ fst (Cache.getRaw k (snd (Cache.get env k w))) = Ok (Some e)).
Proof.
  rewrite get_run, has_run, getRemainingTTL_run.
  destruct (store w !! k) as [e|] eqn:He.
  - assert (Hstores : forall b : bool,
              store (snd (if b then (Ok VNull, with_stats bump_misses (tick_clock w))
                          else (Ok (e_value e), with_stats bump_hits (tick_clock w))))
              = store w) by (intros []; reflexivity).
    rewrite Hstores. repeat (split; [reflexivity|]).
    intros e' [= <-] Hexp.
    assert ((reading env w 0 >? expiresAt e) = true) as ->
      by (rewrite Z.gtb_ltb; apply Z.ltb_lt; lia).
    cbn. repeat (split; [reflexivity|]).
    unfold Cache.getRaw, gets. cbn. now rewrite He.
  - cbn. repeat (split; [reflexivity|]). discriminate.
Qed.

(** X4. At one clock reading [has], [get] and [getRemainingTTL] agree:
    [has] answers true exactly when [get] would count a hit and return the
    stored value, [getRemainingTTL] is never negative, it is 0 whenever
    [has] answers false and [expiresAt - now] whenever [has] answers true. *)
Theorem has_agrees_with_get env w k :
  exists b ms,
    fst (Cache.has env k w) = Ok b
    /\ fst (Cache.getRemainingTTL env k w) = Ok ms
    /\ 0 <= ms
    /\ (b = false ->
          ms = 0
          /\ fst (Cache.get env k w) = Ok VNull
          /\ misses (stats (snd (Cache.get env k w))) = S (misses (stats w))
          /\ hits (stats (snd (Cache.get env k w))) = hits (stats w))
    /\ (b = true ->
          exists e, store w !! k = Some e
            /\ ms = expiresAt e - reading env w 0
            /\ fst (Cache.get env k w) = Ok (e_value e)
            /\ hits (stats (snd (Cache.get env k w))) = S (hits (stats w))
            /\ misses (stats (snd (Cache.get env k w))) = misses (stats w)).
Proof.
  rewrite get_run, has_run, getRemainingTTL_run.
  destruct (store w !! k) as [e|].
  - destruct (reading env w 0 <=? expiresAt e) eqn:Hle.
    + apply Z.leb_le in Hle.
      assert ((reading env w 0 >? expiresAt e) = false) as ->
        by (rewrite Z.gtb_ltb; apply Z.ltb_ge; lia).
      eexists _, _. cbn. repeat split; try lia; try discriminate.
      intros _. exists e. repeat split. lia.
    + apply Z.leb_gt in Hle.
      assert ((reading env w 0 >? expiresAt e) = true) as ->
        by (rewrite Z.gtb_ltb; apply Z.ltb_lt; lia).
      eexists _, _. cbn. repeat split; try lia; discriminate.
  - eexists _, _. cbn. repeat split; try lia; discriminate.
Qed.


(** X5. [delete] removes the entry of its key and nothing else: it answers
    true exactly when the key had an entry, afterwards the key is absent for
    [getRaw] and [get], a second [delete] answers false, other keys keep
    their entries and the counters are not touched. *)
Theorem delete_removes_only_its_key env w k :
  let w1 := snd (Cache.delete k w) in
  (fst (Cache.delete k w) = Ok true <-> is_Some (store w !! k))
  /\ (fst (Cache.delete k w) = Ok false <-> store w !! k = None)
  /\ fst (Cache.getRaw k w1) = Ok None
  /\ fst (Cache.get env k w1) = Ok VNull
  /\ fst (Cache.delete k w1) = Ok false
  /\ (forall k', k' <> k -> store w1 !! k' = store w !! k')
  /\ stats w1 = stats w.
Proof.
  cbv zeta. unfold Cache.delete, bind, gets, modify, ret. cbn [fst snd].
  assert (Hgone : store (with_store (base.delete k) w) !! k = None)
    by (cbn; apply lookup_delete_eq).
  split; [|split; [|split; [|split; [|split; [|split]]]]].
  - split.
    + intros [= H]. now apply bool_decide_eq_true in H.
    + intros H. f_equal. now apply bool_decide_eq_true.
  - split.
    + intros [= H]. apply bool_decide_eq_false in H.
      destruct (store w !! k); [exfalso; apply H; eauto | reflexivity].
    + intros ->. reflexivity.
  - unfold Cache.getRaw, gets. cbn [fst]. now rewrite Hgone.
  - rewrite get_run, Hgone. reflexivity.
  - rewrite Hgone. reflexivity.
  - intros k' Hk. cbn. apply lookup_delete_ne. congruence.
  - reflexivity.
Qed.

(** X6. [clear] empties the store and keeps the counters: afterwards every
    key is a miss for [get] (which still counts it), [has] answers false,
    [getRemainingTTL] answers 0 and [getRaw] finds nothing; the rate
    limiter's ledgers are not touched. *)
Theorem clear_empties_the_store env w k :
  let w1 := snd (Cache.clear w) in
  store w1 = ∅
  /\ stats w1 = stats w
  /\ requests w1 = requests w
  /\ fst (Cache.get env k w1) = Ok VNull
  /\ misses (stats (snd (Cache.get env k w1))) = S (misses (stats w))
  /\ fst (Cache.has env k w1) = Ok false
  /\ fst (Cache.getRemainingTTL env k w1) = Ok 0
  /\ fst (Cache.getRaw k w1) = Ok None.
Proof.
  cbv zeta. unfold Cache.clear, modify. cbn [snd].
  assert (Hnone : store (with_store (fun _ => ∅) w) !! k = None)
    by (cbn; apply lookup_empty).
  rewrite get_run, has_run, getRemainingTTL_run, Hnone.
  unfold Cache.getRaw, gets. cbn [fst]. rewrite Hnone. repeat split.
Qed.

(** ** Cache: what any sequence of calls preserves *)

Lemma run_op_stats env op w :
  exists w',
    run_op env op w = (Ok tt, w')
    /\ (hits (stats w') + misses (stats w')
        = hits (stats w) + misses (stats w) + (if is_get op then 1 else 0))%nat
    /\ sets (stats w') = (sets (stats w) + (if is_set op then 1 else 0))%nat.
Proof.
  destruct op as [k v|k|k|k|k|k|]; cbn [run_op is_get is_set].
  - rewrite set_run. eexists. split; [reflexivity|]. cbn. lia.
  - unfold bind. rewrite get_run. destruct (store w !! k) as [e|].
    + destruct (_ >? _); eexists; (split; [reflexivity|]); cbn; lia.
    + eexists. split; [reflexivity|]. cbn. lia.
  - eexists. split; [reflexivity|]. cbn. lia.
  - unfold bind. rewrite has_run. destruct (store w !! k);
      eexists; (split; [reflexivity|]); cbn; lia.
  - unfold bind. rewrite getRemainingTTL_run. destruct (store w !! k);
      eexists; (split; [reflexivity|]); cbn; lia.
  - eexists. split; [reflexivity|]. cbn. lia.
  - eexists. split; [reflexivity|]. cbn. lia.
Qed.

(** X7. Hit accounting.  No sequence of cache calls throws, and after it
    [hits + misses] has grown by the number of [get] calls and [sets] by
    the number of [set] calls: [has], [getRaw], [getRemainingTTL],
    [delete] and [clear] count nothing and reset nothing. *)
Theorem counters_count_the_calls env : forall ops w,
  exists w',
    run_ops env ops w = (Ok tt, w')
    /\ (hits (stats w') + misses (stats w')
        = hits (stats w) + misses (stats w) + List.length (List.filter is_get ops))%nat
    /\ sets (stats w') = (sets (stats w) + List.length (List.filter is_set ops))%nat.
Proof.
  induction ops as [|op ops IH]; intros w.
  - exists w. cbn. split; [reflexivity|]. lia.
  - cbn [run_ops]. unfold bind at 1.
    destruct (run_op_stats env op w) as (w1 & -> & Hh & Hs).
    destruct (IH w1) as (w' & Hrun & Hh' & Hs').
    exists w'. split; [exact Hrun|]. cbn [List.filter].
    destruct (is_get op), (is_set op); cbn [List.length]; lia.
Qed.

Lemma run_op_lifetimes env slack op w :
  (forall n, (0 <= math_random env n)%Q /\ (math_random env n < 1)%Q) ->
  List.Forall (fun p => 0 <= snd p - fst p <= slack) (set_readings env [op] w) ->
  lifetimes_within slack w ->
  lifetimes_within slack (snd (run_op env op w)).
Proof.
  intros Hrand Hclock Hinv.
  destruct op as [k v|k|k|k|k|k|]; cbn [run_op].
  - cbn [set_readings app] in Hclock. apply List.Forall_inv in Hclock.
    cbn [fst snd] in Hclock.
    rewrite set_run. cbn [snd]. intros k' e.
    cbn [store with_stats with_store tick_clock tick_rand].
    destruct (decide (k = k')) as [<-|Hne].
    + rewrite lookup_insert_eq.
      match goal with |- Some ?e0 = Some e -> _ =>
        assert (Hbound : TTL_MIN CONFIG * 1000 - slack
                         <= expiresAt e0 - createdAt e0 <= TTL_MAX CONFIG * 1000)
      end.
      { cbn [expiresAt createdAt].
        destruct (Hrand (randIdx w)) as [H0 H1].
        pose proof (drawn_ttl_in_range _ H0 H1) as Hb. cbv zeta in Hb. lia. }
      intros [= <-]. exact Hbound.
    + rewrite lookup_insert_ne by exact Hne. apply Hinv.
  - unfold bind. rewrite get_run. destruct (store w !! k) as [e|] eqn:He.
    + destruct (_ >? _); exact Hinv.
    + exact Hinv.
  - exact Hinv.
  - unfold bind. rewrite has_run. destruct (store w !! k); exact Hinv.
  - unfold bind. rewrite getRemainingTTL_run. destruct (store w !! k); exact Hinv.
  - intros k' e. cbn. destruct (decide (k = k')) as [<-|Hne].
    + rewrite lookup_delete_eq. discriminate.
    + rewrite lookup_delete_ne by exact Hne. apply Hinv.
  - intros k' e. cbn. rewrite lookup_empty. discriminate.
Qed.

(** X8. TTL bounds as the code keeps them.  When every draw of
    [Math.random] lies in [0, 1) and, in each [set] call of a sequence of
    cache calls, the clock reading taken for [createdAt] is at most [slack]
    milliseconds after the one taken for [expiresAt] and not before it,
    then a store whose entries all have [expiresAt - createdAt] between
    [TTL_MIN] less [slack] and [TTL_MAX] (the empty store, say) still has
    only such entries after the sequence;
    nothing is assumed about the clock between the calls.  With a clock that
    stands still during each [set] ([slack = 0]) that is exactly the interval
    from [TTL_MIN] to [TTL_MAX]. *)
Theorem lifetimes_stay_within_bounds env slack : forall ops w,
  (forall n, (0 <= math_random env n)%Q /\ (math_random env n < 1)%Q) ->
  List.Forall (fun p => 0 <= snd p - fst p <= slack) (set_readings env ops w) ->
  lifetimes_within slack w ->
  lifetimes_within slack (snd (run_ops env ops w)).
Proof.
  induction ops as [|op ops IH]; intros w Hrand Hclock Hinv.
  - exact Hinv.
  - cbn [set_readings] in Hclock. apply List.Forall_app in Hclock as [Hop Hrest].
    cbn [run_ops]. unfold bind.
    assert (Hstep : lifetimes_within slack (snd (run_op env op w))).
    { apply run_op_lifetimes; [exact Hrand| |exact Hinv].
      cbn [set_readings]. rewrite app_nil_r. exact Hop. }
    destruct (run_op_stats env op w) as (w1 & Hrun & _).
    rewrite Hrun in *. cbn [snd] in Hstep, Hrest. now apply IH.
Qed.

Lemma lifetimes_stay_within_bounds_witness :
  lifetimes_within 0
    (snd (run_ops env_between_calls
            [OpSet "btc" (VNum 95000); OpGet "eurUsd"; OpSet "btc" (VNum 96000);
             OpDelete "eurUsd"; OpSet "MSTR" (VNum 420)]
            empty_world)).
Proof.
  apply (lifetimes_stay_within_bounds env_between_calls 0).
  - intros n. split; vm_compute; [discriminate | reflexivity].
  - vm_compute. repeat constructor; discriminate.
  - intros k e. vm_compute. discriminate.
Defined.

(** In that scenario the clock does advance between the calls: the three
    [set] calls read it at 1000, 11000 and 21000 ms. *)
Example clock_advances_between_the_calls :
  set_readings env_between_calls
    [OpSet "btc" (VNum 95000); OpGet "eurUsd"; OpSet "btc" (VNum 96000);
     OpDelete "eurUsd"; OpSet "MSTR" (VNum 420)]
    empty_world
  = [(1000, 1000); (11000, 11000); (21000, 21000)].
Proof. vm_compute. reflexivity. Qed.

(** ** Rate limiter: the sliding window *)

Lemma retained_In now l ts :
  In ts (retained now l)
  <-> In ts l /\ now - ts < RATE_LIMIT_WINDOW CONFIG * 1000.
Proof. unfold retained. rewrite filter_In, Z.ltb_lt. reflexivity. Qed.

Lemma retained_length now l :
  (List.length (retained now l) <= List.length l)%nat.
Proof.
  unfold retained. induction l as [|a l IH]; [apply Nat.le_refl|].
  cbn [List.filter]. destruct (_ <? _); cbn [List.length]; lia.
Qed.

Lemma ledger_other apiName other l w :
  other <> apiName ->
  ledger (with_requests (insert apiName l) w) other = ledger w other.
Proof.
  intros Hne. unfold ledger. cbn [requests with_requests].
  rewrite lookup_insert_ne by congruence. reflexivity.
Qed.

(** X9. The window is half open.  The cleanup every limiter call starts
    with leaves in the ledger exactly the timestamps strictly younger than
    [RATE_LIMIT_WINDOW] seconds at its clock reading, in their order and
    with their repetitions (one that is exactly that old is dropped), and
    [canMakeRequest] answers by the number kept; so once every recorded
    request is at least a window old the ledger is empty again and any
    positive limit admits the next request. *)
Theorem window_is_half_open env w apiName (lim : Z) :
  let now := reading env w 0 in
  let windowMs := RATE_LIMIT_WINDOW CONFIG * 1000 in
  let w' := snd (RateLimiter.canMakeRequest env apiName lim w) in
  ledger w' apiName
    = List.filter (fun ts => now - windowMs <? ts) (ledger w apiName)
  /\ (forall ts, In ts (ledger w' apiName)
                 <-> In ts (ledger w apiName) /\ now - windowMs < ts)
  /\ (List.length (ledger w' apiName) <= List.length (ledger w apiName))%nat
  /\ fst (RateLimiter.canMakeRequest env apiName lim w)
     = Ok (Z.of_nat (List.length
             (List.filter (fun ts => now - windowMs <? ts) (ledger w apiName))) <? lim)
  /\ ((forall ts, In ts (ledger w apiName) -> ts <= now - windowMs) ->
      ledger w' apiName = []
      /\ fst (RateLimiter.canMakeRequest env apiName lim w) = Ok (0 <? lim)).
Proof.
  cbv zeta. pose proof (canMakeRequest_run env apiName lim w) as Hc. cbv zeta in Hc.
  rewrite Hc. cbn [fst snd]. rewrite ledger_after_insert.
  assert (Hkept : retained (reading env w 0) (ledger w apiName)
                  = List.filter
                      (fun ts => reading env w 0 - RATE_LIMIT_WINDOW CONFIG * 1000 <? ts)
                      (ledger w apiName)).
  { unfold retained. apply List.filter_ext. intros ts.
    destruct (reading env w 0 - ts <? RATE_LIMIT_WINDOW CONFIG * 1000) eqn:H1;
      destruct (reading env w 0 - RATE_LIMIT_WINDOW CONFIG * 1000 <? ts) eqn:H2;
      try reflexivity;
      [apply Z.ltb_lt in H1; apply Z.ltb_ge in H2
      |apply Z.ltb_ge in H1; apply Z.ltb_lt in H2]; lia. }
  split; [exact Hkept|]. split; [|split; [|split]].
  - intros ts. rewrite retained_In. split; intros [H1 H2]; (split; [exact H1 | lia]).
  - apply retained_length.
  - now rewrite Hkept.
  - intros Hold.
    assert (Hnil : retained (reading env w 0) (ledger w apiName) = []).
    { destruct (retained _ _) as [|ts rest] eqn:Hk; [reflexivity|].
      assert (Hin : In ts (retained (reading env w 0) (ledger w apiName)))
        by (rewrite Hk; now left).
      apply retained_In in Hin. destruct Hin as [Hin Hlt].
      specialize (Hold ts Hin). lia. }
    rewrite Hnil. split; reflexivity.
Qed.

(** X10. A limiter call on one upstream changes nothing but that
    upstream's ledger: the ledgers of all other upstreams, the cache and its
    counters stay as they were, and no upstream is contacted. *)
Theorem limiter_touches_only_its_ledger env w apiName (lim : Z) :
  List.Forall
    (fun w' =>
       store w' = store w /\ stats w' = stats w
       /\ trace w' = trace w /\ callIdx w' = callIdx w /\ randIdx w' = randIdx w
       /\ forall other, other <> apiName ->
            requests w' !! other = requests w !! other)
    [snd (RateLimiter.canMakeRequest env apiName lim w);
     snd (RateLimiter.recordRequest env apiName w);
     snd (RateLimiter.getUsage env apiName lim w)].
Proof.
  pose proof (canMakeRequest_run env apiName lim w) as Hc.
  pose proof (recordRequest_run env apiName w) as Hr.
  pose proof (getUsage_run env apiName lim w) as Hu. cbv zeta in Hc, Hr, Hu.
  rewrite Hc, Hr, Hu. cbn [snd].
  repeat (apply List.Forall_cons || apply List.Forall_nil);
    (repeat (split; [reflexivity|]); intros other Hne; cbn;
     rewrite lookup_insert_ne by congruence; reflexivity).
Qed.

(** X11. [reset] forgets every upstream's requests and nothing else: the
    cache and its counters are kept, and right afterwards every upstream
    has an empty ledger, is admitted under any positive limit and reports
    [used = 0], [remaining = max(0, limit)] and a [resetIn] of the whole
    window. *)
Theorem reset_forgets_every_ledger env w apiName (lim : Z) :
  let w1 := snd (RateLimiter.reset w) in
  fst (RateLimiter.reset w) = Ok tt
  /\ store w1 = store w /\ stats w1 = stats w
  /\ ledger w1 apiName = []
  /\ fst (RateLimiter.canMakeRequest env apiName lim w1) = Ok (0 <? lim)
  /\ fst (RateLimiter.getUsage env apiName lim w1)
     = Ok {| used := 0; limit := lim; remaining := Z.max 0 lim;
             resetIn := RATE_LIMIT_WINDOW CONFIG |}.
Proof.
  cbv zeta. unfold RateLimiter.reset, modify. cbn [fst snd].
  assert (Hl : ledger (with_requests (fun _ => ∅) w) apiName = [])
    by (unfold ledger; cbn; now rewrite lookup_empty).
  pose proof (canMakeRequest_run env apiName lim (with_requests (fun _ => ∅) w)) as Hc.
  pose proof (getUsage_run env apiName lim (with_requests (fun _ => ∅) w)) as Hu.
  cbv zeta in Hc, Hu. rewrite Hc, Hu, Hl. cbn [fst retained List.filter List.length].
  repeat (split; [reflexivity|]).
  rewrite Z.sub_diag, !Z.sub_0_r. reflexivity.
Qed.

(** X12. What [getUsage] reports is always in range: [used] and
    [remaining] are never negative and together cover the limit, exactly so
    while the limit is not exceeded; [resetIn] is never negative, it is at
    most [RATE_LIMIT_WINDOW] when no recorded timestamp lies after the
    second clock reading of the call, and at least one second when the
    clock does not move between the two readings. *)
Theorem usage_is_in_range env w apiName (lim : Z) :
  exists u,
    fst (RateLimiter.getUsage env apiName lim w) = Ok u
    /\ 0 <= used u /\ 0 <= remaining u /\ lim <= used u + remaining u
    /\ (used u <= lim -> used u + remaining u = lim)
    /\ 0 <= resetIn u
    /\ ((forall ts, In ts (ledger w apiName) -> ts <= reading env w 1) ->
        resetIn u <= RATE_LIMIT_WINDOW CONFIG)
    /\ (reading env w 1 = reading env w 0 -> 1 <= resetIn u).
Proof.
  pose proof (getUsage_run env apiName lim w) as Hu. cbv zeta in Hu.
  rewrite Hu. eexists. split; [reflexivity|]. cbn [fst used limit remaining resetIn].
  change (RATE_LIMIT_WINDOW CONFIG) with 60.
  assert (Hold :
            let oldest := match retained (reading env w 0) (ledger w apiName) with
                          | [] => reading env w 1
                          | t :: rest => min_of t rest
                          end in
            (retained (reading env w 0) (ledger w apiName) = []
             /\ oldest = reading env w 1)
            \/ (In oldest (ledger w apiName)
                /\ reading env w 0 - oldest < 60 * 1000)).
  { cbv zeta. destruct (retained _ _) as [|t rest] eqn:Hk; [now left|].
    right. destruct (min_of_spec rest t) as [Hin _].
    rewrite <- Hk in Hin. apply retained_In in Hin. exact Hin. }
  cbv zeta in Hold.
  remember (match retained (reading env w 0) (ledger w apiName) with
            | [] => reading env w 1
            | t :: rest => min_of t rest
            end) as oldest eqn:Ho. clear Ho Hu.
  pose proof (ceil_div1000_spec (60 * 1000 - (reading env w 1 - oldest))) as Hceil.
  split; [lia|]. split; [lia|]. split; [lia|]. split; [lia|]. split; [lia|]. split.
  - intros Hpast. destruct Hold as [[_ ->]|[Hin _]]; [lia|].
    specialize (Hpast oldest Hin). lia.
  - intros Hsame. destruct Hold as [[_ ->]|[_ Hlt]]; lia.
Qed.

(** X13. A request that is recorded after [canMakeRequest] has admitted it
    never takes the ledger over the limit, whatever the ledger held before
    and however the clock moved between the two calls. *)
Theorem admitted_request_stays_within_limit env w apiName (lim : Z) :
  fst (RateLimiter.canMakeRequest env apiName lim w) = Ok true ->
  let w1 := snd (RateLimiter.canMakeRequest env apiName lim w) in
  let w2 := snd (RateLimiter.recordRequest env apiName w1) in
  Z.of_nat (List.length (ledger w2 apiName)) <= lim.
Proof.
  pose proof (canMakeRequest_run env apiName lim w) as Hc. cbv zeta in Hc.
  rewrite Hc. cbn [fst snd]. intros [= Hlt]. apply Z.ltb_lt in Hlt.
  pose proof (recordRequest_run env apiName
    (with_requests (insert apiName (retained (reading env w 0) (ledger w apiName)))
       (tick_clock w))) as Hr.
  cbv zeta in Hr. rewrite Hr. cbn [snd]. rewrite !ledger_after_insert.
  rewrite length_app. cbn [List.length].
  pose proof (retained_length
    (reading env (with_requests
       (insert apiName (retained (reading env w 0) (ledger w apiName))) (tick_clock w)) 0)
    (retained (reading env w 0) (ledger w apiName))).
  lia.
Qed.

Lemma admitted_request_stays_within_limit_witness :
  Z.of_nat (List.length
    (ledger (snd (RateLimiter.recordRequest env_frozen "polygon"
               (snd (RateLimiter.canMakeRequest env_frozen "polygon" 5 empty_world))))
       "polygon")) <= 5.
Proof.
  apply (admitted_request_stays_within_limit env_frozen empty_world "polygon" 5).
  vm_compute. reflexivity.
Defined.

(** ** Price service: what one key costs *)

Lemma backoff_loop_calls_pos url fetchFn n :
  one_request url fetchFn ->
  forall rem a lastError w,
    (0 < rem)%nat ->
    (callIdx w < callIdx (snd (PriceService.backoff_loop fetchFn n rem a lastError w)))%nat.
Proof.
  intros Hone [|rem] a lastError w Hrem; [lia|].
  cbn [PriceService.backoff_loop]. unfold try_catch.
  pose proof (Hone w) as Hw. destruct (fetchFn w) as [[v|t] w1]; cbn [snd] in *; subst w1.
  - cbn. lia.
  - unfold bind.
    destruct (Z.of_nat a <? Z.of_nat n - 1); unfold PriceService.sleep, modify, ret.
    + pose proof (backoff_loop_calls url fetchFn n Hone rem (S a) t
                    (record_sleep (BASE_DELAY CONFIG * 2 ^ Z.of_nat a)
                       (record_fetch url w))) as H.
      cbn [record_sleep record_fetch callIdx] in H. lia.
    + pose proof (backoff_loop_calls url fetchFn n Hone rem (S a) t
                    (record_fetch url w)) as H.
      cbn [record_fetch callIdx] in H. lia.
Qed.

Lemma fetchWithBackoff_frame url fetchFn w :
  adapter url fetchFn ->
  exists o w',
    PriceService.fetchWithBackoff fetchFn (MAX_RETRIES CONFIG) w = (o, w')
    /\ quiet w w'
    /\ (callIdx w < callIdx w' <= callIdx w + MAX_RETRIES CONFIG)%nat
    /\ match o with
       | Ok v => truthy v = true
       | Throw t => t <> ThrownUndefined
       end.
Proof.
  intros Had. assert (Hn : (0 < MAX_RETRIES CONFIG)%nat) by (cbn; lia).
  destruct (fetchWithBackoff_facts url fetchFn _ w Had Hn)
    as (o & w' & l & Hrun & Hq & _ & _ & Ho).
  exists o, w'. split; [exact Hrun|]. split; [exact Hq|]. split; [|exact Ho].
  destruct Had as [Hone _].
  pose proof (backoff_loop_calls url fetchFn (MAX_RETRIES CONFIG) Hone
                (MAX_RETRIES CONFIG) 0%nat ThrownUndefined w) as Hle.
  pose proof (backoff_loop_calls_pos url fetchFn (MAX_RETRIES CONFIG) Hone
                (MAX_RETRIES CONFIG) 0%nat ThrownUndefined w Hn) as Hlt.
  unfold PriceService.fetchWithBackoff in Hrun. rewrite Hrun in Hle, Hlt.
  cbn [snd] in Hle, Hlt. lia.
Qed.

Lemma fetch_value_ledger env key w :
  let kept := retained (reading env w 0) (ledger w "polygon") in
  exists o w1,
    (if String.eqb key "btc" then
       PriceService.fetchWithBackoff (PriceService.fetchBtcPrice env) (MAX_RETRIES CONFIG)
     else if String.eqb key "eurUsd" then
       PriceService.fetchWithBackoff (PriceService.fetchEurUsdRate env) (MAX_RETRIES CONFIG)
     else
       let* allowed :=
         RateLimiter.canMakeRequest env "polygon" (POLYGON_RATE_LIMIT CONFIG) in
       if negb allowed then throw (Thrown "Polygon rate limit exceeded") else
       RateLimiter.recordRequest env "polygon" ;;;
       PriceService.fetchWithBackoff (PriceService.fetchPolygonPrice env key)
         (MAX_RETRIES CONFIG)) w = (o, w1)
    /\ store w1 = store w /\ stats w1 = stats w /\ randIdx w1 = randIdx w
    /\ match o with Ok v => truthy v = true | Throw t => t <> ThrownUndefined end
    /\ (forall other, other <> "polygon" -> requests w1 !! other = requests w !! other)
    /\ (is_ticker key = false ->
        requests w1 = requests w
        /\ (callIdx w < callIdx w1 <= callIdx w + MAX_RETRIES CONFIG)%nat)
    /\ (is_ticker key = true ->
        if Z.of_nat (List.length kept) <? POLYGON_RATE_LIMIT CONFIG
        then ledger w1 "polygon"
             = (retained (reading env w 1) kept ++ [reading env w 2])%list
             /\ (callIdx w < callIdx w1 <= callIdx w + MAX_RETRIES CONFIG)%nat
        else o = Throw (Thrown "Polygon rate limit exceeded")
             /\ ledger w1 "polygon" = kept
             /\ callIdx w1 = callIdx w /\ trace w1 = trace w /\ slept w1 = slept w).
Proof.
  cbv zeta.
  assert (Hhead : forall url fetchFn,
            adapter url fetchFn -> is_ticker key = false ->
            exists o w1,
              PriceService.fetchWithBackoff fetchFn (MAX_RETRIES CONFIG) w = (o, w1)
              /\ store w1 = store w /\ stats w1 = stats w /\ randIdx w1 = randIdx w
              /\ match o with Ok v => truthy v = true | Throw t => t <> ThrownUndefined end
              /\ (forall other, other <> "polygon" ->
                    requests w1 !! other = requests w !! other)
              /\ (is_ticker key = false ->
                  requests w1 = requests w
                  /\ (callIdx w < callIdx w1 <= callIdx w + MAX_RETRIES CONFIG)%nat)
              /\ (is_ticker key = true ->
                  if Z.of_nat (List.length
                       (retained (reading env w 0) (ledger w "polygon")))
                     <? POLYGON_RATE_LIMIT CONFIG
                  then ledger w1 "polygon"
                       = (retained (reading env w 1)
                            (retained (reading env w 0) (ledger w "polygon"))
                          ++ [reading env w 2])%list
                       /\ (callIdx w < callIdx w1 <= callIdx w + MAX_RETRIES CONFIG)%nat
                  else o = Throw (Thrown "Polygon rate limit exceeded")
                       /\ ledger w1 "polygon"
                          = retained (reading env w 0) (ledger w "polygon")
                       /\ callIdx w1 = callIdx w /\ trace w1 = trace w
                       /\ slept w1 = slept w)).
  { intros url fetchFn Had Hnot.
    destruct (fetchWithBackoff_frame url fetchFn w Had)
      as (o & w1 & Hrun & (Hq1 & Hq2 & Hq3 & Hq4 & Hq5) & Hcalls & Ho).
    exists o, w1. split; [exact Hrun|]. repeat (split; [assumption|]).
    split; [intros other _; now rewrite Hq3|].
    split; [intros _; split; assumption|]. intros Hyes. congruence. }
  destruct (String.eqb key "btc") eqn:Hbtc.
  - apply (Hhead _ _ (fetchBtcPrice_adapter env)). unfold is_ticker. now rewrite Hbtc.
  - destruct (String.eqb key "eurUsd") eqn:Heur.
    + apply (Hhead _ _ (fetchEurUsdRate_adapter env)). unfold is_ticker.
      rewrite Hbtc, Heur. reflexivity.
    + clear Hhead.
      assert (Htick : is_ticker key = true) by (unfold is_ticker; now rewrite Hbtc, Heur).
      unfold bind at 1.
      pose proof (canMakeRequest_run env "polygon" (POLYGON_RATE_LIMIT CONFIG) w) as Hc.
      cbv zeta in Hc. rewrite Hc. clear Hc.
      destruct (Z.of_nat _ <? POLYGON_RATE_LIMIT CONFIG) eqn:Hlt; cbn [negb].
      * unfold bind at 1.
        match goal with |- context [RateLimiter.recordRequest env "polygon" ?w0] =>
          pose proof (recordRequest_run env "polygon" w0) as Hr; cbv zeta in Hr;
          rewrite Hr; clear Hr end.
        rewrite ledger_after_insert.
        match goal with |- context [PriceService.fetchWithBackoff _ _ ?w0] =>
          destruct (fetchWithBackoff_frame _ _ w0 (fetchPolygonPrice_adapter env key))
            as (o & w1 & Hrun & (Hq1 & Hq2 & Hq3 & Hq4 & Hq5) & Hcalls & Ho)
        end.
        exists o, w1. split; [exact Hrun|].
        split; [rewrite Hq1; reflexivity|]. split; [rewrite Hq2; reflexivity|].
        split; [rewrite Hq5; reflexivity|]. split; [exact Ho|].
        split.
        { intros other Hne. rewrite Hq3. cbn.
          rewrite !lookup_insert_ne by congruence. reflexivity. }
        split; [intros Hno; congruence|]. intros _.
        split.
        { unfold ledger at 1. rewrite Hq3. cbn. rewrite lookup_insert_eq. reflexivity. }
        cbn in Hcalls. cbn. lia.
      * eexists _, _. split; [reflexivity|]. cbn [store stats randIdx with_requests tick_clock].
        repeat (split; [reflexivity|]). split; [discriminate|].
        split.
        { intros other Hne. cbn. rewrite lookup_insert_ne by congruence. reflexivity. }
        split; [intros Hno; congruence|]. intros _.
        split; [reflexivity|]. split; [apply ledger_after_insert|]. repeat split.
Qed.

Lemma fetchAndCachePrice_ledger env k w :
  let kept := retained (reading env w 0) (ledger w "polygon") in
  exists r w',
    PriceService.fetchAndCachePrice env k w = (Ok r, w')
    /\ (forall other, other <> "polygon" -> requests w' !! other = requests w !! other)
    /\ (is_ticker k = false ->
        requests w' = requests w
        /\ (callIdx w < callIdx w' <= callIdx w + MAX_RETRIES CONFIG)%nat)
    /\ (is_ticker k = true ->
        if Z.of_nat (List.length kept) <? POLYGON_RATE_LIMIT CONFIG
        then ledger w' "polygon"
             = (retained (reading env w 1) kept ++ [reading env w 2])%list
             /\ (callIdx w < callIdx w' <= callIdx w + MAX_RETRIES CONFIG)%nat
        else ledger w' "polygon" = kept
             /\ callIdx w' = callIdx w /\ trace w' = trace w /\ slept w' = slept w
             /\ store w' = store w /\ stats w' = stats w
             /\ success r = false
             /\ error r = Some "Polygon rate limit exceeded"
             /\ (fr_value r, fr_stale r)
                = match store w !! k with
                  | Some e => (Some (e_value e), true)
                  | None => (None, false)
                  end).
Proof.
  cbv zeta. unfold PriceService.fetchAndCachePrice, try_catch. unfold bind at 1.
  destruct (fetch_value_ledger env k w)
    as (o & w1 & Hrun & Hs & Hst & Hrd & Ho & Hother & Hhead & Htick).
  cbv zeta in Htick. rewrite Hrun. destruct o as [v|t].
  - unfold bind at 1. rewrite set_run. cbn [ret].
    eexists _, _. split; [reflexivity|].
    cbn [requests callIdx with_stats with_store tick_clock tick_rand].
    split; [exact Hother|]. split; [exact Hhead|]. intros Hk. specialize (Htick Hk).
    destruct (Z.of_nat _ <? POLYGON_RATE_LIMIT CONFIG).
    + exact Htick.
    + destruct Htick as [Habs _]. discriminate.
  - destruct t as [msg|]; [|contradiction]. cbn [error_message]. unfold bind, ret at 1.
    unfold Cache.getRaw, gets. rewrite Hs.
    destruct (store w !! k) as [e|] eqn:He;
      (eexists _, _; split; [reflexivity|]; split; [exact Hother|];
       split; [exact Hhead|]; intros Hk; specialize (Htick Hk);
       destruct (Z.of_nat _ <? POLYGON_RATE_LIMIT CONFIG);
       [ exact Htick
       | destruct Htick as ([= ->] & Hl & Hc & Ht & Hsl);
         repeat (split; [first [assumption | reflexivity]|]); reflexivity ]).
Qed.

(** X14. A ticker the limiter refuses costs nothing: when the cleanup
    leaves [POLYGON_RATE_LIMIT] or more timestamps, [fetchAndCachePrice]
    returns a failure with the message "Polygon rate limit exceeded",
    carrying whatever the cache holds for the key as a stale value, without
    any upstream request, sleep or cache write, and without recording a
    timestamp. *)
Theorem refused_ticker_makes_no_request env w k :
  is_ticker k = true ->
  POLYGON_RATE_LIMIT CONFIG
    <= Z.of_nat (List.length (retained (reading env w 0) (ledger w "polygon"))) ->
  exists r w',
    PriceService.fetchAndCachePrice env k w = (Ok r, w')
    /\ success r = false
    /\ error r = Some "Polygon rate limit exceeded"
    /\ (fr_value r, fr_stale r)
       = match store w !! k with
         | Some e => (Some (e_value e), true)
         | None => (None, false)
         end
    /\ trace w' = trace w /\ callIdx w' = callIdx w /\ slept w' = slept w
    /\ store w' = store w /\ stats w' = stats w
    /\ ledger w' "polygon" = retained (reading env w 0) (ledger w "polygon").
Proof.
  intros Hk Hfull.
  destruct (fetchAndCachePrice_ledger env k w) as (r & w' & Hrun & _ & _ & Htick).
  cbv zeta in Htick. specialize (Htick Hk).
  assert ((Z.of_nat (List.length (retained (reading env w 0) (ledger w "polygon")))
           <? POLYGON_RATE_LIMIT CONFIG) = false) as Hlt by (apply Z.ltb_ge; exact Hfull).
  rewrite Hlt in Htick. destruct Htick as (H1 & H2 & H3 & H4 & H5 & H6 & H7 & H8 & H9).
  exists r, w'. repeat (split; [assumption|]). assumption.
Qed.

Lemma refused_ticker_makes_no_request_witness :
  exists r w',
    PriceService.fetchAndCachePrice env_up "STRD"
      (world_quota_used (VNum 95000) (VNum 0)) = (Ok r, w')
    /\ success r = false
    /\ error r = Some "Polygon rate limit exceeded"
    /\ (fr_value r, fr_stale r)
       = match store (world_quota_used (VNum 95000) (VNum 0)) !! "STRD" with
         | Some e => (Some (e_value e), true)
         | None => (None, false)
         end
    /\ trace w' = trace (world_quota_used (VNum 95000) (VNum 0))
    /\ callIdx w' = callIdx (world_quota_used (VNum 95000) (VNum 0))
    /\ slept w' = slept (world_quota_used (VNum 95000) (VNum 0))
    /\ store w' = store (world_quota_used (VNum 95000) (VNum 0))
    /\ stats w' = stats (world_quota_used (VNum 95000) (VNum 0))
    /\ ledger w' "polygon"
       = retained (reading env_up (world_quota_used (VNum 95000) (VNum 0)) 0)
           (ledger (world_quota_used (VNum 95000) (VNum 0)) "polygon").
Proof.
  apply (refused_ticker_makes_no_request env_up
           (world_quota_used (VNum 95000) (VNum 0)) "STRD").
  - reflexivity.
  - vm_compute. discriminate.
Defined.

(** X15. The quota counts calls, not requests.  An admitted ticker is
    charged one timestamp, taken before the first attempt, however many of
    the up to [MAX_RETRIES] upstream requests its retry loop then makes and
    whether or not it succeeds; the ledgers of other upstreams are not
    touched. *)
Theorem retries_are_charged_once env w k :
  is_ticker k = true ->
  Z.of_nat (List.length (retained (reading env w 0) (ledger w "polygon")))
    < POLYGON_RATE_LIMIT CONFIG ->
  exists r w',
    PriceService.fetchAndCachePrice env k w = (Ok r, w')
    /\ ledger w' "polygon"
       = (retained (reading env w 1) (retained (reading env w 0) (ledger w "polygon"))
          ++ [reading env w 2])%list
    /\ (callIdx w < callIdx w' <= callIdx w + MAX_RETRIES CONFIG)%nat
    /\ (forall other, other <> "polygon" -> requests w' !! other = requests w !! other).
Proof.
  intros Hk Hroom.
  destruct (fetchAndCachePrice_ledger env k w) as (r & w' & Hrun & Hother & _ & Htick).
  cbv zeta in Htick. specialize (Htick Hk).
  assert ((Z.of_nat (List.length (retained (reading env w 0) (ledger w "polygon")))
           <? POLYGON_RATE_LIMIT CONFIG) = true) as Hlt by (apply Z.ltb_lt; exact Hroom).
  rewrite Hlt in Htick. destruct Htick as [Hl Hc].
  exists r, w'. repeat (split; [assumption|]). assumption.
Qed.

Lemma retries_are_charged_once_witness :
  exists r w',
    PriceService.fetchAndCachePrice env_down "MSTR" empty_world = (Ok r, w')
    /\ ledger w' "polygon"
       = (retained (reading env_down empty_world 1)
            (retained (reading env_down empty_world 0) (ledger empty_world "polygon"))
          ++ [reading env_down empty_world 2])%list
    /\ (callIdx empty_world < callIdx w' <= callIdx empty_world + MAX_RETRIES CONFIG)%nat
    /\ (forall other, other <> "polygon" ->
          requests w' !! other = requests empty_world !! other).
Proof.
  apply (retries_are_charged_once env_down empty_world "MSTR").
  - reflexivity.
  - vm_compute. reflexivity.
Defined.

(** X16. The two head keys bypass the limiter: fetching [btc] or [eurUsd]
    leaves every ledger as it was, whatever the polygon quota, and makes
    between one and [MAX_RETRIES] upstream requests. *)
Theorem head_keys_bypass_the_limiter env w :
  forall k, k = "btc" \/ k = "eurUsd" ->
  exists r w',
    PriceService.fetchAndCachePrice env k w = (Ok r, w')
    /\ requests w' = requests w
    /\ (callIdx w < callIdx w' <= callIdx w + MAX_RETRIES CONFIG)%nat.
Proof.
  intros k Hk.
  destruct (fetchAndCachePrice_ledger env k w) as (r & w' & Hrun & _ & Hhead & _).
  exists r, w'. split; [exact Hrun|]. apply Hhead. now destruct Hk as [-> | ->].
Qed.

Lemma head_keys_bypass_the_limiter_witness :
  exists r w',
    PriceService.fetchAndCachePrice env_up "btc"
      (world_quota_used (VNum 0) (VNum 0)) = (Ok r, w')
    /\ requests w' = requests (world_quota_used (VNum 0) (VNum 0))
    /\ (callIdx (world_quota_used (VNum 0) (VNum 0)) < callIdx w'
        <= callIdx (world_quota_used (VNum 0) (VNum 0)) + MAX_RETRIES CONFIG)%nat.
Proof.
  apply (head_keys_bypass_the_limiter env_up (world_quota_used (VNum 0) (VNum 0)) "btc").
  left. reflexivity.
Defined.

(** X17. How a market-data reply becomes a quote.  For an OK reply whose
    JSON object has [status] "OK" and a [results] array with at least
    one row, [fetchPolygonPrice] makes its one request and looks at the
    first row only.  When that row is [null] (or [undefined]) the call
    throws an [Error]; otherwise it returns the object whose [price],
    [volume], [high] and [low] are the row's [c], [v], [h] and [l]: a field
    the row lacks, and every field of a row that is not an object, is
    [undefined] in the quote, which is returned all the same; further rows
    and fields are ignored. *)
Theorem polygon_quote_is_read_from_first_row env w ticker r top first rest :
  upstream env (callIdx w) (PriceService.polygon_url ticker) = Reply r ->
  ok r = true ->
  body r = Json (VObj top) ->
  obj_get "status" top = Some (VStr "OK") ->
  obj_get "results" top = Some (VArr (first :: rest)) ->
  snd (PriceService.fetchPolygonPrice env ticker w)
    = record_fetch (PriceService.polygon_url ticker) w
  /\ (first = VNull \/ first = VUndefined ->
      exists message,
        fst (PriceService.fetchPolygonPrice env ticker w) = Throw (Thrown message))
  /\ (first <> VNull -> first <> VUndefined ->
      fst (PriceService.fetchPolygonPrice env ticker w)
      = Ok (VObj [("price", PriceService.opt_member first "c");
                  ("volume", PriceService.opt_member first "v");
                  ("high", PriceService.opt_member first "h");
                  ("low", PriceService.opt_member first "l")])).
Proof.
  intros Hup Hok Hbody Hstatus Hresults.
  destruct (fetchPolygonPrice_adapter env ticker) as [Hone _].
  split; [apply Hone|].
  assert (Hrun : PriceService.fetchPolygonPrice env ticker w
                 = (let* c := PriceService.member env first "c" in
                    let* v := PriceService.member env first "v" in
                    let* h := PriceService.member env first "h" in
                    let* l := PriceService.member env first "l" in
                    ret (VObj [("price", c); ("volume", v); ("high", h); ("low", l)]))
                     (record_fetch (PriceService.polygon_url ticker) w)).
  { unfold PriceService.fetchPolygonPrice. unfold bind at 1.
    unfold PriceService.fetch. rewrite Hup, Hok. cbn [negb].
    unfold bind at 1. unfold PriceService.json. rewrite Hbody.
    unfold ret at 1. unfold bind at 1. cbn [PriceService.member].
    rewrite Hstatus. unfold ret at 1. unfold bind at 1. rewrite Hresults.
    unfold ret at 1. cbn [or_undefined default PriceService.is_string].
    reflexivity. }
  rewrite Hrun. split.
  - intros [-> | ->]; eexists; reflexivity.
  - intros Hnull Hundef. destruct first; try contradiction; reflexivity.
Qed.

Lemma polygon_quote_is_read_from_first_row_witness :
  let row := VObj [("c", VNum 420); ("h", VNum 425); ("l", VNum 415); ("v", VNum 1000000)] in
  snd (PriceService.fetchPolygonPrice env_up "MSTR" empty_world)
    = record_fetch (PriceService.polygon_url "MSTR") empty_world
  /\ (row = VNull \/ row = VUndefined ->
      exists message,
        fst (PriceService.fetchPolygonPrice env_up "MSTR" empty_world)
        = Throw (Thrown message))
  /\ (row <> VNull -> row <> VUndefined ->
      fst (PriceService.fetchPolygonPrice env_up "MSTR" empty_world)
      = Ok (VObj [("price", PriceService.opt_member row "c");
                  ("volume", PriceService.opt_member row "v");
                  ("high", PriceService.opt_member row "h");
                  ("low", PriceService.opt_member row "l")])).
Proof.
  cbv zeta.
  apply (polygon_quote_is_read_from_first_row env_up empty_world "MSTR"
           {| ok := true; status := 200; statusText := "OK"; body := Json quote_payload |}
           [("status", VStr "OK");
            ("results", VArr [VObj [("c", VNum 420); ("h", VNum 425);
                                    ("l", VNum 415); ("v", VNum 1000000)]])]
           (VObj [("c", VNum 420); ("h", VNum 425); ("l", VNum 415); ("v", VNum 1000000)])
           []); reflexivity.
Defined.

(** Two edge cases of the above, at a healthy clock: a first row without a
    price is answered with a quote whose [price] is [undefined], and a first
    row that is [null] makes the adapter throw. *)
Example quote_without_a_price_and_null_row :
  let reply v := Reply {| ok := true; status := 200; statusText := "OK";
                          body := Json (VObj [("status", VStr "OK");
                                              ("results", VArr [v])]) |} in
  let env_with v :=
    {| date_now := fun n => 1000 + Z.of_nat n; math_random := fun _ => 0%Q;
       upstream := fun _ _ => reply v; render := fun _ => "?" |} in
  fst (PriceService.fetchPolygonPrice (env_with (VObj [("v", VNum 7)])) "MSTR" empty_world)
    = Ok (VObj [("price", VUndefined); ("volume", VNum 7);
                ("high", VUndefined); ("low", VUndefined)])
  /\ exists message,
       fst (PriceService.fetchPolygonPrice (env_with VNull) "MSTR" empty_world)
       = Throw (Thrown message).
Proof. cbv zeta. split; [vm_compute; reflexivity | eexists; vm_compute; reflexivity]. Qed.

(** ** Price service: the books of a batch *)

Lemma usage_then_sleep_ledger env t (results : Results) w :
  exists w',
    (let* usage := RateLimiter.getUsage env "polygon" (POLYGON_RATE_LIMIT CONFIG) in
     (if (used usage >=? POLYGON_RATE_LIMIT CONFIG - 1)
         && negb (String.eqb t (List.last PriceService.stocks EmptyString))
      then PriceService.sleep 12000
      else ret tt) ;;;
     ret results) w = (Ok results, w')
    /\ ledger w' "polygon" = retained (reading env w 0) (ledger w "polygon")
    /\ (forall other, other <> "polygon" -> requests w' !! other = requests w !! other)
    /\ callIdx w' = callIdx w.
Proof.
  unfold bind at 1.
  pose proof (getUsage_run env "polygon" (POLYGON_RATE_LIMIT CONFIG) w) as Hu.
  cbv zeta in Hu. rewrite Hu. clear Hu. cbv beta iota. cbn [used].
  destruct (_ && _); unfold bind, PriceService.sleep, modify, ret;
    (eexists; split; [reflexivity|]; split;
     [ unfold ledger; cbn; now rewrite lookup_insert_eq
     | split; [intros other Hne; cbn; now rewrite lookup_insert_ne by congruence
              | reflexivity] ]).
Qed.

Lemma fetchAndCachePrice_quota env k w r w' :
  PriceService.fetchAndCachePrice env k w = (Ok r, w') ->
  (Z.of_nat (List.length (ledger w "polygon")) <= POLYGON_RATE_LIMIT CONFIG ->
   Z.of_nat (List.length (ledger w' "polygon")) <= POLYGON_RATE_LIMIT CONFIG)
  /\ (forall other, other <> "polygon" -> requests w' !! other = requests w !! other)
  /\ (callIdx w <= callIdx w')%nat
  /\ (is_ticker k = false -> (callIdx w < callIdx w')%nat).
Proof.
  intros Hrun.
  destruct (fetchAndCachePrice_ledger env k w) as (r0 & w0 & Hrun0 & Hother & Hhead & Htick).
  cbv zeta in Htick. rewrite Hrun in Hrun0. injection Hrun0 as <- <-.
  pose proof (retained_length (reading env w 0) (ledger w "polygon")) as Hk0.
  pose proof (retained_length (reading env w 1)
                (retained (reading env w 0) (ledger w "polygon"))) as Hk1.
  destruct (is_ticker k) eqn:Hk.
  - specialize (Htick eq_refl).
    destruct (Z.of_nat _ <? POLYGON_RATE_LIMIT CONFIG) eqn:Hlt.
    + destruct Htick as [Hl Hc]. apply Z.ltb_lt in Hlt.
      split; [|split; [exact Hother | split; [lia | discriminate]]].
      intros _. rewrite Hl, length_app. cbn [List.length]. lia.
    + destruct Htick as (Hl & Hc & _).
      split; [|split; [exact Hother | split; [lia | discriminate]]].
      intros HQ. rewrite Hl. lia.
  - destruct (Hhead eq_refl) as [Hreq Hc].
    split; [|split; [exact Hother | split; [lia | intros _; lia]]].
    intros HQ. unfold ledger. rewrite Hreq. exact HQ.
Qed.

(** One iteration of the ticker loop, by what it adds to the lists. *)
Lemma processTicker_books env t r w :
  exists r1 w1 S E,
    PriceService.processTicker env t r w = (Ok r1, w1)
    /\ successes r1 = (successes r ++ S)%list
    /\ errors r1 = (errors r ++ E)%list
    /\ (List.length S + List.length E = 1)%nat
    /\ (E = [] -> S = [t])
    /\ cached r1 = cached r
    /\ (partial r1 = true -> partial r = true \/ E <> [])
    /\ (stale r1 = true -> stale r = true \/ E <> [])
    /\ (Z.of_nat (List.length (ledger w "polygon")) <= POLYGON_RATE_LIMIT CONFIG ->
        Z.of_nat (List.length (ledger w1 "polygon")) <= POLYGON_RATE_LIMIT CONFIG)
    /\ (forall other, other <> "polygon" -> requests w1 !! other = requests w !! other)
    /\ (callIdx w <= callIdx w1)%nat.
Proof.
  unfold PriceService.processTicker. unfold bind at 1.
  destruct (get_facts env t w) as (v & w0 & Hget & _ & Hreq0 & _ & Hc0 & _ & _ & _).
  rewrite Hget. destruct (truthy v).
  - exists (PriceService.push_success t (PriceService.set_data t v r)), w0, [t], [].
    cbn. rewrite app_nil_r. unfold ledger. rewrite Hreq0, Hc0.
    repeat (split; [first [reflexivity | now left | tauto]|]). lia.
  - unfold bind at 1.
    destruct (fetchAndCachePrice_spec env t w0) as (r2 & w2 & l2 & Hrun & _ & _ & Hcase).
    rewrite Hrun.
    destruct (fetchAndCachePrice_quota env t w0 r2 w2 Hrun) as (HQ & Hother & Hc2 & _).
    match goal with |- context [bind _ (fun usage => _ ;;; ret ?res) w2] =>
      destruct (usage_then_sleep_ledger env t res w2) as (w3 & Hfin & Hl3 & Hother3 & Hc3);
      set (results := res) in *
    end.
    pose proof (retained_length (reading env w2 0) (ledger w2 "polygon")) as Hshrink.
    assert (Hstate :
      (Z.of_nat (List.length (ledger w "polygon")) <= POLYGON_RATE_LIMIT CONFIG ->
       Z.of_nat (List.length (ledger w3 "polygon")) <= POLYGON_RATE_LIMIT CONFIG)
      /\ (forall other, other <> "polygon" -> requests w3 !! other = requests w !! other)
      /\ (callIdx w <= callIdx w3)%nat).
    { split; [|split].
      - intros H. rewrite Hl3.
        assert (Z.of_nat (List.length (ledger w2 "polygon")) <= POLYGON_RATE_LIMIT CONFIG)
          by (apply HQ; unfold ledger; now rewrite Hreq0).
        lia.
      - intros other Hne. now rewrite Hother3, Hother, Hreq0.
      - lia. }
    destruct Hstate as (HS1 & HS2 & HS3).
    exists results, w3.
    destruct Hcase as [(Hsucc & _)|(Hsucc & _ & (msg & Herr & _) & _)].
    + exists [t], []. split; [exact Hfin|]. subst results. rewrite Hsucc.
      cbn. rewrite app_nil_r.
      repeat (split; [first [assumption | reflexivity | now left | tauto]|]). assumption.
    + exists [], [t +:+ ": " +:+ msg]. split; [exact Hfin|]. subst results.
      rewrite Hsucc, Herr. cbn [or_undefined_string default].
      destruct (fr_stale r2); cbn; rewrite app_nil_r;
        (repeat (split; [first [assumption | reflexivity | discriminate
                               | intros _; right; discriminate]|]); assumption).
Qed.

Lemma tickerLoop_books env : forall ts r w,
  exists r' w' S E,
    PriceService.tickerLoop env ts r w = (Ok r', w')
    /\ successes r' = (successes r ++ S)%list
    /\ errors r' = (errors r ++ E)%list
    /\ (List.length S + List.length E = List.length ts)%nat
    /\ (E = [] -> S = ts)
    /\ cached r' = cached r
    /\ (partial r' = true -> partial r = true \/ E <> [])
    /\ (stale r' = true -> stale r = true \/ E <> [])
    /\ (Z.of_nat (List.length (ledger w "polygon")) <= POLYGON_RATE_LIMIT CONFIG ->
        Z.of_nat (List.length (ledger w' "polygon")) <= POLYGON_RATE_LIMIT CONFIG)
    /\ (forall other, other <> "polygon" -> requests w' !! other = requests w !! other)
    /\ (callIdx w <= callIdx w')%nat.
Proof.
  induction ts as [|t ts IH]; intros r w.
  - exists r, w, [], []. cbn. rewrite !app_nil_r.
    repeat (split; [first [reflexivity | now left | tauto]|]). lia.
  - cbn [PriceService.tickerLoop]. unfold bind at 1.
    destruct (processTicker_books env t r w)
      as (r1 & w1 & S1 & E1 & Hrun1 & Hs1 & He1 & Hlen1 & Hall1 & Hc1 & Hp1 & Hst1
          & HQ1 & Ho1 & Hcalls1).
    rewrite Hrun1.
    destruct (IH r1 w1)
      as (r' & w' & S2 & E2 & Hrun2 & Hs2 & He2 & Hlen2 & Hall2 & Hc2 & Hp2 & Hst2
          & HQ2 & Ho2 & Hcalls2).
    exists r', w', (S1 ++ S2)%list, (E1 ++ E2)%list. split; [exact Hrun2|].
    split; [rewrite Hs2, Hs1, app_assoc; reflexivity|].
    split; [rewrite He2, He1, app_assoc; reflexivity|].
    split; [rewrite !length_app; cbn [List.length]; lia|].
    split.
    { intros Hnil. apply app_eq_nil in Hnil as [H1 H2].
      rewrite (Hall1 H1), (Hall2 H2). reflexivity. }
    split; [congruence|].
    assert (Hgrow : forall b b1 b',
              (b' = true -> b1 = true \/ E2 <> []) ->
              (b1 = true -> b = true \/ E1 <> []) ->
              b' = true -> b = true \/ (E1 ++ E2)%list <> []).
    { intros b b1 b' H2 H1 Hb. destruct (H2 Hb) as [Hb1|Hne].
      - destruct (H1 Hb1) as [?|Hne]; [now left|]. right. intros Hnil.
        apply app_eq_nil in Hnil as [? _]. contradiction.
      - right. intros Hnil. apply app_eq_nil in Hnil as [_ ?]. contradiction. }
    split; [exact (Hgrow _ _ _ Hp2 Hp1)|]. split; [exact (Hgrow _ _ _ Hst2 Hst1)|].
    split; [tauto|]. split; [|lia].
    intros other Hne. now rewrite Ho2, Ho1.
Qed.

(** One of the two head keys, by what it adds to the lists. *)
Lemma head_books env k label (process : FetchResult -> Results -> Results) r w :
  is_ticker k = false ->
  (forall fr, success fr = true ->
     successes (process fr r) = (successes r ++ [label])%list
     /\ errors (process fr r) = errors r
     /\ stale (process fr r) = stale r) ->
  (forall fr msg, success fr = false -> error fr = Some msg ->
     successes (process fr r) = successes r
     /\ errors (process fr r) = (errors r ++ [label +:+ ": " +:+ msg])%list) ->
  (forall fr, cached (process fr r) = cached r /\ partial (process fr r) = partial r) ->
  exists fr w1 S E,
    PriceService.fetchAndCachePrice env k w = (Ok fr, w1)
    /\ successes (process fr r) = (successes r ++ S)%list
    /\ errors (process fr r) = (errors r ++ E)%list
    /\ (List.length S + List.length E = 1)%nat
    /\ (E = [] -> S = [label])
    /\ cached (process fr r) = cached r
    /\ partial (process fr r) = partial r
    /\ (stale (process fr r) = true -> stale r = true \/ E <> [])
    /\ requests w1 = requests w
    /\ (callIdx w < callIdx w1)%nat.
Proof.
  intros Hk Hok Hfail Hflags.
  destruct (fetchAndCachePrice_spec env k w) as (fr & w1 & l & Hrun & _ & _ & Hcase).
  destruct (fetchAndCachePrice_ledger env k w) as (fr0 & w0 & Hrun0 & _ & Hhead & _).
  rewrite Hrun in Hrun0. injection Hrun0 as <- <-.
  destruct (Hhead Hk) as [Hreq Hcalls]. destruct (Hflags fr) as [Hc Hp].
  destruct Hcase as [(Hsucc & _)|(Hsucc & _ & (msg & Herr & _) & _)].
  - destruct (Hok fr Hsucc) as (Hs & He & Hst).
    exists fr, w1, [label], []. rewrite app_nil_r.
    repeat (split; [first [assumption | reflexivity | now left | lia]|]).
    split; [rewrite Hst; tauto|]. split; [exact Hreq | lia].
  - destruct (Hfail fr msg Hsucc Herr) as (Hs & He).
    exists fr, w1, [], [label +:+ ": " +:+ msg]. rewrite app_nil_r.
    repeat (split; [first [assumption | reflexivity | discriminate | lia]|]).
    split; [intros _; right; discriminate|]. split; [exact Hreq | lia].
Qed.

Ltac get_quietly env k :=
  unfold bind at 1;
  let v := fresh "v" in let w' := fresh "w" in let Hget := fresh "Hget" in
  let Hr := fresh "Hr" in let Hc := fresh "Hc" in
  match goal with |- context [Cache.get env k ?w0] =>
    destruct (get_facts env k w0) as (v & w' & Hget & _ & Hr & _ & Hc & _ & _ & _);
    rewrite Hget; clear Hget
  end.

Lemma fetchAllPrices_books env w :
  exists r w',
    PriceService.fetchAllPrices env w = (Ok r, w')
    /\ (List.length (successes r) + List.length (errors r) = 7)%nat
    /\ (errors r = [] ->
        successes r = if cached r
                      then ["BTC"; "MSTR"; "EUR/USD"; "STRF"; "STRC"; "STRK"; "STRD"]
                      else ["BTC"; "EUR/USD"; "MSTR"; "STRF"; "STRC"; "STRK"; "STRD"])
    /\ (cached r = true -> errors r = [] /\ callIdx w' = callIdx w
                           /\ requests w' = requests w)
    /\ (cached r = false -> (callIdx w + 2 <= callIdx w')%nat)
    /\ (partial r = true -> errors r <> [])
    /\ (stale r = true -> errors r <> [])
    /\ (Z.of_nat (List.length (ledger w "polygon")) <= POLYGON_RATE_LIMIT CONFIG ->
        Z.of_nat (List.length (ledger w' "polygon")) <= POLYGON_RATE_LIMIT CONFIG)
    /\ (forall other, other <> "polygon" -> requests w' !! other = requests w !! other).
Proof.
  unfold PriceService.fetchAllPrices.
  get_quietly env "btc". get_quietly env "MSTR". get_quietly env "eurUsd".
  get_quietly env "STRF". get_quietly env "STRC". get_quietly env "STRK".
  get_quietly env "STRD".
  assert (HrS : requests w6 = requests w) by congruence.
  assert (HcS : callIdx w6 = callIdx w) by congruence.
  clear Hr Hr0 Hr1 Hr2 Hr3 Hr4 Hr5 Hc Hc0 Hc1 Hc2 Hc3 Hc4 Hc5.
  destruct (truthy v && truthy v0 && truthy v1 && truthy v2 && truthy v3
            && truthy v4 && truthy v5).
  - eexists _, w6. split; [reflexivity|]. cbn [successes errors cached partial stale].
    unfold ledger. rewrite HrS.
    split; [reflexivity|]. split; [intros _; reflexivity|].
    split; [intros _; repeat split; assumption|].
    split; [discriminate|]. split; [discriminate|]. split; [discriminate|].
    split; [tauto|]. intros other _. reflexivity.
  - set (r0 := {| data := [("btc", VNull); ("eurUsd", VNum 1.05)];
                  errors := []; successes := [];
                  cached := false; partial := false; stale := false |}).
    unfold bind at 1.
    destruct (head_books env "btc" "BTC" PriceService.processBtc r0 w6)
      as (fb & wb & Sb & Eb & Hb & Hsb & Heb & Hlb & Hallb & Hcb & Hpb & Hstb & Hrb & Hcallb).
    { reflexivity. }
    { intros fr Hs. unfold PriceService.processBtc. rewrite Hs. repeat split. }
    { intros fr msg Hs He. unfold PriceService.processBtc. rewrite Hs, He.
      destruct (fr_stale fr); repeat split. }
    { intros fr. unfold PriceService.processBtc.
      destruct (success fr), (fr_stale fr); split; reflexivity. }
    rewrite Hb. unfold bind at 1.
    destruct (head_books env "eurUsd" "EUR/USD" PriceService.processEur
                (PriceService.processBtc fb r0) wb)
      as (fe & we & Se & Ee & He & Hse & Hee & Hle & Halle & Hce & Hpe & Hste & Hre & Hcalle).
    { reflexivity. }
    { intros fr Hs. unfold PriceService.processEur. rewrite Hs. repeat split. }
    { intros fr msg Hs He. unfold PriceService.processEur. rewrite Hs, He. repeat split. }
    { intros fr. unfold PriceService.processEur.
      destruct (success fr); split; reflexivity. }
    rewrite He. cbv zeta.
    set (r2 := PriceService.processEur fe (PriceService.processBtc fb r0)) in *.
    set (r1 := PriceService.processBtc fb r0) in *.
    destruct (tickerLoop_books env PriceService.stocks r2 we)
      as (r' & w' & St & Et & Hrun & Hst & Het & Hlt & Hallt & Hct & Hpt & Hstt
          & HQ & Hother & Hcallt).
    exists r', w'. split; [exact Hrun|].
    assert (Hfalse : cached r' = false) by (rewrite Hct, Hce, Hcb; reflexivity).
    assert (Hsucc : successes r' = (Sb ++ Se ++ St)%list)
      by (rewrite Hst, Hse, Hsb, <- app_assoc; reflexivity).
    assert (Herrs : errors r' = (Eb ++ Ee ++ Et)%list)
      by (rewrite Het, Hee, Heb, <- app_assoc; reflexivity).
    assert (Hnil : errors r' = [] -> Eb = [] /\ Ee = [] /\ Et = []).
    { rewrite Herrs. intros H. apply app_eq_nil in H as [? H].
      apply app_eq_nil in H as [? ?]. tauto. }
    split.
    { rewrite Hsucc, Herrs, !length_app. cbn [List.length PriceService.stocks] in Hlt. lia. }
    split.
    { intros H. destruct (Hnil H) as (H1 & H2 & H3).
      rewrite Hfalse, Hsucc, (Hallb H1), (Halle H2), (Hallt H3). reflexivity. }
    split; [rewrite Hfalse; discriminate|].
    split; [intros _; lia|].
    split.
    { intros Hp H. destruct (Hnil H) as (H1 & H2 & H3).
      destruct (Hpt Hp) as [Hp2|?]; [|contradiction].
      rewrite Hpe, Hpb in Hp2. discriminate. }
    split.
    { intros Hs H. destruct (Hnil H) as (H1 & H2 & H3).
      destruct (Hstt Hs) as [Hs2|?]; [|contradiction].
      destruct (Hste Hs2) as [Hs1|?]; [|contradiction].
      destruct (Hstb Hs1) as [Hs0|?]; [discriminate | contradiction]. }
    split.
    { intros H. apply HQ. unfold ledger in *. now rewrite Hre, Hrb, HrS. }
    intros other Hne. now rewrite Hother, Hre, Hrb, HrS.
Qed.

(** X18. The market-data ledger never outgrows its limit.  If it holds at
    most [POLYGON_RATE_LIMIT] timestamps, it still does after
    [fetchAndCachePrice] for any key and after a whole [fetchAllPrices]
    batch, whatever the upstreams answer and however the clock moves; the
    batch touches no other upstream's ledger. *)
Theorem polygon_ledger_stays_within_limit env w :
  Z.of_nat (List.length (ledger w "polygon")) <= POLYGON_RATE_LIMIT CONFIG ->
  (forall k,
     Z.of_nat (List.length
       (ledger (snd (PriceService.fetchAndCachePrice env k w)) "polygon"))
     <= POLYGON_RATE_LIMIT CONFIG)
  /\ Z.of_nat (List.length (ledger (snd (PriceService.fetchAllPrices env w)) "polygon"))
     <= POLYGON_RATE_LIMIT CONFIG
  /\ (forall other, other <> "polygon" ->
        requests (snd (PriceService.fetchAllPrices env w)) !! other
        = requests w !! other).
Proof.
  intros HQ. split; [|split].
  - intros k.
    destruct (fetchAndCachePrice_spec env k w) as (r & w' & l & Hrun & _).
    destruct (fetchAndCachePrice_quota env k w r w' Hrun) as (H & _).
    rewrite Hrun. cbn [snd]. apply H, HQ.
  - destruct (fetchAllPrices_books env w) as (r & w' & Hrun & _ & _ & _ & _ & _ & _ & H & _).
    rewrite Hrun. cbn [snd]. apply H, HQ.
  - destruct (fetchAllPrices_books env w) as (r & w' & Hrun & _ & _ & _ & _ & _ & _ & _ & H).
    rewrite Hrun. cbn [snd]. exact H.
Qed.

Lemma polygon_ledger_stays_within_limit_witness :
  (forall k,
     Z.of_nat (List.length
       (ledger (snd (PriceService.fetchAndCachePrice env_up k
                       (world_quota_used (VNum 0) (VNum 0)))) "polygon"))
     <= POLYGON_RATE_LIMIT CONFIG)
  /\ Z.of_nat (List.length
       (ledger (snd (PriceService.fetchAllPrices env_up
                       (world_quota_used (VNum 0) (VNum 0)))) "polygon"))
     <= POLYGON_RATE_LIMIT CONFIG
  /\ (forall other, other <> "polygon" ->
        requests (snd (PriceService.fetchAllPrices env_up
                         (world_quota_used (VNum 0) (VNum 0)))) !! other
        = requests (world_quota_used (VNum 0) (VNum 0)) !! other).
Proof.
  apply (polygon_ledger_stays_within_limit env_up (world_quota_used (VNum 0) (VNum 0))).
  vm_compute. discriminate.
Defined.

(** X19. The books of a batch balance.  [fetchAllPrices] lists each of the
    seven keys once, among [successes] or among [errors]; the flags
    [partial] and [stale] are only ever set together with an error, so a
    batch without errors has both false; a batch served from the cache has
    no errors; and a batch without errors names the keys in the order
    BTC, MSTR, EUR/USD, ... when served from the cache but
    BTC, EUR/USD, MSTR, ... when fetched. *)
Theorem books_of_a_batch_balance env w :
  exists r w',
    PriceService.fetchAllPrices env w = (Ok r, w')
    /\ (List.length (successes r) + List.length (errors r) = 7)%nat
    /\ (partial r = true -> errors r <> [])
    /\ (stale r = true -> errors r <> [])
    /\ (errors r = [] -> partial r = false /\ stale r = false)
    /\ (cached r = true -> errors r = [])
    /\ (errors r = [] ->
        successes r = if cached r
                      then ["BTC"; "MSTR"; "EUR/USD"; "STRF"; "STRC"; "STRK"; "STRD"]
                      else ["BTC"; "EUR/USD"; "MSTR"; "STRF"; "STRC"; "STRK"; "STRD"]).
Proof.
  destruct (fetchAllPrices_books env w)
    as (r & w' & Hrun & Hlen & Horder & Hcached & _ & Hp & Hs & _).
  exists r, w'. split; [exact Hrun|]. split; [exact Hlen|].
  split; [exact Hp|]. split; [exact Hs|]. split.
  - intros Hnil. split.
    + destruct (partial r); [exfalso; now apply Hp | reflexivity].
    + destruct (stale r); [exfalso; now apply Hs | reflexivity].
  - split; [|exact Horder]. intros Hc. now apply Hcached.
Qed.

(** ** The handler and the service it awaits *)

Lemma round_div1000_nonneg x : 0 <= x -> 0 <= round_div1000 x.
Proof. intros Hx. unfold round_div1000. apply Z.div_pos; lia. Qed.

Lemma ttls_of_facts env : forall keys w,
  exists l w',
    Server.ttls_of env keys w = (Ok l, w')
    /\ map fst l = keys
    /\ (forall k t, In (k, t) l -> 0 <= t /\ (store w !! k = None -> t = 0))
    /\ store w' = store w /\ stats w' = stats w /\ requests w' = requests w
    /\ callIdx w' = callIdx w /\ trace w' = trace w.
Proof.
  induction keys as [|k keys IH]; intros w; cbn [Server.ttls_of].
  - exists [], w. unfold ret. split; [reflexivity|]. split; [reflexivity|].
    split; [intros k t []|]. repeat split.
  - unfold bind at 1. rewrite getRemainingTTL_run.
    destruct (store w !! k) as [e|] eqn:He.
    + unfold bind at 1.
      destruct (IH (tick_clock w)) as (l & w2 & -> & Hkeys & Hall & Hs & Hst & Hr & Hc & Ht).
      unfold ret. eexists _, w2. split; [reflexivity|]. cbn [map fst].
      split; [now rewrite Hkeys|]. split; [|repeat split; assumption].
      intros k' t [[= <- <-]|Hin].
      * split; [apply round_div1000_nonneg; lia | congruence].
      * apply (Hall k' t Hin).
    + unfold bind at 1.
      destruct (IH w) as (l & w2 & -> & Hkeys & Hall & Hs & Hst & Hr & Hc & Ht).
      unfold ret. eexists _, w2. split; [reflexivity|]. cbn [map fst].
      split; [now rewrite Hkeys|]. split; [|repeat split; assumption].
      intros k' t [[= <- <-]|Hin].
      * split; [reflexivity | intros _; reflexivity].
      * apply (Hall k' t Hin).
Qed.

Lemma handler_world env (fetchAll : M Results) (force : bool) w r w1 :
  fetchAll (if force then with_store (fun _ => ∅) w else w) = (Ok r, w1) ->
  exists md w',
    Server.pricesAllHandlerWith env fetchAll force w =
      (Ok {| statusCode :=
               if partial r && (0 <? List.length (errors r))%nat then 207 else 200;
             responseBody := PricesBody (data r) md (errors r) (successes r) |}, w')
    /\ m_cached md = cached r /\ m_partial md = partial r /\ m_stale md = stale r
    /\ degraded md = (3 <? List.length (errors r))%nat
    /\ timestamp md = reading env w1 0
    /\ map fst (ttls md) = obj_keys (data r)
    /\ (forall k t, In (k, t) (ttls md) -> 0 <= t /\ (store w1 !! k = None -> t = 0))
    /\ store w' = store w1 /\ stats w' = stats w1 /\ requests w' = requests w1
    /\ callIdx w' = callIdx w1 /\ trace w' = trace w1.
Proof.
  intros Hrun.
  assert (Hclear : (if force then Cache.clear else ret tt) w
                   = (Ok tt, if force then with_store (fun _ => ∅) w else w))
    by (destruct force; reflexivity).
  unfold Server.pricesAllHandlerWith, try_catch; unfold bind at 1;
    rewrite Hclear; unfold bind at 1; rewrite Hrun.
  unfold bind at 1. unfold Date_now at 1. unfold bind at 1.
  destruct (ttls_of_facts env (obj_keys (data r)) (tick_clock w1))
    as (l & w2 & -> & Hkeys & Hall & Hs & Hst & Hr & Hc & Ht).
  unfold ret. eexists _, w2. split; [reflexivity|].
  cbn [m_cached m_partial m_stale degraded timestamp ttls].
  repeat (split; [first [reflexivity | assumption]|]). assumption.
Qed.

(** X20. The [ttls] of a response follow its [data]: whatever result the
    awaited service returns, [metadata.ttls] has one entry per key of
    [data], in the same order; every entry is a non-negative number of
    seconds, 0 for a key the cache has no entry for (a key answered by a
    fallback); and building the response writes nothing to the cache, asks
    no upstream and records no request. *)
Theorem ttls_follow_the_data env (fetchAll : M Results) (force : bool) w r w1 :
  fetchAll (if force then with_store (fun _ => ∅) w else w) = (Ok r, w1) ->
  exists resp md w',
    Server.pricesAllHandlerWith env fetchAll force w = (Ok resp, w')
    /\ responseBody resp = PricesBody (data r) md (errors r) (successes r)
    /\ map fst (ttls md) = obj_keys (data r)
    /\ (forall k t, In (k, t) (ttls md) -> 0 <= t /\ (store w1 !! k = None -> t = 0))
    /\ store w' = store w1 /\ sets (stats w') = sets (stats w1)
    /\ requests w' = requests w1 /\ callIdx w' = callIdx w1.
Proof.
  intros Hrun.
  destruct (handler_world env fetchAll force w r w1 Hrun)
    as (md & w' & Hh & _ & _ & _ & _ & _ & Hkeys & Hall & Hs & Hst & Hr & Hc & _).
  eexists _, md, w'. split; [exact Hh|]. cbn [responseBody].
  split; [reflexivity|]. split; [exact Hkeys|]. split; [exact Hall|].
  split; [exact Hs|]. split; [now rewrite Hst|]. split; assumption.
Qed.

Lemma ttls_follow_the_data_witness :
  let canned :=
    {| data := [("btc", VNum 100000); ("mstr", VNull); ("eurUsd", VNum 1.05)];
       errors := ["MSTR: 429 Too Many Requests"];
       successes := ["BTC"; "EUR/USD"];
       cached := false; partial := true; stale := false |} in
  exists resp md w',
    Server.pricesAllHandlerWith env_frozen (ret canned) false world_boundary = (Ok resp, w')
    /\ responseBody resp = PricesBody (data canned) md (errors canned) (successes canned)
    /\ map fst (ttls md) = obj_keys (data canned)
    /\ (forall k t, In (k, t) (ttls md) ->
          0 <= t /\ (store world_boundary !! k = None -> t = 0))
    /\ store w' = store world_boundary /\ sets (stats w') = sets (stats world_boundary)
    /\ requests w' = requests world_boundary /\ callIdx w' = callIdx world_boundary.
Proof.
  cbv zeta.
  apply (ttls_follow_the_data env_frozen
           (ret {| data := [("btc", VNum 100000); ("mstr", VNull); ("eurUsd", VNum 1.05)];
                   errors := ["MSTR: 429 Too Many Requests"];
                   successes := ["BTC"; "EUR/USD"];
                   cached := false; partial := true; stale := false |})
           false world_boundary).
  reflexivity.
Defined.

(** X21. With the real price service the status tells [partial]: the
    handler always answers, with 207 exactly when [metadata.partial] is
    true and 200 exactly when it is false; [partial] and [stale] come with a
    non-empty [errors] list, a response served from the cache has none, and
    [degraded] is set exactly when more than three of the seven keys
    failed. *)
Theorem status_tells_partial env (force : bool) w :
  exists resp w' d md errs succ,
    Server.pricesAllHandler env force w = (Ok resp, w')
    /\ responseBody resp = PricesBody d md errs succ
    /\ (statusCode resp = 207 <-> m_partial md = true)
    /\ (statusCode resp = 200 <-> m_partial md = false)
    /\ (m_partial md = true -> errs <> [])
    /\ (m_stale md = true -> errs <> [])
    /\ (m_cached md = true -> errs = [] /\ statusCode resp = 200)
    /\ (List.length succ + List.length errs = 7)%nat
    /\ (degraded md = true <-> (3 < List.length errs)%nat).
Proof.
  destruct (fetchAllPrices_books env (if force then with_store (fun _ => ∅) w else w))
    as (r & w1 & Hrun & Hlen & _ & Hcached & _ & Hp & Hs & _).
  destruct (handler_world env (PriceService.fetchAllPrices env) force w r w1 Hrun)
    as (md & w' & Hh & Hmc & Hmp & Hms & Hdeg & _).
  unfold Server.pricesAllHandler.
  eexists _, w', (data r), md, (errors r), (successes r). split; [exact Hh|].
  cbn [responseBody statusCode]. split; [reflexivity|].
  rewrite Hmc, Hmp, Hms, Hdeg.
  assert (Hpos : partial r = true -> (0 <? List.length (errors r))%nat = true).
  { intros H. apply Nat.ltb_lt. specialize (Hp H).
    destruct (errors r); [contradiction | cbn; lia]. }
  split; [|split; [|split; [exact Hp|split; [exact Hs|split; [|split; [exact Hlen|]]]]]].
  - destruct (partial r) eqn:Hpr.
    + rewrite (Hpos eq_refl). cbn. tauto.
    + cbn. split; discriminate.
  - destruct (partial r) eqn:Hpr.
    + rewrite (Hpos eq_refl). cbn. split; discriminate.
    + cbn. tauto.
  - intros Hc. destruct (Hcached Hc) as (Hnil & _). split; [exact Hnil|].
    rewrite Hnil. cbn. now rewrite andb_false_r.
  - apply Nat.ltb_lt.
Qed.

(** ** Where the [stale] flag comes from *)

Lemma processTicker_stale env t r w :
  is_ticker t = true ->
  exists r1 w1,
    PriceService.processTicker env t r w = (Ok r1, w1)
    /\ (forall k, k <> t -> store w1 !! k = store w !! k)
    /\ (stale r1 = true -> stale r = true \/ is_Some (store w !! t)).
Proof.
  intros Htick.
  destruct (processTicker_spec env t r w Htick)
    as (r1 & w1 & l1 & Hrun & _ & _ & _ & Hframe & _).
  exists r1, w1. split; [exact Hrun|]. split; [intros k Hk; now apply Hframe|].
  revert Hrun. unfold PriceService.processTicker. unfold bind at 1.
  destruct (get_facts env t w) as (v & w0 & Hget & Hs0 & _).
  rewrite Hget. destruct (truthy v).
  - intros [= <- <-]. cbn. tauto.
  - unfold bind at 1.
    destruct (fetchAndCachePrice_spec env t w0) as (r2 & w2 & l2 & Hrun2 & _ & _ & Hcase).
    rewrite Hrun2.
    match goal with |- context [bind _ (fun usage => _ ;;; ret ?res) w2] =>
      destruct (usage_then_sleep env t res w2) as (w3 & l3 & Hfin & _)
    end.
    rewrite Hfin. intros [= <- <-].
    destruct Hcase as [(Hsucc & _)|(Hsucc & _ & _ & Hstale)]; rewrite Hsucc.
    + cbn. tauto.
    + rewrite Hs0 in Hstale. destruct (store w !! t) as [e|].
      * intros _. right. eauto.
      * injection Hstale as _ ->. cbn. tauto.
Qed.

Lemma tickerLoop_stale env : forall ts r w,
  List.NoDup ts -> (forall t, In t ts -> is_ticker t = true) ->
  exists r' w',
    PriceService.tickerLoop env ts r w = (Ok r', w')
    /\ (stale r' = true ->
        stale r = true \/ exists t, In t ts /\ is_Some (store w !! t)).
Proof.
  induction ts as [|t ts IH]; intros r w Hnd Htick.
  - exists r, w. split; [reflexivity|]. tauto.
  - apply List.NoDup_cons_iff in Hnd as [Hnotin Hnd].
    cbn [PriceService.tickerLoop]. unfold bind at 1.
    destruct (processTicker_stale env t r w) as (r1 & w1 & Hrun1 & Hframe & Hst1).
    { apply Htick. now left. }
    rewrite Hrun1.
    destruct (IH r1 w1 Hnd) as (r' & w' & Hrun & Hst).
    { intros t' Ht'. apply Htick. now right. }
    exists r', w'. split; [exact Hrun|]. intros Hs.
    destruct (Hst Hs) as [H1|(t' & Hin & Hsome)].
    + destruct (Hst1 H1) as [?|?]; [now left|]. right. exists t. split; [now left | assumption].
    + right. exists t'. split; [now right|].
      rewrite <- Hframe; [exact Hsome|]. intros ->. contradiction.
Qed.

Lemma fetchAllPrices_stale env w :
  exists r w',
    PriceService.fetchAllPrices env w = (Ok r, w')
    /\ (forall k, ~ In k known_keys -> store w' !! k = store w !! k)
    /\ (stale r = true ->
        exists k, In k ["btc"; "MSTR"; "STRF"; "STRC"; "STRK"; "STRD"]
                  /\ is_Some (store w !! k)).
Proof.
  unfold PriceService.fetchAllPrices.
  get_step env "btc" Hs1 Ht1 Hv1. get_step env "MSTR" Hs2 Ht2 Hv2.
  get_step env "eurUsd" Hs3 Ht3 Hv3. get_step env "STRF" Hs4 Ht4 Hv4.
  get_step env "STRC" Hs5 Ht5 Hv5. get_step env "STRK" Hs6 Ht6 Hv6.
  get_step env "STRD" Hs7 Ht7 Hv7.
  assert (HsS : store w6 = store w) by congruence.
  clear Hs1 Hs2 Hs3 Hs4 Hs5 Hs6 Hs7 Ht1 Ht2 Ht3 Ht4 Ht5 Ht6 Ht7 Hv1 Hv2 Hv3 Hv4 Hv5 Hv6 Hv7.
  destruct (truthy v && truthy v0 && truthy v1 && truthy v2 && truthy v3
            && truthy v4 && truthy v5).
  - eexists _, w6. split; [reflexivity|]. split; [intros k _; now rewrite HsS|].
    cbn. discriminate.
  - set (r0 := {| data := [("btc", VNull); ("eurUsd", VNum 1.05)];
                  errors := []; successes := [];
                  cached := false; partial := false; stale := false |}).
    unfold bind at 1.
    destruct (fetchAndCachePrice_spec env "btc" w6) as (fb & wb & lb & Hb & _ & _ & Hcb).
    rewrite Hb. unfold bind at 1.
    destruct (fetchAndCachePrice_spec env "eurUsd" wb) as (fe & we & le & He & _ & _ & Hce).
    rewrite He. cbv zeta.
    destruct (tickerLoop_stale env PriceService.stocks
                (PriceService.processEur fe (PriceService.processBtc fb r0)) we
                stocks_distinct stocks_are_tickers) as (r' & w' & Hrun & Hst).
    destruct (tickerLoop_spec env PriceService.stocks
                (PriceService.processEur fe (PriceService.processBtc fb r0)) we
                stocks_distinct stocks_are_tickers)
      as (r'' & w'' & lt & Hrun' & _ & _ & _ & Hframe & _).
    rewrite Hrun in Hrun'. injection Hrun' as <- <-.
    assert (Hwb : forall k, k <> "btc" -> store wb !! k = store w !! k).
    { intros k Hk. rewrite <- HsS.
      destruct Hcb as [(_ & e & _ & _ & -> & _)|(_ & -> & _)]; [|reflexivity].
      apply lookup_insert_ne. congruence. }
    assert (Hwe : forall k, k <> "eurUsd" -> store we !! k = store wb !! k).
    { intros k Hk.
      destruct Hce as [(_ & e & _ & _ & -> & _)|(_ & -> & _)]; [|reflexivity].
      apply lookup_insert_ne. congruence. }
    exists r', w'. split; [exact Hrun|]. split.
    + intros k Hk.
      assert (Hnot : ~ In k PriceService.stocks /\ k <> "btc" /\ k <> "eurUsd").
      { cbn in Hk |- *. intuition. }
      destruct Hnot as (Hns & Hnb & Hne).
      destruct (Hframe k Hns) as [Hs _]. now rewrite Hs, Hwe, Hwb.
    + intros Hs. destruct (Hst Hs) as [Hs2|(t & Hin & Hsome)].
      * exists "btc". split; [now left|]. rewrite <- HsS.
        assert (Hs1 : stale (PriceService.processBtc fb r0) = true).
        { revert Hs2. unfold PriceService.processEur.
          destruct (success fe); cbn; tauto. }
        revert Hs1. unfold PriceService.processBtc.
        destruct Hcb as [(Hsucc & _)|(Hsucc & _ & _ & Hstale)]; rewrite Hsucc.
        -- cbn. discriminate.
        -- destruct (store w6 !! "btc") as [e|]; [eauto|].
           injection Hstale as _ ->. cbn. discriminate.
      * exists t. split.
        -- cbn in Hin |- *. tauto.
        -- assert (t <> "btc" /\ t <> "eurUsd") as [Hnb Hne].
           { pose proof (stocks_are_tickers t Hin) as Ht. unfold is_ticker in Ht.
             split; intros ->; discriminate. }
           now rewrite <- Hwb, <- Hwe.
Qed.

(** X22. The [stale] flag needs an old entry.  [fetchAllPrices] sets
    [stale] only when the cache already held an entry for [btc] or for one
    of the five tickers before the call; a batch that starts from an empty
    cache never reports [stale], and an old [eurUsd] entry alone never
    raises it.  Entries of keys outside the seven are left as they were. *)
Theorem stale_flag_needs_an_old_entry env w :
  exists r w',
    PriceService.fetchAllPrices env w = (Ok r, w')
    /\ (stale r = true ->
        exists k, In k ["btc"; "MSTR"; "STRF"; "STRC"; "STRK"; "STRD"]
                  /\ is_Some (store w !! k))
    /\ ((forall k, k <> "eurUsd" -> store w !! k = None) -> stale r = false)
    /\ (forall k, ~ In k known_keys -> store w' !! k = store w !! k).
Proof.
  destruct (fetchAllPrices_stale env w) as (r & w' & Hrun & Hframe & Hst).
  exists r, w'. split; [exact Hrun|]. split; [exact Hst|]. split; [|exact Hframe].
  intros Hempty. destruct (stale r); [|reflexivity].
  destruct (Hst eq_refl) as (k & Hin & Hsome). exfalso.
  rewrite Hempty in Hsome; [now destruct Hsome as [? [=]]|].
  intros ->. cbn in Hin. intuition discriminate.
Qed.

(** X23. A forced refresh starts from nothing.  With [force=true] the
    handler empties the cache first, so the response is never served from
    the cache and never flagged stale, at least the two head requests go
    upstream, every key reports either the value just fetched and cached
    or its fallback together with an error, and no entry of any other key
    survives. *)
Theorem forced_refresh_starts_from_nothing env w :
  exists resp w' d md errs succ,
    Server.pricesAllHandler env true w = (Ok resp, w')
    /\ responseBody resp = PricesBody d md errs succ
    /\ m_cached md = false /\ m_stale md = false
    /\ (callIdx w + 2 <= callIdx w')%nat
    /\ (forall k, In k known_keys ->
          (exists e, store w' !! k = Some e /\ truthy (e_value e) = true
                     /\ obj_get k d = Some (e_value e))
          \/ (store w' !! k = None /\ obj_get k d = Some (fallback_of k)
              /\ exists msg, In (label_of k +:+ ": " +:+ msg) errs))
    /\ (forall k, ~ In k known_keys -> store w' !! k = None).
Proof.
  set (w0 := with_store (fun _ => ∅) w).
  assert (Hempty : forall k, store w0 !! k = None) by (intros k; apply lookup_empty).
  destruct (fetchAllPrices_spec env w0) as (r & w1 & l & Hrun & _ & Hsettled & Hcached).
  destruct (fetchAllPrices_stale env w0) as (r' & w1' & Hrun' & Hframe & Hst).
  rewrite Hrun in Hrun'. injection Hrun' as <- <-.
  assert (Hstale : stale r = false).
  { destruct (stale r); [|reflexivity].
    destruct (Hst eq_refl) as (k & _ & Hsome).
    rewrite Hempty in Hsome. now destruct Hsome as [? [=]]. }
  destruct (fetchAllPrices_books env w0)
    as (r' & w1' & Hrun' & _ & _ & _ & Hcalls & _).
  rewrite Hrun in Hrun'. injection Hrun' as <- <-.
  assert (Hc : cached r = false).
  { destruct (cached r); [|reflexivity].
    destruct (Hcached eq_refl) as (_ & _ & _ & Hall).
    destruct (Hall "btc") as (e & He & _); [now left|].
    rewrite Hempty in He. discriminate. }
  destruct (handler_world env (PriceService.fetchAllPrices env) true w r w1 Hrun)
    as (md & w' & Hh & Hmc & _ & Hms & _ & _ & _ & _ & Hs & _ & _ & Hcw & _).
  unfold Server.pricesAllHandler.
  eexists _, w', (data r), md, (errors r), (successes r). split; [exact Hh|].
  cbn [responseBody]. split; [reflexivity|]. split; [congruence|].
  split; [congruence|].
  split; [rewrite Hcw; apply (Hcalls Hc)|]. split.
  - intros k Hk. rewrite Hs.
    destruct (Hsettled k Hk) as [(e & He & Ht & Hd & _)|(Hsame & (msg & Hin & _) & Hd)].
    + left. exists e. repeat split; assumption.
    + right. rewrite Hempty in Hsame, Hd. split; [exact Hsame|]. split; [exact Hd|].
      now exists msg.
  - intros k Hk. rewrite Hs, (Hframe k Hk). apply Hempty.
Qed.

(** ** The scheduler's tick *)

Lemma seedCache_run env w :
  exists r w',
    PriceService.fetchAllPrices env w = (Ok r, w')
    /\ Scheduler.seedCache env w = (Ok tt, w').
Proof.
  destruct (fetchAllPrices_total env w) as (r & w' & Hrun).
  exists r, w'. split; [exact Hrun|].
  unfold Scheduler.seedCache, try_catch, bind. now rewrite Hrun.
Qed.

Lemma refreshOne_run env k w :
  exists r w',
    PriceService.fetchAndCachePrice env k w = (Ok r, w')
    /\ Scheduler.refreshOne env k w = (Ok tt, w')
    /\ (forall k', is_Some (store w !! k') -> is_Some (store w' !! k'))
    /\ (forall k', k' <> k -> store w' !! k' = store w !! k').
Proof.
  destruct (fetchAndCachePrice_spec env k w) as (r & w' & l & Hrun & _ & _ & Hcase).
  exists r, w'. split; [exact Hrun|]. split.
  { unfold Scheduler.refreshOne, try_catch, bind. now rewrite Hrun. }
  destruct Hcase as [(_ & e & _ & _ & -> & _)|(_ & -> & _)].
  - split.
    + intros k' Hsome. destruct (decide (k = k')) as [<-|Hne].
      * rewrite lookup_insert_eq. eauto.
      * now rewrite lookup_insert_ne.
    + intros k' Hne. apply lookup_insert_ne. congruence.
  - split; [tauto | reflexivity].
Qed.

Lemma refreshAll_run env : forall keys w,
  exists w',
    Scheduler.refreshAll env keys w = (Ok tt, w')
    /\ (forall k, is_Some (store w !! k) -> is_Some (store w' !! k))
    /\ (forall k, ~ In k keys -> store w' !! k = store w !! k).
Proof.
  induction keys as [|key keys IH]; intros w; cbn [Scheduler.refreshAll].
  - exists w. split; [reflexivity|]. split; [tauto | reflexivity].
  - unfold bind at 1.
    destruct (refreshOne_run env key w) as (r & w1 & _ & -> & Hkeep1 & Hframe1).
    destruct (IH w1) as (w' & Hrun & Hkeep & Hframe).
    exists w'. split; [exact Hrun|]. split.
    + intros k Hsome. apply Hkeep, Hkeep1, Hsome.
    + intros k Hnot. rewrite Hframe, Hframe1; [reflexivity| |];
        intros H; apply Hnot; [left; congruence | now right].
Qed.

Lemma toRefresh_In now thresholdMs es k :
  In k (Scheduler.toRefresh now thresholdMs es)
  <-> exists e, In (k, e) es /\ expiresAt e - now < thresholdMs.
Proof.
  unfold Scheduler.toRefresh. rewrite in_map_iff. split.
  - intros ([k' e] & Hk & Hin). cbn in Hk. subst k'.
    apply filter_In in Hin as [Hin Hlt]. apply Z.ltb_lt in Hlt. now exists e.
  - intros (e & Hin & Hlt). exists (k, e). split; [reflexivity|].
    apply filter_In. split; [exact Hin|]. now apply Z.ltb_lt.
Qed.

Lemma entries_empty (entries : Enumeration) m :
  List.length (entries m) = 0%nat <-> m = ∅.
Proof.
  split.
  - intros Hlen. apply map_empty. intros k.
    destruct (m !! k) as [e|] eqn:He; [|reflexivity].
    apply (enum_spec entries) in He. destruct (entries m); [|discriminate].
    now apply elem_of_nil in He.
  - intros ->. destruct (entries ∅) as [|[k e] rest] eqn:Hl; [reflexivity|].
    assert (Hin : (k, e) ∈ entries ∅) by (rewrite Hl; left).
    apply (enum_spec entries) in Hin. rewrite lookup_empty in Hin. discriminate.
Qed.

Lemma checkAndRefresh_run env (entries : Enumeration) w :
  let now := reading env w 0 in
  let thresholdMs := REFRESH_THRESHOLD CONFIG * 1000 in
  exists w',
    Scheduler.checkAndRefresh env entries w = (Ok tt, w')
    /\ Scheduler.tick env entries w = (Ok tt, w')
    /\ (store w = ∅ -> w' = snd (PriceService.fetchAllPrices env (tick_clock w)))
    /\ (store w <> ∅ ->
        (forall k e, store w !! k = Some e -> thresholdMs <= expiresAt e - now) ->
        w' = tick_clock w)
    /\ (forall k, is_Some (store w !! k) -> is_Some (store w' !! k))
    /\ (forall k e, store w !! k = Some e -> thresholdMs <= expiresAt e - now ->
          store w' !! k = Some e).
Proof.
  cbv zeta.
  assert (Htick : forall w', Scheduler.checkAndRefresh env entries w = (Ok tt, w') ->
            Scheduler.tick env entries w = (Ok tt, w')).
  { intros w' H. unfold Scheduler.tick, try_catch. now rewrite H. }
  assert (Hrun : Scheduler.checkAndRefresh env entries w
    = (if (List.length (entries (store w)) =? 0)%nat then Scheduler.seedCache env
       else if (0 <? List.length (Scheduler.toRefresh (reading env w 0)
                                    (REFRESH_THRESHOLD CONFIG * 1000)
                                    (entries (store w))))%nat
            then Scheduler.refreshAll env
                   (Scheduler.toRefresh (reading env w 0)
                      (REFRESH_THRESHOLD CONFIG * 1000) (entries (store w)))
            else ret tt) (tick_clock w)) by reflexivity.
  destruct (List.length (entries (store w)) =? 0)%nat eqn:Hlen.
  - apply Nat.eqb_eq, entries_empty in Hlen.
    destruct (seedCache_run env (tick_clock w)) as (r & w' & Hall & Hseed).
    rewrite Hseed in Hrun. exists w'. split; [exact Hrun|]. split; [now apply Htick|].
    split; [intros _; now rewrite Hall|]. split; [intros Hne; contradiction|].
    split.
    + intros k Hsome. rewrite Hlen, lookup_empty in Hsome. now destruct Hsome as [? [=]].
    + intros k e He. rewrite Hlen, lookup_empty in He. discriminate.
  - apply Nat.eqb_neq in Hlen.
    assert (Hne : store w <> ∅) by (intros H; apply Hlen, entries_empty, H).
    assert (Hdue : forall k,
              In k (Scheduler.toRefresh (reading env w 0)
                      (REFRESH_THRESHOLD CONFIG * 1000) (entries (store w)))
              -> exists e, store w !! k = Some e
                           /\ expiresAt e - reading env w 0
                              < REFRESH_THRESHOLD CONFIG * 1000).
    { intros k Hin. apply toRefresh_In in Hin as (e & Hin & Hlt). exists e.
      split; [|exact Hlt]. apply (enum_spec entries), list_elem_of_In, Hin. }
    destruct (Scheduler.toRefresh (reading env w 0) (REFRESH_THRESHOLD CONFIG * 1000)
                (entries (store w))) as [|key keys] eqn:Hkeys.
    + exists (tick_clock w). split; [exact Hrun|]. split; [now apply Htick|].
      split; [intros H; contradiction|]. split; [reflexivity|].
      split; [tauto|]. intros k e He _. exact He.
    + change (0 <? List.length (key :: keys))%nat with true in Hrun. cbv iota in Hrun.
      destruct (refreshAll_run env (key :: keys) (tick_clock w))
        as (w' & Hall & Hkeep & Hframe).
      rewrite Hall in Hrun. exists w'. split; [exact Hrun|]. split; [now apply Htick|].
      split; [intros H; contradiction|]. split.
      * intros _ Hfresh. destruct (Hdue key) as (e & He & Hlt); [now left|].
        specialize (Hfresh key e He). lia.
      * split; [exact Hkeep|]. intros k e He Hfresh.
        rewrite Hframe; [exact He|]. intros Hin.
        destruct (Hdue k Hin) as (e' & He' & Hlt).
        rewrite He in He'. injection He' as <-. lia.
Qed.

(** X24. A scheduler tick never throws, never removes a cache entry, and
    leaves every entry alone that still has at least [REFRESH_THRESHOLD]
    seconds to live at the tick's clock reading, whatever the upstreams
    answer and in whatever order the cache lists its entries. *)
Theorem tick_spares_fresh_entries env (entries : Enumeration) w :
  exists w',
    Scheduler.tick env entries w = (Ok tt, w')
    /\ (forall k, is_Some (store w !! k) -> is_Some (store w' !! k))
    /\ (forall k e, store w !! k = Some e ->
          REFRESH_THRESHOLD CONFIG * 1000 <= expiresAt e - reading env w 0 ->
          store w' !! k = Some e).
Proof.
  destruct (checkAndRefresh_run env entries w) as (w' & _ & Htick & _ & _ & Hkeep & Hfresh).
  exists w'. split; [exact Htick|]. split; [exact Hkeep | exact Hfresh].
Qed.

(** X25. A tick over a fresh cache is idle: when the cache is not empty and
    every entry has at least [REFRESH_THRESHOLD] seconds to live, the tick
    reads the clock once and does nothing else: no upstream request, no
    cache write or read, no request recorded. *)
Theorem tick_over_fresh_cache_is_idle env (entries : Enumeration) w :
  store w <> ∅ ->
  (forall k e, store w !! k = Some e ->
     REFRESH_THRESHOLD CONFIG * 1000 <= expiresAt e - reading env w 0) ->
  Scheduler.tick env entries w = (Ok tt, tick_clock w).
Proof.
  intros Hne Hfresh.
  destruct (checkAndRefresh_run env entries w) as (w' & _ & Htick & _ & Hidle & _).
  cbv zeta in Hidle. rewrite Htick, (Hidle Hne Hfresh). reflexivity.
Qed.

Lemma tick_over_fresh_cache_is_idle_witness :
  Scheduler.tick env_up bindings_listing (world_all_cached (VNum 95000) (quote 100))
  = (Ok tt, tick_clock (world_all_cached (VNum 95000) (quote 100))).
Proof.
  apply (tick_over_fresh_cache_is_idle env_up bindings_listing
           (world_all_cached (VNum 95000) (quote 100))).
  - intros H. apply (f_equal (fun m => m !! "btc")) in H. vm_compute in H. discriminate.
  - intros k e He.
    assert (Hexp : expiresAt e = 1000000).
    { unfold world_all_cached in He. cbn [store with_store] in He.
      repeat (apply lookup_insert_Some in He as [[_ <-]|[_ He]]; [reflexivity|]).
      rewrite lookup_empty in He. discriminate. }
    rewrite Hexp. vm_compute. discriminate.
Defined.

(** X26. A tick over an empty cache seeds it: it reads the clock and then
    does exactly what one [fetchAllPrices] call does, discarding the
    result. *)
Theorem tick_over_empty_cache_seeds env (entries : Enumeration) w :
  store w = ∅ ->
  Scheduler.tick env entries w
  = (Ok tt, snd (PriceService.fetchAllPrices env (tick_clock w))).
Proof.
  intros Hempty.
  destruct (checkAndRefresh_run env entries w) as (w' & _ & Htick & Hseed & _).
  rewrite Htick, (Hseed Hempty). reflexivity.
Qed.

Lemma tick_over_empty_cache_seeds_witness :
  Scheduler.tick env_up bindings_listing empty_world
  = (Ok tt, snd (PriceService.fetchAllPrices env_up (tick_clock empty_world))).
Proof.
  apply (tick_over_empty_cache_seeds env_up bindings_listing empty_world).
  reflexivity.
Defined.

(** ** Upstream adapters and the time a retry loop takes *)

(** X27. The three upstream adapters share one contract: each call makes
    exactly one request, to its own endpoint, and changes nothing else; a
    value it returns is truthy, and whatever it throws is an [Error] object
    with a message.  For the two head adapters the truthiness is a check:
    [fetchBtcPrice] returns [data?.bitcoin?.usd] and [fetchEurUsdRate]
    returns [data?.rates?.USD] of an OK reply, and a value of 0, a missing
    field or a body that is no object becomes the error "No BTC price" or
    "No USD rate".  [fetchPolygonPrice] makes no such check: what it
    returns is always an object with the four fields [price], [volume],
    [high] and [low], whatever their values. *)
Theorem adapters_share_one_contract env ticker w :
  List.Forall
    (fun a : string * M value =>
       snd (snd a w) = record_fetch (fst a) w
       /\ match fst (snd a w) with
          | Ok v => truthy v = true
          | Throw t => exists message, t = Thrown message
          end)
    [(PriceService.coingecko_url, PriceService.fetchBtcPrice env);
     (PriceService.exchangerate_url, PriceService.fetchEurUsdRate env);
     (PriceService.polygon_url ticker, PriceService.fetchPolygonPrice env ticker)]
  /\ (forall r data,
        upstream env (callIdx w) PriceService.coingecko_url = Reply r ->
        ok r = true -> body r = Json data ->
        fst (PriceService.fetchBtcPrice env w)
        = if truthy (PriceService.opt_member (PriceService.opt_member data "bitcoin") "usd")
          then Ok (PriceService.opt_member (PriceService.opt_member data "bitcoin") "usd")
          else Throw (Thrown "CoinGecko: No BTC price in response"))
  /\ (forall r data,
        upstream env (callIdx w) PriceService.exchangerate_url = Reply r ->
        ok r = true -> body r = Json data ->
        fst (PriceService.fetchEurUsdRate env w)
        = if truthy (PriceService.opt_member (PriceService.opt_member data "rates") "USD")
          then Ok (PriceService.opt_member (PriceService.opt_member data "rates") "USD")
          else Throw (Thrown "ExchangeRate: No USD rate in response"))
  /\ (forall q,
        fst (PriceService.fetchPolygonPrice env ticker w) = Ok q ->
        exists c v h l,
          q = VObj [("price", c); ("volume", v); ("high", h); ("low", l)]).
Proof.
  assert (Hcontract : forall url fetchFn, adapter url fetchFn ->
            snd (fetchFn w) = record_fetch url w
            /\ match fst (fetchFn w) with
               | Ok v => truthy v = true
               | Throw t => exists message, t = Thrown message
               end).
  { intros url fetchFn [Hone Hres]. split; [apply Hone|].
    specialize (Hres w). destruct (fst (fetchFn w)) as [v|[message|]];
      [exact Hres | now exists message | contradiction]. }
  split; [|split; [|split]].
  - repeat (apply List.Forall_cons || apply List.Forall_nil); cbn [fst snd].
    + apply Hcontract, fetchBtcPrice_adapter.
    + apply Hcontract, fetchEurUsdRate_adapter.
    + apply Hcontract, fetchPolygonPrice_adapter.
  - intros r data Hup Hok Hbody.
    unfold PriceService.fetchBtcPrice, bind, PriceService.fetch, PriceService.json.
    rewrite Hup, Hok, Hbody. cbn [negb ret].
    destruct (truthy _); reflexivity.
  - intros r data Hup Hok Hbody.
    unfold PriceService.fetchEurUsdRate, bind, PriceService.fetch, PriceService.json.
    rewrite Hup, Hok, Hbody. cbn [negb ret].
    destruct (truthy _); reflexivity.
  - intros q. unfold PriceService.fetchPolygonPrice, bind.
    destruct (PriceService.fetch env _ w) as [[response|t] w1]; [|discriminate].
    destruct (negb (ok response)); [discriminate|].
    destruct (PriceService.json response w1) as [[data|t] w2]; [|discriminate].
    destruct (PriceService.member env data "status" w2) as [[st|t] w3]; [|discriminate].
    destruct (PriceService.member env data "results" w3) as [[results|t] w4]; [|discriminate].
    destruct (_ || _); [discriminate|].
    destruct (PriceService.member env _ "c" w4) as [[c|t] w5]; [|discriminate].
    destruct (PriceService.member env _ "v" w5) as [[v|t] w6]; [|discriminate].
    destruct (PriceService.member env _ "h" w6) as [[h|t] w7]; [|discriminate].
    destruct (PriceService.member env _ "l" w7) as [[l|t] w8]; [|discriminate].
    intros [= <-]. now exists c, v, h, l.
Qed.

(** A reply that quotes a price of 0: the crypto adapter turns it into an
    error, the market-data adapter returns it in a quote. *)
Example price_of_zero_by_adapter :
  let reply v := Reply {| ok := true; status := 200; statusText := "OK"; body := Json v |} in
  let env_with v :=
    {| date_now := fun n => 1000 + Z.of_nat n; math_random := fun _ => 0%Q;
       upstream := fun _ _ => reply v; render := fun _ => "?" |} in
  fst (PriceService.fetchBtcPrice
         (env_with (VObj [("bitcoin", VObj [("usd", VNum 0)])])) empty_world)
    = Throw (Thrown "CoinGecko: No BTC price in response")
  /\ fst (PriceService.fetchPolygonPrice
            (env_with (VObj [("status", VStr "OK");
                             ("results", VArr [VObj [("c", VNum 0)]])]))
            "MSTR" empty_world)
     = Ok (VObj [("price", VNum 0); ("volume", VUndefined);
                 ("high", VUndefined); ("low", VUndefined)]).
Proof. cbv zeta. split; vm_compute; reflexivity. Qed.

Lemma backoff_loop_slept fetchFn n :
  (forall w, slept (snd (fetchFn w)) = slept w) ->
  forall rem a lastError w,
    (a + rem = n)%nat ->
    0 <= slept (snd (PriceService.backoff_loop fetchFn n rem a lastError w)) - slept w
      <= BASE_DELAY CONFIG * (2 ^ Z.of_nat (n - 1) - 2 ^ Z.of_nat (Nat.min a (n - 1))).
Proof.
  intros Hquiet. induction rem as [|rem IH]; intros a lastError w Han.
  - cbn [PriceService.backoff_loop throw snd].
    replace (Nat.min a (n - 1)) with (n - 1)%nat by lia. lia.
  - cbn [PriceService.backoff_loop]. unfold try_catch.
    pose proof (Hquiet w) as Hw. destruct (fetchFn w) as [[v|t] w1]; cbn [snd] in *.
    + assert (2 ^ Z.of_nat (Nat.min a (n - 1)) <= 2 ^ Z.of_nat (n - 1))
        by (apply Z.pow_le_mono_r; lia).
      change (BASE_DELAY CONFIG) with 16000. lia.
    + unfold bind.
      destruct (Z.of_nat a <? Z.of_nat n - 1) eqn:Hlt;
        unfold PriceService.sleep, modify, ret.
      * apply Z.ltb_lt in Hlt.
        specialize (IH (S a) t (record_sleep (BASE_DELAY CONFIG * 2 ^ Z.of_nat a) w1)
                       ltac:(lia)).
        cbn [record_sleep slept] in IH.
        replace (Nat.min (S a) (n - 1)) with (S a) in IH by lia.
        replace (Nat.min a (n - 1)) with a by lia.
        rewrite Nat2Z.inj_succ, Z.pow_succ_r in IH by lia.
        assert (0 < 2 ^ Z.of_nat a) by (apply Z.pow_pos_nonneg; lia).
        change (BASE_DELAY CONFIG) with 16000 in *. lia.
      * apply Z.ltb_ge in Hlt.
        specialize (IH (S a) t w1 ltac:(lia)).
        replace (Nat.min (S a) (n - 1)) with (n - 1)%nat in IH by lia.
        replace (Nat.min a (n - 1)) with (n - 1)%nat by lia.
        lia.
Qed.

(** X28. A retry loop sleeps at most [BASE_DELAY * (2^(maxRetries-1) - 1)]
    milliseconds in all, 240 s under the reference configuration, whatever
    the pattern of failures, provided the fetch function does not sleep
    itself; it never sleeps when the first attempt succeeds. *)
Theorem retry_loop_sleeps_at_most_240s (fetchFn : M value) (n : nat) w :
  (forall w0, slept (snd (fetchFn w0)) = slept w0) ->
  0 <= slept (snd (PriceService.fetchWithBackoff fetchFn n w)) - slept w
    <= BASE_DELAY CONFIG * (2 ^ Z.of_nat (n - 1) - 1)
  /\ BASE_DELAY CONFIG * (2 ^ Z.of_nat (MAX_RETRIES CONFIG - 1) - 1) = 240000
  /\ (forall v, (0 < n)%nat -> fst (fetchFn w) = Ok v ->
        PriceService.fetchWithBackoff fetchFn n w = (Ok v, snd (fetchFn w))).
Proof.
  intros Hquiet. split; [|split; [reflexivity|]].
  - pose proof (backoff_loop_slept fetchFn n Hquiet n 0%nat ThrownUndefined w eq_refl) as H.
    unfold PriceService.fetchWithBackoff.
    replace (Nat.min 0 (n - 1)) with 0%nat in H by lia.
    change (2 ^ Z.of_nat 0) with 1 in H. exact H.
  - intros v Hn Hok. destruct n as [|n]; [lia|].
    unfold PriceService.fetchWithBackoff. cbn [PriceService.backoff_loop].
    unfold try_catch. destruct (fetchFn w) as [o w1]. cbn [fst snd] in *. now subst o.
Qed.

Lemma retry_loop_sleeps_at_most_240s_witness :
  0 <= slept (snd (PriceService.fetchWithBackoff (PriceService.fetchBtcPrice env_down)
                     (MAX_RETRIES CONFIG) empty_world)) - slept empty_world
    <= BASE_DELAY CONFIG * (2 ^ Z.of_nat (MAX_RETRIES CONFIG - 1) - 1)
  /\ BASE_DELAY CONFIG * (2 ^ Z.of_nat (MAX_RETRIES CONFIG - 1) - 1) = 240000
  /\ (forall v, (0 < MAX_RETRIES CONFIG)%nat ->
        fst (PriceService.fetchBtcPrice env_down empty_world) = Ok v ->
        PriceService.fetchWithBackoff (PriceService.fetchBtcPrice env_down)
          (MAX_RETRIES CONFIG) empty_world
        = (Ok v, snd (PriceService.fetchBtcPrice env_down empty_world))).
Proof.
  apply (retry_loop_sleeps_at_most_240s (PriceService.fetchBtcPrice env_down)
           (MAX_RETRIES CONFIG) empty_world).
  intros w0. destruct (fetchBtcPrice_adapter env_down) as [Hone _].
  rewrite (Hone w0). reflexivity.
Defined.
